(** * connman_service.c: service state and property synchronisation

    A shallow embedding of [src/connman_service.c] of the webOS connman
    adapter, and the properties of it that the specification states.

    Conventions of the embedding.
    - C integers are [Z]; [guint] values are kept in [0, 2^32) and the
      wrap-around of an operation is written out where it can occur.
    - A [gchar *] is an [option string] ([None] is [NULL]); a pointer to a
      heap object is an index into the store of that object kind.
    - A [GVariant] is a tree tagged the way GLib tags it; its accessors are
      partial, and a violated GLib precondition aborts the run.
    - Everything that leaves the file (remote calls, callbacks, [system],
      notifications to other modules) is an [Event] appended to the trace
      of the [World].  Calls to the logging macros are not modelled.
    - A loop that need not end takes fuel, one unit for each pass; a run
      that has none left for a pass is cut off.
    - References to [GVariant] values are not counted: the file's calls of
      [g_variant_ref] and [g_variant_unref] are left out. *)

From Stdlib Require Import ZArith List String Ascii Bool Lia DecimalString.
Import ListNotations.

#[local] Set Warnings "-register-all".

Local Open Scope string_scope.
Local Open Scope list_scope.
Local Open Scope Z_scope.

(** ** C scalars *)

(** Conversion of an [unsigned int] to the [int] behind a [gboolean]. *)
Definition gint_of_guint (z : Z) : Z :=
  if z <? 2 ^ 31 then z else z - 2 ^ 32.

(** The value of a [char] holding byte [b]; [char_signed] is the platform's
    choice for plain [char]. *)
Definition char_of_byte (char_signed : bool) (b : Z) : Z :=
  if char_signed && (128 <=? b) then b - 256 else b.

Definition INT_MIN : Z := - 2 ^ 31.
Definition INT_MAX : Z := 2 ^ 31 - 1.

(** What [%d] prints. *)
Definition decimal (z : Z) : string := NilZero.string_of_int (Z.to_int z).

(** ** GLib strings *)

(** [g_strcmp0]: [strcmp] that accepts [NULL], which sorts first. *)
Definition g_strcmp0 (str1 str2 : option string) : Z :=
  match str1, str2 with
  | None, None => 0
  | None, Some _ => -1
  | Some _, None => 1
  | Some a, Some b =>
      match String.compare a b with
      | Eq => 0
      | Lt => -1
      | Gt => 1
      end
  end.

(** The [needle_len] bytes at [haystack + p] are those of [needle]. *)
Definition match_at (haystack needle : string) (p : nat) : bool :=
  String.eqb (substring p (String.length needle) haystack) needle.

(** The backwards scan of [g_strrstr], from offset [p] down to [0]. *)
Fixpoint g_strrstr_scan (haystack needle : string) (p : nat) : option nat :=
  if match_at haystack needle p then Some p
  else match p with
       | O => None
       | S p' => g_strrstr_scan haystack needle p'
       end.

(** [g_strrstr]: the offset of the last occurrence of [needle] in
    [haystack], [None] for [NULL]. *)
Definition g_strrstr (haystack needle : string) : option nat :=
  let needle_len := String.length needle in
  let haystack_len := String.length haystack in
  if Nat.eqb needle_len 0 then Some O
  else if Nat.ltb haystack_len needle_len then None
  else g_strrstr_scan haystack needle (haystack_len - needle_len).

(** [g_strlcpy (dest, src, dest_size)]: what ends up in [dest]. *)
Definition g_strlcpy (src : string) (dest_size : nat) : string :=
  substring 0 (dest_size - 1) src.

(** The C string that starts at a byte buffer: the bytes before the first
    zero byte. *)
Fixpoint c_string_of (data : list Z) : list Z :=
  match data with
  | [] => []
  | b :: rest => if b =? 0 then [] else b :: c_string_of rest
  end.

(** ** GVariant *)

Inductive GVariantType : Type :=
| G_VARIANT_TYPE_BOOLEAN
| G_VARIANT_TYPE_BYTE
| G_VARIANT_TYPE_UINT16
| G_VARIANT_TYPE_INT32
| G_VARIANT_TYPE_UINT32
| G_VARIANT_TYPE_STRING
| G_VARIANT_TYPE_VARIANT
| G_VARIANT_TYPE_ARRAY (element : GVariantType)
| G_VARIANT_TYPE_DICT_ENTRY (key value : GVariantType)
| G_VARIANT_TYPE_TUPLE (items : list GVariantType).

Definition G_VARIANT_TYPE_BYTESTRING : GVariantType :=
  G_VARIANT_TYPE_ARRAY G_VARIANT_TYPE_BYTE.

Definition G_VARIANT_TYPE_STRING_ARRAY : GVariantType :=
  G_VARIANT_TYPE_ARRAY G_VARIANT_TYPE_STRING.

(** [G_VARIANT_TYPE ("a{sv}")]. *)
Definition G_VARIANT_TYPE_VARDICT : GVariantType :=
  G_VARIANT_TYPE_ARRAY
    (G_VARIANT_TYPE_DICT_ENTRY G_VARIANT_TYPE_STRING G_VARIANT_TYPE_VARIANT).

Inductive GVariant : Type :=
| GV_boolean (b : bool)
| GV_byte (n : Z)
| GV_uint16 (n : Z)
| GV_int32 (n : Z)
| GV_uint32 (n : Z)
| GV_string (s : string)
| GV_variant (v : GVariant)
| GV_array (element : GVariantType) (children : list GVariant)
| GV_dict_entry (k v : GVariant)
| GV_tuple (children : list GVariant).

Fixpoint gtype_eqb (a b : GVariantType) : bool :=
  match a, b with
  | G_VARIANT_TYPE_BOOLEAN, G_VARIANT_TYPE_BOOLEAN => true
  | G_VARIANT_TYPE_BYTE, G_VARIANT_TYPE_BYTE => true
  | G_VARIANT_TYPE_UINT16, G_VARIANT_TYPE_UINT16 => true
  | G_VARIANT_TYPE_INT32, G_VARIANT_TYPE_INT32 => true
  | G_VARIANT_TYPE_UINT32, G_VARIANT_TYPE_UINT32 => true
  | G_VARIANT_TYPE_STRING, G_VARIANT_TYPE_STRING => true
  | G_VARIANT_TYPE_VARIANT, G_VARIANT_TYPE_VARIANT => true
  | G_VARIANT_TYPE_ARRAY x, G_VARIANT_TYPE_ARRAY y => gtype_eqb x y
  | G_VARIANT_TYPE_DICT_ENTRY k v, G_VARIANT_TYPE_DICT_ENTRY k' v' =>
      gtype_eqb k k' && gtype_eqb v v'
  | G_VARIANT_TYPE_TUPLE l, G_VARIANT_TYPE_TUPLE l' =>
      (fix all2 (l l' : list GVariantType) : bool :=
         match l, l' with
         | [], [] => true
         | x :: r, y :: r' => gtype_eqb x y && all2 r r'
         | _, _ => false
         end) l l'
  | _, _ => false
  end.

Fixpoint g_variant_get_type (value : GVariant) : GVariantType :=
  match value with
  | GV_boolean _ => G_VARIANT_TYPE_BOOLEAN
  | GV_byte _ => G_VARIANT_TYPE_BYTE
  | GV_uint16 _ => G_VARIANT_TYPE_UINT16
  | GV_int32 _ => G_VARIANT_TYPE_INT32
  | GV_uint32 _ => G_VARIANT_TYPE_UINT32
  | GV_string _ => G_VARIANT_TYPE_STRING
  | GV_variant _ => G_VARIANT_TYPE_VARIANT
  | GV_array element _ => G_VARIANT_TYPE_ARRAY element
  | GV_dict_entry k v =>
      G_VARIANT_TYPE_DICT_ENTRY (g_variant_get_type k) (g_variant_get_type v)
  | GV_tuple children => G_VARIANT_TYPE_TUPLE (map g_variant_get_type children)
  end.

Definition g_variant_is_of_type (value : GVariant) (type : GVariantType) : bool :=
  gtype_eqb (g_variant_get_type value) type.

(** The pattern [a{s*}] that [g_variant_lookup_value] asks of a dictionary. *)
Definition is_string_dictionary (value : GVariant) : bool :=
  match g_variant_get_type value with
  | G_VARIANT_TYPE_ARRAY (G_VARIANT_TYPE_DICT_ENTRY G_VARIANT_TYPE_STRING _) => true
  | _ => false
  end.

(** The accessors return [None] where GLib's precondition on the type or
    the index of the argument does not hold. *)

Definition g_variant_n_children (value : GVariant) : option nat :=
  match value with
  | GV_array _ children | GV_tuple children => Some (List.length children)
  | GV_dict_entry _ _ => Some 2%nat
  | GV_variant _ => Some 1%nat
  | _ => None
  end.

Definition g_variant_get_child_value (value : GVariant) (index : nat)
  : option GVariant :=
  match value with
  | GV_array _ children | GV_tuple children => nth_error children index
  | GV_dict_entry k v => nth_error [k; v] index
  | GV_variant v => nth_error [v] index
  | _ => None
  end.

Definition g_variant_get_variant (value : GVariant) : option GVariant :=
  match value with GV_variant v => Some v | _ => None end.

Definition g_variant_get_string (value : GVariant) : option string :=
  match value with GV_string s => Some s | _ => None end.

Definition g_variant_dup_string (value : GVariant) : option string :=
  g_variant_get_string value.

Definition g_variant_get_boolean (value : GVariant) : option bool :=
  match value with GV_boolean b => Some b | _ => None end.

Definition g_variant_get_byte (value : GVariant) : option Z :=
  match value with GV_byte n => Some n | _ => None end.

Definition g_variant_get_uint16 (value : GVariant) : option Z :=
  match value with GV_uint16 n => Some n | _ => None end.

Definition g_variant_get_int32 (value : GVariant) : option Z :=
  match value with GV_int32 n => Some n | _ => None end.

Definition g_variant_get_uint32 (value : GVariant) : option Z :=
  match value with GV_uint32 n => Some n | _ => None end.

Fixpoint strings_of (children : list GVariant) : option (list string) :=
  match children with
  | [] => Some []
  | c :: rest =>
      match g_variant_get_string c, strings_of rest with
      | Some s, Some l => Some (s :: l)
      | _, _ => None
      end
  end.

Definition g_variant_dup_strv (value : GVariant) : option (list string) :=
  match value with
  | GV_array G_VARIANT_TYPE_STRING children => strings_of children
  | _ => None
  end.

Fixpoint bytes_of (children : list GVariant) : option (list Z) :=
  match children with
  | [] => Some []
  | c :: rest =>
      match g_variant_get_byte c, bytes_of rest with
      | Some b, Some l => Some (b :: l)
      | _, _ => None
      end
  end.

(** [g_variant_get_data]: the serialised form, given for the two types the
    file reads it of, a byte and an array of bytes. *)
Definition g_variant_get_data (value : GVariant) : option (list Z) :=
  match value with
  | GV_byte n => Some [n]
  | GV_array G_VARIANT_TYPE_BYTE children => bytes_of children
  | _ => None
  end.

Definition g_variant_get_size (value : GVariant) : option nat :=
  option_map (@List.length Z) (g_variant_get_data value).

(** The first entry of a dictionary whose key is [key]. *)
Fixpoint find_entry (entries : list GVariant) (key : string) : option GVariant :=
  match entries with
  | [] => None
  | GV_dict_entry (GV_string k) v :: rest =>
      if String.eqb k key then Some v else find_entry rest key
  | _ :: rest => find_entry rest key
  end.

(** [g_variant_lookup_value]: outer [None] is the violated precondition,
    inner [None] the [NULL] of a missing key or of a value that is not of
    [expected_type]. *)
Definition g_variant_lookup_value (dictionary : GVariant) (key : string)
    (expected_type : GVariantType) : option (option GVariant) :=
  if is_string_dictionary dictionary then
    match dictionary with
    | GV_array _ entries =>
        match find_entry entries key with
        | None => Some None
        | Some (GV_variant tmp) =>
            if g_variant_is_of_type tmp expected_type
            then Some (Some tmp) else Some None
        | Some value =>
            if g_variant_is_of_type value expected_type
            then Some (Some value) else None
        end
    | _ => None
    end
  else None.

(** ** What the headers outside this file declare *)

(** The enumerators and macros of [connman_service.h], [common.h] and the
    build that the file names; their values are not fixed here. *)
Class connman_service_h : Type := {
  CONNMAN_SERVICE_TYPE_WIFI : Z;
  CONNMAN_SERVICE_TYPE_ETHERNET : Z;
  CONNMAN_SERVICE_TYPE_P2P : Z;
  CONNMAN_SERVICE_STATE_IDLE : Z;
  CONNMAN_SERVICE_STATE_ASSOCIATION : Z;
  CONNMAN_SERVICE_STATE_CONFIGURATION : Z;
  CONNMAN_SERVICE_STATE_READY : Z;
  CONNMAN_SERVICE_STATE_ONLINE : Z;
  CONNMAN_SERVICE_STATE_DISCONNECT : Z;
  CONNMAN_SERVICE_STATE_FAILURE : Z;
  CONNMAN_SERVICE_CHANGE_CATEGORY_GETSTATUS : Z;
  CONNMAN_SERVICE_CHANGE_CATEGORY_FINDNETWORKS : Z;
  WPS_PBC : Z;
  WPS_KEYPAD : Z;
  WPS_DISPLAY : Z;
  (** whether the build defines the macro of that name *)
  MULTIPLE_ROUTING_TABLE : bool
}.

(** [struct cb_data] of [utils.h]: the caller's callback, its argument, and
    the service the request was made on. *)
Record cb_data : Type := Build_cb_data {
  cb : option nat;
  data : nat;
  user : nat
}.

(** [cbd->user = service] *)
Definition set_user (service : nat) (cbd : cb_data) : cb_data :=
  {| cb := cb cbd; data := data cbd; user := service |}.

(** Pure helpers of [utils.c], libc and GLib that the file calls. *)
Class Collaborators : Type := {
  (** [cb_data_new (cb, user_data)]: the block it allocates *)
  cb_data_new : option nat -> nat -> cb_data;
  is_vlan : string -> bool;
  (** [sscanf (s, "%d", &n)]: the number read, [None] when nothing is assigned *)
  sscanf_d : string -> option Z;
  g_utf8_validate : string -> nat -> bool;
  convert_ssid_to_utf8 : string -> nat -> option string -> option string;
  strip_prefix : option string -> string -> option string;
  (** whether plain [char] is signed on the target *)
  char_signed : bool
}.

(** ** The structures *)

Ltac build_setter eta proj :=
  let body := eval cbv delta [eta] in eta in
  match eval pattern proj in body with
  | ?updater _ =>
      let setter := eval cbv beta in (fun v => updater (fun _ => v)) in
      exact setter
  end.

(** [struct peer]: the P2P side of a service, with the Wi-Fi Display
    capability fields. *)
Record peer : Type := Build_peer {
  peer_address : option string;
  pri_dev_type : option string;
  group_owner : bool;
  config_method : Z;
  wfd_enabled : bool;
  wfd_devtype : Z;
  wfd_sessionavail : Z;
  wfd_cpsupport : Z;
  wfd_rtspport : Z;
  service_discovery_response : option string
}.

Definition eta_peer (p : peer) : peer :=
  Build_peer (peer_address p) (pri_dev_type p) (group_owner p)
    (config_method p) (wfd_enabled p) (wfd_devtype p) (wfd_sessionavail p)
    (wfd_cpsupport p) (wfd_rtspport p) (service_discovery_response p).

Definition set_peer_address : option string -> peer -> peer :=
  ltac:(build_setter eta_peer peer_address).
Definition set_pri_dev_type : option string -> peer -> peer :=
  ltac:(build_setter eta_peer pri_dev_type).
Definition set_group_owner : bool -> peer -> peer :=
  ltac:(build_setter eta_peer group_owner).
Definition set_config_method : Z -> peer -> peer :=
  ltac:(build_setter eta_peer config_method).
Definition set_wfd_enabled : bool -> peer -> peer :=
  ltac:(build_setter eta_peer wfd_enabled).
Definition set_wfd_devtype : Z -> peer -> peer :=
  ltac:(build_setter eta_peer wfd_devtype).
Definition set_wfd_sessionavail : Z -> peer -> peer :=
  ltac:(build_setter eta_peer wfd_sessionavail).
Definition set_wfd_cpsupport : Z -> peer -> peer :=
  ltac:(build_setter eta_peer wfd_cpsupport).
Definition set_wfd_rtspport : Z -> peer -> peer :=
  ltac:(build_setter eta_peer wfd_rtspport).
Definition set_service_discovery_response : option string -> peer -> peer :=
  ltac:(build_setter eta_peer service_discovery_response).

Record ipv4info_t : Type := Build_ipv4info {
  ipv4_method : option string;
  ipv4_address : option string;
  ipv4_netmask : option string;
  ipv4_gateway : option string;
  prefix_len : Z
}.

Definition eta_ipv4info (i : ipv4info_t) : ipv4info_t :=
  Build_ipv4info (ipv4_method i) (ipv4_address i) (ipv4_netmask i)
    (ipv4_gateway i) (prefix_len i).

Definition set_ipv4_method : option string -> ipv4info_t -> ipv4info_t :=
  ltac:(build_setter eta_ipv4info ipv4_method).
Definition set_ipv4_address : option string -> ipv4info_t -> ipv4info_t :=
  ltac:(build_setter eta_ipv4info ipv4_address).
Definition set_ipv4_netmask : option string -> ipv4info_t -> ipv4info_t :=
  ltac:(build_setter eta_ipv4info ipv4_netmask).
Definition set_ipv4_gateway : option string -> ipv4info_t -> ipv4info_t :=
  ltac:(build_setter eta_ipv4info ipv4_gateway).
Definition set_prefix_len : Z -> ipv4info_t -> ipv4info_t :=
  ltac:(build_setter eta_ipv4info prefix_len).

Record ipv6info_t : Type := Build_ipv6info {
  ipv6_method : option string;
  ipv6_address : option string;
  prefix_length : Z;
  ipv6_gateway : option string
}.

Definition eta_ipv6info (i : ipv6info_t) : ipv6info_t :=
  Build_ipv6info (ipv6_method i) (ipv6_address i) (prefix_length i)
    (ipv6_gateway i).

Definition set_ipv6_method : option string -> ipv6info_t -> ipv6info_t :=
  ltac:(build_setter eta_ipv6info ipv6_method).
Definition set_ipv6_address : option string -> ipv6info_t -> ipv6info_t :=
  ltac:(build_setter eta_ipv6info ipv6_address).
Definition set_prefix_length : Z -> ipv6info_t -> ipv6info_t :=
  ltac:(build_setter eta_ipv6info prefix_length).
Definition set_ipv6_gateway : option string -> ipv6info_t -> ipv6info_t :=
  ltac:(build_setter eta_ipv6info ipv6_gateway).

Record ipinfo_t : Type := Build_ipinfo {
  iface : option string;
  ipv4 : ipv4info_t;
  ipv6 : ipv6info_t;
  dns : option (list string)
}.

Definition eta_ipinfo (i : ipinfo_t) : ipinfo_t :=
  Build_ipinfo (iface i) (ipv4 i) (ipv6 i) (dns i).

Definition set_iface : option string -> ipinfo_t -> ipinfo_t :=
  ltac:(build_setter eta_ipinfo iface).
Definition set_ipv4 : ipv4info_t -> ipinfo_t -> ipinfo_t :=
  ltac:(build_setter eta_ipinfo ipv4).
Definition set_ipv6 : ipv6info_t -> ipinfo_t -> ipinfo_t :=
  ltac:(build_setter eta_ipinfo ipv6).
Definition set_dns : option (list string) -> ipinfo_t -> ipinfo_t :=
  ltac:(build_setter eta_ipinfo dns).

Record proxyinfo_t : Type := Build_proxyinfo {
  proxy_method : option string;
  url : option string;
  servers : option (list string);
  excludes : option (list string)
}.

Definition eta_proxyinfo (x : proxyinfo_t) : proxyinfo_t :=
  Build_proxyinfo (proxy_method x) (url x) (servers x) (excludes x).

Definition set_proxy_method : option string -> proxyinfo_t -> proxyinfo_t :=
  ltac:(build_setter eta_proxyinfo proxy_method).
Definition set_url : option string -> proxyinfo_t -> proxyinfo_t :=
  ltac:(build_setter eta_proxyinfo url).
Definition set_servers : option (list string) -> proxyinfo_t -> proxyinfo_t :=
  ltac:(build_setter eta_proxyinfo servers).
Definition set_excludes : option (list string) -> proxyinfo_t -> proxyinfo_t :=
  ltac:(build_setter eta_proxyinfo excludes).

(** [bssinfo_t]; [bssid] is a [char[18]]. *)
Record bssinfo_t : Type := Build_bssinfo {
  bssid : string;
  signal : Z;
  frequency : Z
}.

(** [connman_service_t], with the members this file reads or writes. *)
Record connman_service_t : Type := Build_connman_service {
  path : option string;
  identifier : option string;
  name : option string;
  display_name : option string;
  ssid : option string;
  ssid_len : nat;
  state : option string;
  error : option string;
  address : option string;
  mac_address : option string;
  interface_name : option string;
  security : option (list string);
  type : Z;
  strength : Z;
  auto_connect : bool;
  immutable : bool;
  favorite : bool;
  online : bool;
  online_checking : bool;
  hidden : bool;
  disconnecting : bool;
  change_mask : Z;
  iprule_added : bool;
  ipinfo : ipinfo_t;
  proxyinfo : proxyinfo_t;
  peer_info : peer;
  bss : option (list bssinfo_t);
  cancellable : option nat;
  remote : nat;
  sighandler_id : Z;
  handle_property_change_fn : option nat;
  handle_p2p_request_fn : option nat
}.

Definition eta_service (s : connman_service_t) : connman_service_t :=
  Build_connman_service (path s) (identifier s) (name s) (display_name s)
    (ssid s) (ssid_len s) (state s) (error s) (address s) (mac_address s)
    (interface_name s) (security s) (type s) (strength s) (auto_connect s)
    (immutable s) (favorite s) (online s) (online_checking s) (hidden s)
    (disconnecting s) (change_mask s) (iprule_added s) (ipinfo s)
    (proxyinfo s) (peer_info s) (bss s) (cancellable s) (remote s)
    (sighandler_id s) (handle_property_change_fn s)
    (handle_p2p_request_fn s).

Definition set_path : option string -> connman_service_t -> connman_service_t :=
  ltac:(build_setter eta_service path).
Definition set_identifier : option string -> connman_service_t -> connman_service_t :=
  ltac:(build_setter eta_service identifier).
Definition set_name : option string -> connman_service_t -> connman_service_t :=
  ltac:(build_setter eta_service name).
Definition set_display_name : option string -> connman_service_t -> connman_service_t :=
  ltac:(build_setter eta_service display_name).
Definition set_ssid : option string -> connman_service_t -> connman_service_t :=
  ltac:(build_setter eta_service ssid).
Definition set_ssid_len : nat -> connman_service_t -> connman_service_t :=
  ltac:(build_setter eta_service ssid_len).
Definition set_state : option string -> connman_service_t -> connman_service_t :=
  ltac:(build_setter eta_service state).
Definition set_error : option string -> connman_service_t -> connman_service_t :=
  ltac:(build_setter eta_service error).
Definition set_address : option string -> connman_service_t -> connman_service_t :=
  ltac:(build_setter eta_service address).
Definition set_mac_address : option string -> connman_service_t -> connman_service_t :=
  ltac:(build_setter eta_service mac_address).
Definition set_interface_name : option string -> connman_service_t -> connman_service_t :=
  ltac:(build_setter eta_service interface_name).
Definition set_security : option (list string) -> connman_service_t -> connman_service_t :=
  ltac:(build_setter eta_service security).
Definition set_type : Z -> connman_service_t -> connman_service_t :=
  ltac:(build_setter eta_service type).
Definition set_strength : Z -> connman_service_t -> connman_service_t :=
  ltac:(build_setter eta_service strength).
Definition set_auto_connect : bool -> connman_service_t -> connman_service_t :=
  ltac:(build_setter eta_service auto_connect).
Definition set_immutable : bool -> connman_service_t -> connman_service_t :=
  ltac:(build_setter eta_service immutable).
Definition set_favorite : bool -> connman_service_t -> connman_service_t :=
  ltac:(build_setter eta_service favorite).
Definition set_online : bool -> connman_service_t -> connman_service_t :=
  ltac:(build_setter eta_service online).
Definition set_online_checking : bool -> connman_service_t -> connman_service_t :=
  ltac:(build_setter eta_service online_checking).
Definition set_hidden : bool -> connman_service_t -> connman_service_t :=
  ltac:(build_setter eta_service hidden).
Definition set_disconnecting : bool -> connman_service_t -> connman_service_t :=
  ltac:(build_setter eta_service disconnecting).
Definition set_change_mask : Z -> connman_service_t -> connman_service_t :=
  ltac:(build_setter eta_service change_mask).
Definition set_iprule_added : bool -> connman_service_t -> connman_service_t :=
  ltac:(build_setter eta_service iprule_added).
Definition set_ipinfo : ipinfo_t -> connman_service_t -> connman_service_t :=
  ltac:(build_setter eta_service ipinfo).
Definition set_proxyinfo : proxyinfo_t -> connman_service_t -> connman_service_t :=
  ltac:(build_setter eta_service proxyinfo).
Definition set_peer_info : peer -> connman_service_t -> connman_service_t :=
  ltac:(build_setter eta_service peer_info).
Definition set_bss : option (list bssinfo_t) -> connman_service_t -> connman_service_t :=
  ltac:(build_setter eta_service bss).
Definition set_cancellable : option nat -> connman_service_t -> connman_service_t :=
  ltac:(build_setter eta_service cancellable).
Definition set_remote : nat -> connman_service_t -> connman_service_t :=
  ltac:(build_setter eta_service remote).
Definition set_sighandler_id : Z -> connman_service_t -> connman_service_t :=
  ltac:(build_setter eta_service sighandler_id).
Definition set_handle_property_change_fn
  : option nat -> connman_service_t -> connman_service_t :=
  ltac:(build_setter eta_service handle_property_change_fn).
Definition set_handle_p2p_request_fn
  : option nat -> connman_service_t -> connman_service_t :=
  ltac:(build_setter eta_service handle_p2p_request_fn).

(** Writes through a member of a nested structure. *)
Definition upd_ipinfo (f : ipinfo_t -> ipinfo_t) (s : connman_service_t) :=
  set_ipinfo (f (ipinfo s)) s.
Definition upd_ipv4 (f : ipv4info_t -> ipv4info_t) (s : connman_service_t) :=
  upd_ipinfo (fun i => set_ipv4 (f (ipv4 i)) i) s.
Definition upd_ipv6 (f : ipv6info_t -> ipv6info_t) (s : connman_service_t) :=
  upd_ipinfo (fun i => set_ipv6 (f (ipv6 i)) i) s.
Definition upd_proxyinfo (f : proxyinfo_t -> proxyinfo_t) (s : connman_service_t) :=
  set_proxyinfo (f (proxyinfo s)) s.
Definition upd_peer (f : peer -> peer) (s : connman_service_t) :=
  set_peer_info (f (peer_info s)) s.

(** The block [g_new0 (connman_service_t, 1)] returns. *)
Definition zeroed_service : connman_service_t :=
  {| path := None; identifier := None; name := None; display_name := None;
     ssid := None; ssid_len := 0; state := None; error := None;
     address := None; mac_address := None; interface_name := None;
     security := None; type := 0; strength := 0; auto_connect := false;
     immutable := false; favorite := false; online := false;
     online_checking := false; hidden := false; disconnecting := false;
     change_mask := 0; iprule_added := false;
     ipinfo := {| iface := None;
                  ipv4 := Build_ipv4info None None None None 0;
                  ipv6 := Build_ipv6info None None 0 None;
                  dns := None |};
     proxyinfo := Build_proxyinfo None None None None;
     peer_info := Build_peer None None false 0 false 0 0 0 0 None;
     bss := None; cancellable := None; remote := 0; sighandler_id := 0;
     handle_property_change_fn := None; handle_p2p_request_fn := None |}.

(** A [GAsyncResult] of a connect call: what [..._call_connect_finish]
    returns for it and the [GError] message it sets, if any. *)
Record GAsyncResult : Type := Build_GAsyncResult {
  finish_ret : bool;
  finish_error : option string
}.

Record GCancellable : Type := Build_GCancellable {
  cancelled : bool;
  ref_count : nat
}.

(** ** The world outside the function bodies *)

(** Methods of the remote object's proxy. *)
Inductive RemoteCall : Type :=
| Call_connect (token : nat)
| Call_peer_connect (token : nat)
| Call_disconnect
| Call_peer_disconnect
| Call_remove
| Call_reject_peer
| Call_set_default
| Call_set_property (property : string) (value : GVariant)
| Call_get_properties.

(** The three commands [connman_service_set_ip_rule] hands to [system]. *)
Inductive ip_command : Type :=
| Ip_route_default (add : bool) (table_Id : Z) (gateway : string)
| Ip_rule_from (add : bool) (addr : string) (prefix : Z) (table_Id : Z)
| Ip_rule_to (add : bool) (addr : string) (prefix : Z) (table_Id : Z).

(** [(status) ? "add" : "delete"] *)
Definition ip_verb (add : bool) : string := if add then "add" else "delete".

(** The text that [sprintf] writes for a command, from the three format
    strings ["ip route %s table %d default via %s"],
    ["ip rule %s from  %s/%d table %d"] and
    ["ip rule %s to %s/%d table %d"]. *)
Definition ip_command_text (c : ip_command) : string :=
  match c with
  | Ip_route_default add table_Id gateway =>
      ("ip route " ++ ip_verb add ++ " table " ++ decimal table_Id
       ++ " default via " ++ gateway)%string
  | Ip_rule_from add addr prefix table_Id =>
      ("ip rule " ++ ip_verb add ++ " from  " ++ addr ++ "/" ++ decimal prefix
       ++ " table " ++ decimal table_Id)%string
  | Ip_rule_to add addr prefix table_Id =>
      ("ip rule " ++ ip_verb add ++ " to " ++ addr ++ "/" ++ decimal prefix
       ++ " table " ++ decimal table_Id)%string
  end.

Inductive Event : Type :=
| E_remote_call (proxy : nat) (call : RemoteCall)
| E_connect_finish (proxy : nat) (is_peer : bool)
| E_connect_cb (fn : nat) (ret : bool) (user_data : nat)
| E_property_change_fn (fn : nat) (service : nat) (property : string)
    (value : GVariant)
| E_p2p_request_fn (fn : nat) (service : nat) (wpstype : Z)
    (wpspin goaddr : option string) (signal_name : string)
| E_service_property_changed (fn : nat) (service_path : option string)
    (property : option string) (value : GVariant)
| E_send_status_to_subscribers
| E_technology_update_properties
| E_system (command : ip_command)
| E_signal_handler_disconnect (proxy : nat) (id : Z)
| E_proxy_unref (proxy : nat).

(** An asynchronous connect that was issued and has not completed. *)
Record pending_call : Type := Build_pending_call {
  pending_is_peer : bool;
  pending_token : nat;
  pending_cbd : cb_data
}.

(** What the collaborators answer; the file only reads it. *)
Record Environment : Type := Build_Environment {
  (** [GError] message of a synchronous call, [None] for success *)
  remote_error : nat -> RemoteCall -> option string;
  (** the bag [..._call_get_properties_sync] returns *)
  remote_properties : nat -> GVariant;
  (** [is_connected_peer ()] *)
  is_connected_peer : bool;
  (** [manager] is set and [connman_manager_get_connected_service] finds a
      connected P2P service *)
  connected_p2p_service : bool;
  (** [connman_update_callbacks->service_property_changed] *)
  service_property_changed : option nat;
  (** [get_current_system_locale ()] *)
  system_locale : option string;
  (** proxy construction in [connman_service_new]: the proxy, and the
      [GError] message if it failed *)
  proxy_new : nat;
  proxy_new_error : option string;
  (** handler id [g_signal_connect_data] returns *)
  signal_connect : Z
}.

Record World : Type := Build_World {
  (** the [connman_service_t] blocks; [None] is a freed block *)
  services : list (option connman_service_t);
  (** the [GCancellable] objects *)
  cancellables : list GCancellable;
  (** the file's static flag *)
  subscibed_for_diagnostiecs : bool;
  pending : list pending_call;
  env : Environment;
  (** events, oldest first *)
  trace : list Event
}.

Definition eta_World (w : World) : World :=
  Build_World (services w) (cancellables w) (subscibed_for_diagnostiecs w)
    (pending w) (env w) (trace w).

Definition set_services : list (option connman_service_t) -> World -> World :=
  ltac:(build_setter eta_World services).
Definition set_cancellables : list GCancellable -> World -> World :=
  ltac:(build_setter eta_World cancellables).
Definition set_subscibed_for_diagnostiecs : bool -> World -> World :=
  ltac:(build_setter eta_World subscibed_for_diagnostiecs).
Definition set_pending : list pending_call -> World -> World :=
  ltac:(build_setter eta_World pending).
Definition set_trace : list Event -> World -> World :=
  ltac:(build_setter eta_World trace).

(** [l] with the element at [n] replaced; [l] itself out of range. *)
Fixpoint update_nth {A : Type} (n : nat) (x : A) (l : list A) : list A :=
  match l, n with
  | [], _ => []
  | _ :: r, O => x :: r
  | y :: r, S n' => y :: update_nth n' x r
  end.

Fixpoint remove_nth {A : Type} (n : nat) (l : list A) : list A :=
  match l, n with
  | [], _ => []
  | _ :: r, O => r
  | y :: r, S n' => y :: remove_nth n' r
  end.

Definition lookup_service (w : World) (p : nat) : option connman_service_t :=
  match nth_error (services w) p with
  | Some (Some s) => Some s
  | _ => None
  end.

Definition store_service (p : nat) (s : connman_service_t) (w : World) : World :=
  set_services (update_nth p (Some s) (services w)) w.

(** ** Runs *)

(** A run ends with a value, aborts (undefined behaviour in C, a failed
    precondition in GLib), or is cut off where a loop has no fuel left for
    its next pass; the world is the one reached in each case. *)
Inductive outcome (A : Type) : Type :=
| Done (a : A)
| Abort
| OutOfFuel.

Arguments Done {A} a.
Arguments Abort {A}.
Arguments OutOfFuel {A}.

Definition M (A : Type) : Type := World -> outcome A * World.

Definition mret {A : Type} (a : A) : M A := fun w => (Done a, w).

Definition mbind {A B : Type} (m : M A) (k : A -> M B) : M B :=
  fun w =>
    match m w with
    | (Done a, w') => k a w'
    | (Abort, w') => (Abort, w')
    | (OutOfFuel, w') => (OutOfFuel, w')
    end.

Definition abort {A : Type} : M A := fun w => (Abort, w).

Definition out_of_fuel {A : Type} : M A := fun w => (OutOfFuel, w).

Notation "x <- m ;; k" := (mbind m (fun x => k))
  (at level 61, m at next level, right associativity).
Notation "m ;; k" := (mbind m (fun _ => k))
  (at level 61, right associativity).

(** A GLib accessor inside a run. *)
Definition lift {A : Type} (o : option A) : M A :=
  match o with
  | Some a => mret a
  | None => abort
  end.

Definition emit (e : Event) : M unit :=
  fun w => (Done tt, set_trace (trace w ++ [e]) w).

Definition ask {A : Type} (f : Environment -> A) : M A :=
  fun w => (Done (f (env w)), w).

(** [service->member] *)
Definition get {A : Type} (service : nat) (member : connman_service_t -> A)
  : M A :=
  fun w =>
    match lookup_service w service with
    | Some s => (Done (member s), w)
    | None => (Abort, w)
    end.

(** [service->member = v], as the setter [f] *)
Definition modify (service : nat)
    (f : connman_service_t -> connman_service_t) : M unit :=
  fun w =>
    match lookup_service w service with
    | Some s => (Done tt, store_service service (f s) w)
    | None => (Abort, w)
    end.

Definition when (c : bool) (m : M unit) : M unit :=
  if c then m else mret tt.

(** [for (j = first; j < first + count; j++) body] *)
Fixpoint for_loop (first count : nat) (body : nat -> M unit) : M unit :=
  match count with
  | O => mret tt
  | S c => body first ;; for_loop (S first) c body
  end.

(** The same loop around a local variable of the enclosing block. *)
Fixpoint for_fold {A : Type} (first count : nat) (acc : A)
    (body : nat -> A -> M A) : M A :=
  match count with
  | O => mret acc
  | S c => acc' <- body first acc ;; for_fold (S first) c acc' body
  end.

(** C's [!x] and the truth of [x] for an [int]. *)
Definition c_not (x : Z) : bool := x =? 0.
Definition c_true (x : Z) : bool := negb (x =? 0).

(** *** GObject tokens *)

Definition g_cancellable_new : M nat :=
  fun w =>
    (Done (List.length (cancellables w)),
     set_cancellables
       (cancellables w ++ [{| cancelled := false; ref_count := 1 |}]) w).

(** A live object is one whose reference count is positive. *)
Definition live_token (w : World) (t : nat) : option GCancellable :=
  match nth_error (cancellables w) t with
  | Some c => if Nat.eqb (ref_count c) 0 then None else Some c
  | None => None
  end.

Definition g_cancellable_is_cancelled (t : nat) : M bool :=
  fun w =>
    match live_token w t with
    | Some c => (Done (cancelled c), w)
    | None => (Abort, w)
    end.

Definition g_cancellable_cancel (t : nat) : M unit :=
  fun w =>
    match live_token w t with
    | Some c =>
        (Done tt,
         set_cancellables
           (update_nth t {| cancelled := true; ref_count := ref_count c |}
              (cancellables w)) w)
    | None => (Abort, w)
    end.

Definition g_object_unref (t : nat) : M unit :=
  fun w =>
    match live_token w t with
    | Some c =>
        (Done tt,
         set_cancellables
           (update_nth t
              {| cancelled := cancelled c; ref_count := pred (ref_count c) |}
              (cancellables w)) w)
    | None => (Abort, w)
    end.

(** *** The remote proxy *)

(** A synchronous call: the request leaves, the [GError] message comes
    back. *)
Definition call_sync (proxy : nat) (call : RemoteCall) : M (option string) :=
  emit (E_remote_call proxy call) ;;
  ask (fun e => remote_error e proxy call).

(** An asynchronous connect: the request leaves and its completion is
    owed. *)
Definition call_connect_async (proxy : nat) (is_peer : bool) (token : nat)
    (cbd : cb_data) : M unit :=
  emit (E_remote_call proxy
          (if is_peer then Call_peer_connect token else Call_connect token)) ;;
  fun w =>
    (Done tt,
     set_pending
       (pending w ++
          [{| pending_is_peer := is_peer; pending_token := token;
              pending_cbd := cbd |}]) w).

(** [..._call_connect_finish (proxy, res, &error)] *)
Definition call_connect_finish (proxy : nat) (is_peer : bool)
    (res : GAsyncResult) : M (bool * option string) :=
  emit (E_connect_finish proxy is_peer) ;;
  mret (finish_ret res, finish_error res).

(** ** The functions of connman_service.c *)

Section Service.

Context {hdr : connman_service_h} {ext : Collaborators}.

Definition connman_service_type_wifi (service : option nat) : M bool :=
  match service with
  | None => mret false
  | Some p => t <- get p type ;; mret (t =? CONNMAN_SERVICE_TYPE_WIFI)
  end.

Definition connman_service_type_ethernet (service : option nat) : M bool :=
  match service with
  | None => mret false
  | Some p => t <- get p type ;; mret (t =? CONNMAN_SERVICE_TYPE_ETHERNET)
  end.

Definition connman_service_type_p2p (service : option nat) : M bool :=
  match service with
  | None => mret false
  | Some p => t <- get p type ;; mret (CONNMAN_SERVICE_TYPE_P2P =? t)
  end.

(** The [switch] over the state enumerators, read in the order of its
    labels. *)
Definition connman_service_get_webos_state (connman_state : Z) : string :=
  if (connman_state =? CONNMAN_SERVICE_STATE_DISCONNECT)
     || (connman_state =? CONNMAN_SERVICE_STATE_IDLE)
  then "notAssociated"
  else if connman_state =? CONNMAN_SERVICE_STATE_ASSOCIATION
  then "associating"
  else if connman_state =? CONNMAN_SERVICE_STATE_CONFIGURATION
  then "associated"
  else if (connman_state =? CONNMAN_SERVICE_STATE_READY)
          || (connman_state =? CONNMAN_SERVICE_STATE_ONLINE)
  then "ipConfigured"
  else if connman_state =? CONNMAN_SERVICE_STATE_FAILURE
  then "ipFailed"
  else "notAssociated".

Definition connman_service_get_state (state : option string) : Z :=
  let result := CONNMAN_SERVICE_STATE_IDLE in
  match state with
  | None => result
  | Some _ =>
      if c_not (g_strcmp0 state (Some "idle"))
      then CONNMAN_SERVICE_STATE_IDLE
      else if c_not (g_strcmp0 state (Some "association"))
      then CONNMAN_SERVICE_STATE_ASSOCIATION
      else if c_not (g_strcmp0 state (Some "configuration"))
      then CONNMAN_SERVICE_STATE_CONFIGURATION
      else if c_not (g_strcmp0 state (Some "ready"))
      then CONNMAN_SERVICE_STATE_READY
      else if c_not (g_strcmp0 state (Some "online"))
      then CONNMAN_SERVICE_STATE_ONLINE
      else if c_not (g_strcmp0 state (Some "disconnect"))
      then CONNMAN_SERVICE_STATE_DISCONNECT
      else if c_not (g_strcmp0 state (Some "failure"))
      then CONNMAN_SERVICE_STATE_FAILURE
      else result
  end.

(** [service->change_mask &= ~category], the complement taken in
    [unsigned int]. *)
Definition connman_service_unset_changed (service : nat) (category : Z)
  : M unit :=
  modify service
    (fun s =>
       set_change_mask
         (Z.land (change_mask s) (Z.lnot category mod 2 ^ 32)) s).

(** [service->change_mask |= category] *)
Definition connman_service_set_changed (service : nat) (category : Z)
  : M unit :=
  modify service
    (fun s => set_change_mask (Z.lor (change_mask s) category) s).

(** [return (service->change_mask & category);] as a [gboolean] *)
Definition connman_service_is_changed (service : nat) (category : Z) : M Z :=
  m <- get service change_mask ;;
  mret (gint_of_guint (Z.land m category)).

Definition connect_callback (res : GAsyncResult) (user_data : cb_data)
  : M unit :=
  let cbd := user_data in
  let service := user cbd in
  let ret := false in
  c <- get service cancellable ;;
  gone <- match c with
          | None => mret true
          | Some t => g_cancellable_is_cancelled t
          end ;;
  if gone then
    c <- get service cancellable ;;
    match c with
    | Some t => g_object_unref t ;; modify service (set_cancellable None)
    | None => mret tt
    end ;;
    match cb cbd with
    | Some fn => emit (E_connect_cb fn ret (data cbd))
    | None => mret tt
    end
  else
    proxy <- get service remote ;;
    r <- call_connect_finish proxy false res ;;
    let ret := fst r in
    let ret :=
      match snd r with
      | Some message =>
          match g_strrstr message "AlreadyConnected" with
          | Some _ => true
          | None => ret
          end
      | None => ret
      end in
    match cb cbd with
    | Some fn => emit (E_connect_cb fn ret (data cbd))
    | None => mret tt
    end ;;
    c <- get service cancellable ;;
    t <- lift c ;;
    g_object_unref t ;;
    modify service (set_cancellable None).

Definition connman_service_connect (service : option nat) (cb : option nat)
    (user_data : nat) : M bool :=
  match service with
  | None => mret false
  | Some p =>
      modify p (set_disconnecting false) ;;
      let cbd := cb_data_new cb user_data in
      let cbd := set_user p cbd in
      t <- g_cancellable_new ;;
      modify p (set_cancellable (Some t)) ;;
      proxy <- get p remote ;;
      call_connect_async proxy false t cbd ;;
      mret true
  end.

Definition peer_connect_callback (res : GAsyncResult) (user_data : cb_data)
  : M unit :=
  let cbd := user_data in
  let service := user cbd in
  let ret := false in
  c <- get service cancellable ;;
  gone <- match c with
          | None => mret true
          | Some t => g_cancellable_is_cancelled t
          end ;;
  if gone then
    c <- get service cancellable ;;
    match c with
    | Some t => g_object_unref t ;; modify service (set_cancellable None)
    | None => mret tt
    end ;;
    match cb cbd with
    | Some fn => emit (E_connect_cb fn ret (data cbd))
    | None => mret tt
    end
  else
    proxy <- get service remote ;;
    r <- call_connect_finish proxy true res ;;
    let ret := fst r in
    let ret :=
      match snd r with
      | Some message =>
          match g_strrstr message "AlreadyConnected",
                g_strrstr message "Operation aborted" with
          | None, None => ret
          | _, _ => true
          end
      | None => ret
      end in
    match cb cbd with
    | Some fn => emit (E_connect_cb fn ret (data cbd))
    | None => mret tt
    end ;;
    c <- get service cancellable ;;
    t <- lift c ;;
    g_object_unref t ;;
    modify service (set_cancellable None).

Definition connman_peer_connect (service : option nat) (cb : option nat)
    (user_data : nat) : M bool :=
  match service with
  | None => mret false
  | Some p =>
      modify p (set_disconnecting false) ;;
      let cbd := cb_data_new cb user_data in
      let cbd := set_user p cbd in
      t <- g_cancellable_new ;;
      modify p (set_cancellable (Some t)) ;;
      proxy <- get p remote ;;
      call_connect_async proxy true t cbd ;;
      mret true
  end.

(** The tail shared by the synchronous commands: [FALSE] when the call set
    an error. *)
Definition succeeded (error : option string) : M bool :=
  match error with
  | Some _ => mret false
  | None => mret true
  end.

Definition connman_service_disconnect (service : option nat) : M bool :=
  match service with
  | None => mret false
  | Some p =>
      modify p (set_disconnecting true) ;;
      proxy <- get p remote ;;
      error <- call_sync proxy Call_disconnect ;;
      succeeded error
  end.

Definition connman_peer_disconnect (service : option nat) : M bool :=
  match service with
  | None => mret false
  | Some p =>
      modify p (set_disconnecting true) ;;
      proxy <- get p remote ;;
      error <- call_sync proxy Call_peer_disconnect ;;
      succeeded error
  end.

Definition connman_service_remove (service : option nat) : M bool :=
  match service with
  | None => mret false
  | Some p =>
      modify p (set_disconnecting true) ;;
      proxy <- get p remote ;;
      error <- call_sync proxy Call_remove ;;
      succeeded error
  end.

(** [g_variant_builder_add (b, "{sv}", key, value)] when [value] is given. *)
Definition builder_add (b : list GVariant) (key : string)
    (value : option GVariant) : list GVariant :=
  match value with
  | Some v => b ++ [GV_dict_entry (GV_string key) (GV_variant v)]
  | None => b
  end.

Definition builder_end (b : list GVariant) : GVariant :=
  GV_array
    (G_VARIANT_TYPE_DICT_ENTRY G_VARIANT_TYPE_STRING G_VARIANT_TYPE_VARIANT) b.

Definition g_variant_new_strv (strv : list string) : GVariant :=
  GV_array G_VARIANT_TYPE_STRING (map GV_string strv).

Definition connman_service_set_ipv6 (service : option nat)
    (ipv6 : option ipv6info_t) : M bool :=
  match service, ipv6 with
  | Some p, Some ipv6 =>
      let ipv6_b := [] in
      let ipv6_b :=
        builder_add ipv6_b "Method" (option_map GV_string (ipv6_method ipv6)) in
      let ipv6_b :=
        builder_add ipv6_b "Address" (option_map GV_string (ipv6_address ipv6)) in
      let ipv6_b :=
        builder_add ipv6_b "PrefixLength"
          (if (0 <=? prefix_length ipv6) && (prefix_length ipv6 <=? 128)
           then Some (GV_byte (prefix_length ipv6)) else None) in
      let ipv6_b :=
        builder_add ipv6_b "Gateway" (option_map GV_string (ipv6_gateway ipv6)) in
      let ipv6_v := builder_end ipv6_b in
      proxy <- get p remote ;;
      error <- call_sync proxy
                 (Call_set_property "IPv6.Configuration" (GV_variant ipv6_v)) ;;
      succeeded error
  | _, _ => mret false
  end.

(** After the call the source drops a reference to [ipv4_v], the one that
    [g_variant_new_variant] took over; see the conventions. *)
Definition connman_service_set_ipv4 (service : option nat)
    (ipv4 : option ipv4info_t) : M bool :=
  match service, ipv4 with
  | Some p, Some ipv4 =>
      let ipv4_b := [] in
      let ipv4_b :=
        builder_add ipv4_b "Method" (option_map GV_string (ipv4_method ipv4)) in
      let ipv4_b :=
        builder_add ipv4_b "Address" (option_map GV_string (ipv4_address ipv4)) in
      let ipv4_b :=
        builder_add ipv4_b "Netmask" (option_map GV_string (ipv4_netmask ipv4)) in
      let ipv4_b :=
        builder_add ipv4_b "Gateway" (option_map GV_string (ipv4_gateway ipv4)) in
      let ipv4_v := builder_end ipv4_b in
      proxy <- get p remote ;;
      error <- call_sync proxy
                 (Call_set_property "IPv4.Configuration" (GV_variant ipv4_v)) ;;
      succeeded error
  | _, _ => mret false
  end.

(** After the call the source drops a reference to [proxyinfo_v], as
    [connman_service_set_ipv4] does to [ipv4_v]. *)
Definition connman_service_set_proxy (service : option nat)
    (proxyinfo : option proxyinfo_t) : M bool :=
  match service, proxyinfo with
  | Some p, Some proxyinfo =>
      let proxyinfo_b := [] in
      let proxyinfo_b :=
        builder_add proxyinfo_b "Method"
          (option_map GV_string (proxy_method proxyinfo)) in
      let proxyinfo_b :=
        builder_add proxyinfo_b "URL" (option_map GV_string (url proxyinfo)) in
      let proxyinfo_b :=
        builder_add proxyinfo_b "Servers"
          (option_map g_variant_new_strv (servers proxyinfo)) in
      let proxyinfo_b :=
        builder_add proxyinfo_b "Excludes"
          (option_map g_variant_new_strv (excludes proxyinfo)) in
      let proxyinfo_v := builder_end proxyinfo_b in
      proxy <- get p remote ;;
      error <- call_sync proxy
                 (Call_set_property "Proxy.Configuration"
                    (GV_variant proxyinfo_v)) ;;
      succeeded error
  | _, _ => mret false
  end.

Definition connman_service_set_nameservers (service : option nat)
    (dns : option (list string)) : M bool :=
  match service, dns with
  | Some p, Some dns =>
      proxy <- get p remote ;;
      error <- call_sync proxy
                 (Call_set_property "Nameservers.Configuration"
                    (GV_variant (g_variant_new_strv dns))) ;;
      succeeded error
  | _, _ => mret false
  end.

Definition connman_service_set_autoconnect (service : option nat)
    (value : bool) : M bool :=
  match service with
  | None => mret false
  | Some p =>
      proxy <- get p remote ;;
      error <- call_sync proxy
                 (Call_set_property "AutoConnect"
                    (GV_variant (GV_boolean value))) ;;
      succeeded error
  end.

Definition connman_service_set_run_online_check (service : option nat)
    (value : bool) : M bool :=
  match service with
  | None => mret false
  | Some p =>
      proxy <- get p remote ;;
      error <- call_sync proxy
                 (Call_set_property "RunOnlineCheck"
                    (GV_variant (GV_boolean value))) ;;
      succeeded error
  end.

(** [g_variant_new_string] asks for a string that is not [NULL]. *)
Definition connman_service_set_passphrase (service : option nat)
    (passphrase : option string) : M bool :=
  match service with
  | None => mret false
  | Some p =>
      proxy <- get p remote ;;
      s <- lift passphrase ;;
      error <- call_sync proxy
                 (Call_set_property "Passphrase" (GV_variant (GV_string s))) ;;
      succeeded error
  end.

Fixpoint strv_equal (first second : list string) : bool :=
  match first, second with
  | [], [] => true
  | a :: r, b :: r' =>
      if c_true (g_strcmp0 (Some a) (Some b)) then false else strv_equal r r'
  | _, _ => false
  end.

Definition compare_strv (first second : option (list string)) : bool :=
  match first, second with
  | None, None => true
  | None, _ | _, None => false
  | Some l1, Some l2 =>
      if negb (Nat.eqb (List.length l1) (List.length l2)) then false
      else strv_equal l1 l2
  end.

(** [outVal] is the address of a string member of the service, given as the
    setter of that member. *)
Definition update_string_val_from_first_element (inVal : GVariant)
    (service : nat)
    (outVal : option string -> connman_service_t -> connman_service_t)
  : M unit :=
  inValv <- lift (g_variant_get_child_value inVal 1) ;;
  inValva <- lift (g_variant_get_variant inValv) ;;
  s <- lift (g_variant_dup_string inValva) ;;
  modify service (outVal (Some s)).

Definition get_int_val_from_first_element (inVal : GVariant) : M Z :=
  inValv <- lift (g_variant_get_child_value inVal 1) ;;
  inValva <- lift (g_variant_get_variant inValv) ;;
  prefix_length <- lift (g_variant_get_data inValva) ;;
  match prefix_length with
  | b :: _ => mret (char_of_byte char_signed b)
  | [] => abort
  end.

(** The loop over the entries of the dictionary that is the value of
    [property]: [body] receives each entry and its key. *)
Definition for_each_entry (property : GVariant)
    (body : GVariant -> string -> M unit) : M unit :=
  v <- lift (g_variant_get_child_value property 1) ;;
  va <- lift (g_variant_get_child_value v 0) ;;
  n <- lift (g_variant_n_children va) ;;
  for_loop 0 n
    (fun j =>
       entry <- lift (g_variant_get_child_value va j) ;;
       key_v <- lift (g_variant_get_child_value entry 0) ;;
       key <- lift (g_variant_get_string key_v) ;;
       body entry key).

Definition is_key (key name : string) : bool :=
  c_not (g_strcmp0 (Some key) (Some name)).

Definition connman_service_get_ipinfo (service : option nat) : M bool :=
  match service with
  | None => mret false
  | Some p =>
      proxy <- get p remote ;;
      error <- call_sync proxy Call_get_properties ;;
      match error with
      | Some _ => mret false
      | None =>
          properties <- ask (fun e => remote_properties e proxy) ;;
          n <- lift (g_variant_n_children properties) ;;
          for_loop 0 n
            (fun i =>
               property <- lift (g_variant_get_child_value properties i) ;;
               key_v <- lift (g_variant_get_child_value property 0) ;;
               key <- lift (g_variant_get_string key_v) ;;
               when (is_key key "Ethernet")
                 (for_each_entry property
                    (fun ethernet ekey =>
                       when (is_key ekey "Interface")
                         (update_string_val_from_first_element ethernet p
                            (fun v => upd_ipinfo (set_iface v))))) ;;
               when (is_key key "IPv6")
                 (for_each_entry property
                    (fun ipv6 ikey =>
                       when (is_key ikey "Method")
                         (update_string_val_from_first_element ipv6 p
                            (fun v => upd_ipv6 (set_ipv6_method v))) ;;
                       when (is_key ikey "PrefixLength")
                         (n <- get_int_val_from_first_element ipv6 ;;
                          modify p (upd_ipv6 (set_prefix_length n))) ;;
                       when (is_key ikey "Address")
                         (update_string_val_from_first_element ipv6 p
                            (fun v => upd_ipv6 (set_ipv6_address v))) ;;
                       when (is_key ikey "Gateway")
                         (update_string_val_from_first_element ipv6 p
                            (fun v => upd_ipv6 (set_ipv6_gateway v))))) ;;
               when (is_key key "IPv4")
                 (for_each_entry property
                    (fun ipv4 ikey =>
                       when (is_key ikey "Method")
                         (update_string_val_from_first_element ipv4 p
                            (fun v => upd_ipv4 (set_ipv4_method v))) ;;
                       when (is_key ikey "PrefixLength")
                         (n <- get_int_val_from_first_element ipv4 ;;
                          modify p (upd_ipv4 (set_prefix_len n))) ;;
                       when (is_key ikey "Netmask")
                         (update_string_val_from_first_element ipv4 p
                            (fun v => upd_ipv4 (set_ipv4_netmask v))) ;;
                       when (is_key ikey "Address")
                         (update_string_val_from_first_element ipv4 p
                            (fun v => upd_ipv4 (set_ipv4_address v))) ;;
                       when (is_key ikey "Gateway")
                         (update_string_val_from_first_element ipv4 p
                            (fun v => upd_ipv4 (set_ipv4_gateway v))))) ;;
               when (is_key key "Nameservers")
                 (v <- lift (g_variant_get_child_value property 1) ;;
                  va <- lift (g_variant_get_child_value v 0) ;;
                  strv <- lift (g_variant_dup_strv va) ;;
                  modify p (upd_ipinfo (set_dns (Some strv))))) ;;
          mret true
      end
  end.

Definition connman_service_get_proxyinfo (service : option nat) : M bool :=
  match service with
  | None => mret false
  | Some p =>
      proxy <- get p remote ;;
      error <- call_sync proxy Call_get_properties ;;
      match error with
      | Some _ => mret false
      | None =>
          properties <- ask (fun e => remote_properties e proxy) ;;
          n <- lift (g_variant_n_children properties) ;;
          for_loop 0 n
            (fun i =>
               property <- lift (g_variant_get_child_value properties i) ;;
               key_v <- lift (g_variant_get_child_value property 0) ;;
               key <- lift (g_variant_get_string key_v) ;;
               when (is_key key "Proxy")
                 (for_each_entry property
                    (fun proxy pkey =>
                       when (is_key pkey "Method")
                         (update_string_val_from_first_element proxy p
                            (fun v => upd_proxyinfo (set_proxy_method v))) ;;
                       when (is_key pkey "URL")
                         (update_string_val_from_first_element proxy p
                            (fun v => upd_proxyinfo (set_url v))) ;;
                       when (is_key pkey "Servers")
                         (serversv <- lift (g_variant_get_child_value proxy 1) ;;
                          serversva <-
                            lift (g_variant_get_child_value serversv 0) ;;
                          strv <- lift (g_variant_dup_strv serversva) ;;
                          modify p (upd_proxyinfo (set_servers (Some strv)))) ;;
                       when (is_key pkey "Excludes")
                         (excludesv <- lift (g_variant_get_child_value proxy 1) ;;
                          excludesva <-
                            lift (g_variant_get_child_value excludesv 0) ;;
                          strv <- lift (g_variant_dup_strv excludesva) ;;
                          modify p
                            (upd_proxyinfo (set_excludes (Some strv))))))) ;;
          mret true
      end
  end.

(** [sprintf (buffer, ...)] into a [char[80]] that is then handed to
    [system]: a text of more than 79 characters runs over the buffer. *)
Definition run_ip_command (c : ip_command) : M unit :=
  if Nat.ltb 79 (String.length (ip_command_text c)) then abort
  else emit (E_system c).

(** [table_Id] is an [int]: a number that [sscanf] cannot store in it, and
    a sum [table_Id + 10] past [INT_MAX], are undefined. *)
Definition connman_service_set_ip_rule (service : nat) (status : bool)
  : M unit :=
  s <- get service (fun s => s) ;;
  match ipv4_address (ipv4 (ipinfo s)), ipv4_netmask (ipv4 (ipinfo s)),
        ipv4_gateway (ipv4 (ipinfo s)), interface_name s with
  | Some addr, Some _, Some gateway, Some ifname =>
      if negb (is_vlan ifname) then
        (* find_Id = service->interface_name + 3 *)
        if Nat.ltb (String.length ifname) 3 then abort
        else
          let find_Id := substring 3 (String.length ifname - 3) ifname in
          match sscanf_d find_Id with
          | Some n =>
              if (n <? INT_MIN) || (INT_MAX - 10 <? n) then abort
              else
                let table_Id := n + 10 in
                let prefix := prefix_len (ipv4 (ipinfo s)) in
                run_ip_command (Ip_route_default status table_Id gateway) ;;
                run_ip_command (Ip_rule_from status addr prefix table_Id) ;;
                run_ip_command (Ip_rule_to status addr prefix table_Id) ;;
                modify service (set_iprule_added status)
          | None => mret tt
          end
      else mret tt
  | _, _, _, _ => mret tt
  end.

Definition connman_service_create_ip_rule (service : nat) : M unit :=
  added <- get service iprule_added ;;
  st <- get service state ;;
  when (negb added && c_not (g_strcmp0 st (Some "ready")))
    (connman_service_set_ip_rule service true).

Definition connman_service_delete_ip_rule (service : nat) : M unit :=
  added <- get service iprule_added ;;
  when added (connman_service_set_ip_rule service false).

Definition get_subscibed_for_diagnostiecs : M bool :=
  fun w => (Done (subscibed_for_diagnostiecs w), w).

Definition put_subscibed_for_diagnostiecs (b : bool) : M unit :=
  fun w => (Done tt, set_subscibed_for_diagnostiecs b w).

(** [connman_manager_find_wifi_technology] followed by
    [connman_technology_update_properties]. *)
Definition update_wifi_technology : M unit :=
  emit E_technology_update_properties.

(** [(service->handle_property_change_fn) (service, property, v)] when the
    pointer is set. *)
Definition notify_property_change (service : nat) (property : string)
    (v : GVariant) : M unit :=
  fn <- get service handle_property_change_fn ;;
  match fn with
  | Some f => emit (E_property_change_fn f service property v)
  | None => mret tt
  end.

(** The block of [connman_service_advance_state] under
    [#ifdef MULTIPLE_ROUTING_TABLE]. *)
Definition update_routing_rules (p : nat) (new_state : string) : M unit :=
  when MULTIPLE_ROUTING_TABLE
    (t <- get p type ;;
     if is_key new_state "ready" && (t =? CONNMAN_SERVICE_TYPE_ETHERNET)
     then
       connman_service_get_ipinfo (Some p) ;;
       connman_service_create_ip_rule p
     else
       when (t =? CONNMAN_SERVICE_TYPE_ETHERNET)
         (connman_service_delete_ip_rule p)).

(** The two tests on [subscibed_for_diagnostiecs] that end
    [connman_service_advance_state]. *)
Definition update_diagnostics_subscription (p : nat) : M unit :=
  subscribed <- get_subscibed_for_diagnostiecs ;;
  t <- get p type ;;
  st <- get p state ;;
  connected <- ask is_connected_peer ;;
  if negb subscribed && (t =? CONNMAN_SERVICE_TYPE_P2P)
     && c_not (g_strcmp0 st (Some "ready")) && connected
  then
    update_wifi_technology ;;
    put_subscibed_for_diagnostiecs true
  else
    when (subscribed && (t =? CONNMAN_SERVICE_TYPE_P2P)
          && c_not (g_strcmp0 st (Some "disconnect"))
          && negb connected)
      (update_wifi_technology ;;
       put_subscibed_for_diagnostiecs false).

Definition connman_service_advance_state (service : option nat) (v : GVariant)
  : M unit :=
  match service with
  | None => mret tt
  | Some p =>
      new_state <- lift (g_variant_get_string v) ;;
      d <- get p disconnecting ;;
      if d && c_true (g_strcmp0 (Some new_state) (Some "ready"))
           && c_true (g_strcmp0 (Some new_state) (Some "online"))
      then modify p (set_disconnecting false)
      else
        old_state <- get p state ;;
        when (c_true (g_strcmp0 old_state (Some new_state)))
          (modify p (set_state (Some new_state)) ;;
           connman_service_set_changed p
             (Z.lor CONNMAN_SERVICE_CHANGE_CATEGORY_GETSTATUS
                CONNMAN_SERVICE_CHANGE_CATEGORY_FINDNETWORKS) ;;
           notify_property_change p "State" v ;;
           update_routing_rules p new_state) ;;
        update_diagnostics_subscription p
  end.

Definition connman_service_advance_online_state (service : option nat)
    (va : GVariant) : M unit :=
  match service with
  | None => mret tt
  | Some p =>
      old_online <- get p online ;;
      b <- lift (g_variant_get_boolean va) ;;
      modify p (set_online b) ;;
      when (negb (Bool.eqb old_online b))
        (connman_service_set_changed p
           CONNMAN_SERVICE_CHANGE_CATEGORY_GETSTATUS ;;
         fn <- get p handle_property_change_fn ;;
         match fn with
         | Some f => emit (E_property_change_fn f p "Online" va)
         | None =>
             ethernet <- connman_service_type_ethernet (Some p) ;;
             when ethernet (emit E_send_status_to_subscribers)
         end)
  end.

(** The decoding of the "BSS" value, which [property_changed_cb] and
    [connman_service_update_properties] both carry out (the two copies
    differ in the text of a log message). *)
Definition decode_bss_entry (va : GVariant) (j : nat)
    (array : list bssinfo_t) : M (list bssinfo_t) :=
  temp <- lift (g_variant_get_child_value va j) ;;
  bss_entry <- lift (g_variant_get_child_value temp 0) ;;
  bss_v <- lift (g_variant_lookup_value bss_entry "Id" G_VARIANT_TYPE_STRING) ;;
  signal_v <-
    lift (g_variant_lookup_value bss_entry "Signal" G_VARIANT_TYPE_INT32) ;;
  frequency_v <-
    lift (g_variant_lookup_value bss_entry "Frequency" G_VARIANT_TYPE_INT32) ;;
  bssid <- match bss_v with
           | Some x =>
               bss <- lift (g_variant_get_string x) ;;
               mret (g_strlcpy bss 18)
           | None => mret ""
           end ;;
  signal <- match signal_v with
            | Some x => lift (g_variant_get_int32 x)
            | None => mret 0
            end ;;
  frequency <- match frequency_v with
               | Some x => lift (g_variant_get_int32 x)
               | None => mret 0
               end ;;
  mret (array ++
          [{| bssid := bssid; signal := signal; frequency := frequency |}]).

Definition update_bss (service : nat) (va : GVariant) : M unit :=
  old <- get service bss ;;
  match old with
  | Some _ => modify service (set_bss None)
  | None => mret tt
  end ;;
  len <- lift (g_variant_n_children va) ;;
  array <- for_fold 0 len [] (decode_bss_entry va) ;;
  modify service (set_bss (Some array)).

(** [service->handle_p2p_request_fn (service, ...)] when the pointer is
    set. *)
Definition p2p_request (service : nat) (wpstype : Z)
    (wpspin goaddr : option string) (signal_name : string) : M unit :=
  fn <- get service handle_p2p_request_fn ;;
  match fn with
  | Some f =>
      emit (E_p2p_request_fn f service wpstype wpspin goaddr signal_name)
  | None => mret tt
  end.

Definition property_changed_cb (property : string) (v : GVariant)
    (service : nat) : M unit :=
  va <- lift (g_variant_get_variant v) ;;
  hook <- ask service_property_changed ;;
  match hook with
  | Some f =>
      service_path <- get service path ;;
      emit (E_service_property_changed f service_path (Some property) va)
  | None => mret tt
  end ;;
  if is_key property "State" then
    connman_service_advance_state (Some service) va
  else if is_key property "Strength" then
    strength' <- lift (g_variant_get_byte va) ;;
    old <- get service strength ;;
    when (negb (strength' =? old))
      (modify service (set_strength strength') ;;
       connman_service_set_changed service
         CONNMAN_SERVICE_CHANGE_CATEGORY_FINDNETWORKS)
  else if is_key property "BSS" then
    update_bss service va
  else if is_key property "Online" then
    connman_service_advance_online_state (Some service) va
  else if is_key property "RunOnlineCheck" then
    old <- get service online_checking ;;
    b <- lift (g_variant_get_boolean va) ;;
    when (negb (Bool.eqb old b))
      (modify service (set_online_checking b) ;;
       connman_service_set_changed service
         CONNMAN_SERVICE_CHANGE_CATEGORY_GETSTATUS ;;
       emit E_send_status_to_subscribers)
  else if is_key property "AutoConnect" then
    b <- lift (g_variant_get_boolean va) ;;
    modify service (set_auto_connect b)
  else if is_key property "Favorite" then
    b <- lift (g_variant_get_boolean va) ;;
    modify service (set_favorite b)
  else if is_key property "Error" then
    s <- lift (g_variant_dup_string va) ;;
    modify service (set_error (Some s))
  else if is_key property "P2PGONegRequested" then
    wpstype <- lift (g_variant_get_int32 va) ;;
    p2p_request service wpstype None None "P2PGONegRequested"
  else if is_key property "P2PProvDiscRequestedPBC" then
    p2p_request service WPS_PBC None None "P2PProvDiscRequestedPBC"
  else if is_key property "P2PProvDiscRequestedEnterPin" then
    p2p_request service WPS_KEYPAD None None "P2PProvDiscRequestedEnterPin"
  else if is_key property "P2PProvDiscRequestedDisplayPin" then
    wpspin <- lift (g_variant_get_string va) ;;
    p2p_request service WPS_DISPLAY (Some wpspin) None
      "P2PProvDiscRequestedDisplayPin"
  else if is_key property "P2PInvitationReceived" then
    goaddr <- lift (g_variant_get_string va) ;;
    p2p_request service 0 None (Some goaddr) "P2PInvitationReceived"
  else if is_key property "P2PPersistentReceived" then
    goaddr <- lift (g_variant_get_string va) ;;
    p2p_request service 0 None (Some goaddr) "P2PPersistentReceived"
  else if is_key property "PeerAdded" then
    connected <- ask connected_p2p_service ;;
    when connected (p2p_request service 0 None None "PeerAdded")
  else if is_key property "IPv6" then
    connman_service_set_changed service
      CONNMAN_SERVICE_CHANGE_CATEGORY_GETSTATUS ;;
    emit E_send_status_to_subscribers
  else if is_key property "Proxy" then
    connman_service_set_changed service
      CONNMAN_SERVICE_CHANGE_CATEGORY_GETSTATUS ;;
    emit E_send_status_to_subscribers
  else if is_key property "IPv4" then
    t <- get service type ;;
    owner <- get service (fun s => group_owner (peer_info s)) ;;
    when ((t =? CONNMAN_SERVICE_TYPE_P2P) && owner)
      (notify_property_change service "IPv4" va)
  else if is_key property "Nameservers" then
    connman_service_set_changed service
      CONNMAN_SERVICE_CHANGE_CATEGORY_GETSTATUS ;;
    emit E_send_status_to_subscribers
  else mret tt.

Definition connman_service_register_property_changed_cb (service : nat)
    (func : option nat) : M unit :=
  match func with
  | None => mret tt
  | Some f => modify service (set_handle_property_change_fn (Some f))
  end.

Definition connman_service_reject_peer (service : option nat) : M bool :=
  match service with
  | None => mret false
  | Some p =>
      proxy <- get p remote ;;
      error <- call_sync proxy Call_reject_peer ;;
      succeeded error
  end.

Definition connman_service_set_default (service : option nat) : M bool :=
  match service with
  | None => mret false
  | Some p =>
      proxy <- get p remote ;;
      error <- call_sync proxy Call_set_default ;;
      succeeded error
  end.

Definition connman_service_register_p2p_requests_cb (service : nat)
    (func : option nat) : M unit :=
  match func with
  | None => mret tt
  | Some f => modify service (set_handle_p2p_request_fn (Some f))
  end.

Definition connman_service_fetch_properties (service : option nat)
  : M (option GVariant) :=
  match service with
  | None => mret None
  | Some p =>
      proxy <- get p remote ;;
      error <- call_sync proxy Call_get_properties ;;
      match error with
      | Some _ => mret None
      | None =>
          properties <- ask (fun e => remote_properties e proxy) ;;
          mret (Some properties)
      end
  end.

Definition connman_service_update_display_name (service : option nat)
  : M unit :=
  match service with
  | None => mret tt
  | Some p =>
      ss <- get p ssid ;;
      match ss with
      | None => mret tt
      | Some bytes =>
          len <- get p ssid_len ;;
          if g_utf8_validate bytes len
          then modify p (set_display_name (Some bytes))
          else
            locale <- ask system_locale ;;
            modify p (set_display_name (convert_ssid_to_utf8 bytes len locale))
      end
  end.

Definition connman_service_update_type (service : nat) (v : option string)
  : M unit :=
  if c_not (g_strcmp0 v (Some "wifi")) then
    modify service (set_type CONNMAN_SERVICE_TYPE_WIFI)
  else if c_not (g_strcmp0 v (Some "ethernet")) then
    modify service (set_type CONNMAN_SERVICE_TYPE_ETHERNET)
  else if c_not (g_strcmp0 v (Some "Peer")) || c_not (g_strcmp0 v (Some "peer"))
  then modify service (set_type CONNMAN_SERVICE_TYPE_P2P)
  else mret tt.

Definition Bit1 : Z := 2.
Definition Bit0 : Z := 1.

(** [wfd_subelems[i]]; [None] past the end of the buffer. *)
Definition byte_at (wfd_subelems : list Z) (i : nat) : option Z :=
  nth_error wfd_subelems i.

(** The parser of the WFD Device Information subelement; the result is the
    structure [peer] points to when the function returns. *)
Definition p2p_parse_wfd_dev_info (wfd_subelems : list Z) (len : Z)
    (peer0 : peer) : option peer :=
  if len <? 9 then Some peer0
  else
    match byte_at wfd_subelems 0 with
    | None => None
    | Some b0 =>
        if negb (b0 =? 0) then Some peer0
        else
          match byte_at wfd_subelems 1 with
          | None => None
          | Some b1 =>
              (* wfd_subelems[1] != 0x00 && wfd_subelems[2] != 0x06 *)
              match (if negb (b1 =? 0)
                     then option_map (fun b2 => negb (b2 =? 6))
                            (byte_at wfd_subelems 2)
                     else Some false) with
              | None => None
              | Some true => Some peer0
              | Some false =>
                  match byte_at wfd_subelems 4, byte_at wfd_subelems 3,
                        byte_at wfd_subelems 5, byte_at wfd_subelems 6 with
                  | Some b4, Some b3, Some b5, Some b6 =>
                      let peer1 := set_wfd_enabled true peer0 in
                      let peer2 :=
                        set_wfd_devtype (Z.land b4 (Z.lor Bit0 Bit1)) peer1 in
                      let peer3 :=
                        set_wfd_sessionavail
                          (Z.land (Z.shiftr b4 4) (Z.lor Bit0 Bit1)) peer2 in
                      let peer4 := set_wfd_cpsupport (Z.land b3 Bit0) peer3 in
                      Some (set_wfd_rtspport (Z.shiftl b5 8 + b6) peer4)
                  | _, _, _, _ => None
                  end
              end
          end
    end.

Definition string_of_bytes (l : list Z) : string :=
  fold_right (fun b s => String (ascii_of_N (Z.to_N b)) s) EmptyString l.

(** One entry of the "P2P" dictionary. *)
Definition update_p2p_property (p : nat) (p2p_key : string)
    (p2p_val : GVariant) : M unit :=
  if is_key p2p_key "DeviceAddress" then
    s <- lift (g_variant_dup_string p2p_val) ;;
    modify p (upd_peer (set_peer_address (Some s)))
  else if is_key p2p_key "DeviceType" then
    s <- lift (g_variant_dup_string p2p_val) ;;
    modify p (upd_peer (set_pri_dev_type (Some s)))
  else if is_key p2p_key "GroupOwner" then
    b <- lift (g_variant_get_boolean p2p_val) ;;
    modify p (upd_peer (set_group_owner b))
  else if is_key p2p_key "ConfigMethod" then
    n <- lift (g_variant_get_uint16 p2p_val) ;;
    modify p (upd_peer (set_config_method n))
  else if is_key p2p_key "WFDDevType" then
    n <- lift (g_variant_get_uint16 p2p_val) ;;
    modify p (upd_peer (set_wfd_devtype n)) ;;
    modify p (upd_peer (set_wfd_enabled true))
  else if is_key p2p_key "WFDSessionAvail" then
    b <- lift (g_variant_get_boolean p2p_val) ;;
    modify p (upd_peer (set_wfd_sessionavail (Z.b2z b)))
  else if is_key p2p_key "WFDCPSupport" then
    b <- lift (g_variant_get_boolean p2p_val) ;;
    modify p (upd_peer (set_wfd_cpsupport (Z.b2z b)))
  else if is_key p2p_key "WFDRtspPort" then
    n <- lift (g_variant_get_uint32 p2p_val) ;;
    modify p (upd_peer (set_wfd_rtspport n))
  else mret tt.

(** One pass of the loop of [connman_service_update_properties]; [i] is the
    loop variable, and the result its value when the pass ends: the
    "WiFi.SSID" branch assigns to it. *)
Definition update_property (p : nat) (property : GVariant) (i : nat)
  : M nat :=
  key_v <- lift (g_variant_get_child_value property 0) ;;
  val_v <- lift (g_variant_get_child_value property 1) ;;
  val <- lift (g_variant_get_variant val_v) ;;
  key <- lift (g_variant_get_string key_v) ;;
  if is_key key "Name" then
    name' <- lift (g_variant_dup_string val) ;;
    old <- get p name ;;
    when (c_true (g_strcmp0 (Some name') old))
      (connman_service_set_changed p
         (Z.lor CONNMAN_SERVICE_CHANGE_CATEGORY_GETSTATUS
            CONNMAN_SERVICE_CHANGE_CATEGORY_FINDNETWORKS)) ;;
    modify p (set_name (Some name')) ;;
    mret i
  else if is_key key "WiFi.SSID"
          && g_variant_is_of_type val G_VARIANT_TYPE_BYTESTRING then
    bytes <- lift (g_variant_get_data val) ;;
    size <- lift (g_variant_get_size val) ;;
    modify p (set_ssid_len size) ;;
    (* i = g_strlcpy (service->ssid, data, service->ssid_len + 1), then
       strlen (data): [data] is read up to its terminator, which is not
       among its [size] bytes when none of them is zero *)
    if existsb (fun b => b =? 0) bytes then
      modify p (set_ssid (Some (string_of_bytes (c_string_of bytes)))) ;;
      let i := List.length (c_string_of bytes) in
      connman_service_update_display_name (Some p) ;;
      mret i
    else abort
  else if is_key key "Type" then
    v <- lift (g_variant_get_string val) ;;
    connman_service_update_type p (Some v) ;;
    mret i
  else if is_key key "State" then
    connman_service_advance_state (Some p) val ;;
    st <- get p state ;;
    when (c_not (g_strcmp0 st (Some "association")))
      (modify p (set_hidden true)) ;;
    mret i
  else if is_key key "Strength" then
    strength' <- lift (g_variant_get_byte val) ;;
    old <- get p strength ;;
    when (negb (strength' =? old))
      (modify p (set_strength strength') ;;
       connman_service_set_changed p
         CONNMAN_SERVICE_CHANGE_CATEGORY_FINDNETWORKS) ;;
    mret i
  else if is_key key "Security" then
    strv <- lift (g_variant_dup_strv val) ;;
    modify p (set_security (Some strv)) ;;
    mret i
  else if is_key key "AutoConnect" then
    b <- lift (g_variant_get_boolean val) ;;
    modify p (set_auto_connect b) ;;
    mret i
  else if is_key key "Immutable" then
    b <- lift (g_variant_get_boolean val) ;;
    modify p (set_immutable b) ;;
    mret i
  else if is_key key "Favorite" then
    b <- lift (g_variant_get_boolean val) ;;
    modify p (set_favorite b) ;;
    mret i
  else if is_key key "Online" then
    connman_service_advance_online_state (Some p) val ;;
    mret i
  else if is_key key "RunOnlineCheck" then
    b <- lift (g_variant_get_boolean val) ;;
    modify p (set_online_checking b) ;;
    mret i
  else if is_key key "P2P" then
    modify p (upd_peer (set_wfd_enabled false)) ;;
    n <- lift (g_variant_n_children val) ;;
    for_loop 0 n
      (fun j =>
         p2p_property <- lift (g_variant_get_child_value val j) ;;
         p2p_key_v <- lift (g_variant_get_child_value p2p_property 0) ;;
         p2p_val_v <- lift (g_variant_get_child_value p2p_property 1) ;;
         p2p_val <- lift (g_variant_get_variant p2p_val_v) ;;
         p2p_key <- lift (g_variant_get_string p2p_key_v) ;;
         update_p2p_property p p2p_key p2p_val) ;;
    mret i
  else if is_key key "Services" then
    service_struct <- lift (g_variant_get_child_value val 0) ;;
    service_array <- lift (g_variant_get_child_value service_struct 0) ;;
    n <- lift (g_variant_n_children service_array) ;;
    for_loop 0 n
      (fun j =>
         service_property <- lift (g_variant_get_child_value service_array j) ;;
         p2p_service_key_v <-
           lift (g_variant_get_child_value service_property 0) ;;
         p2p_service_val_v <-
           lift (g_variant_get_child_value service_property 1) ;;
         p2p_service_key <- lift (g_variant_get_string p2p_service_key_v) ;;
         when (is_key p2p_service_key "WiFiDisplayIEs")
           (p2p_service_val <- lift (g_variant_get_variant p2p_service_val_v) ;;
            len <- lift (g_variant_get_size p2p_service_val) ;;
            bytes <- lift (g_variant_get_data p2p_service_val) ;;
            old <- get p peer_info ;;
            (* the [unsigned long] length becomes the [int] parameter *)
            parsed <-
              lift (p2p_parse_wfd_dev_info bytes
                      (gint_of_guint (Z.of_nat len mod 2 ^ 32)) old) ;;
            modify p (set_peer_info parsed))) ;;
    mret i
  else if is_key key "Address" then
    s <- lift (g_variant_dup_string val) ;;
    modify p (set_address (Some s)) ;;
    mret i
  else if is_key key "Ethernet" then
    for_each_entry property
      (fun ethernet ekey =>
         if is_key ekey "Interface" then
           update_string_val_from_first_element ethernet p set_interface_name ;;
           when MULTIPLE_ROUTING_TABLE (connman_service_create_ip_rule p)
         else
           when (is_key ekey "Address")
             (update_string_val_from_first_element ethernet p set_mac_address)) ;;
    mret i
  else if is_key key "BSS" then
    update_bss p val ;;
    mret i
  else mret i.

(** The loop [for (i = 0; i < g_variant_n_children (properties); i++)],
    from the test of a pass on: a pass may leave [i] anywhere. *)
Fixpoint update_properties_loop (fuel : nat) (p : nat) (properties : GVariant)
    (i : nat) : M unit :=
  n <- lift (g_variant_n_children properties) ;;
  if Nat.ltb i n then
    match fuel with
    | O => out_of_fuel
    | S fuel' =>
        property <- lift (g_variant_get_child_value properties i) ;;
        i <- update_property p property i ;;
        update_properties_loop fuel' p properties (S i)
    end
  else mret tt.

Definition connman_service_update_properties (fuel : nat)
    (service : option nat) (properties : option GVariant) : M unit :=
  match service, properties with
  | Some p, Some properties => update_properties_loop fuel p properties 0
  | _, _ => mret tt
  end.

Definition connman_service_is_connected (service : nat) : M bool :=
  st <- get service state ;;
  let state := connman_service_get_state st in
  mret ((state =? CONNMAN_SERVICE_STATE_ONLINE)
        || (state =? CONNMAN_SERVICE_STATE_READY)).

Definition connman_service_is_online (service : nat) : M bool :=
  st <- get service state ;;
  let state := connman_service_get_state st in
  mret (state =? CONNMAN_SERVICE_STATE_ONLINE).

(** [g_new0 (connman_service_t, 1)] *)
Definition g_new0_service : M nat :=
  fun w =>
    (Done (List.length (services w)),
     set_services (services w ++ [Some zeroed_service]) w).

(** [g_free (service)] *)
Definition g_free_service (service : nat) : M unit :=
  fun w =>
    match lookup_service w service with
    | Some _ =>
        (Done tt, set_services (update_nth service None (services w)) w)
    | None => (Abort, w)
    end.

Definition connman_service_new (fuel : nat) (variant : option GVariant)
    (p2p : bool) : M (option nat) :=
  match variant with
  | None => mret None
  | Some variant =>
      service <- g_new0_service ;;
      service_v <- lift (g_variant_get_child_value variant 0) ;;
      s <- lift (g_variant_dup_string service_v) ;;
      modify service (set_path (Some s)) ;;
      modify service
        (set_identifier
           (strip_prefix (Some s)
              (if p2p then "/net/connman/peer/"
               else "/net/connman/service/"))) ;;
      proxy <- ask proxy_new ;;
      error <- ask proxy_new_error ;;
      modify service (set_remote proxy) ;;
      match error with
      | Some _ => g_free_service service ;; mret None
      | None =>
          modify service (set_iprule_added false) ;;
          id <- ask signal_connect ;;
          modify service (set_sighandler_id id) ;;
          properties <- lift (g_variant_get_child_value variant 1) ;;
          connman_service_update_properties fuel (Some service)
            (Some properties) ;;
          mret (Some service)
      end
  end.

(** The members are released one by one and the block last; only the
    calls that leave the file and the release of the block are kept. *)
Definition connman_service_free (data : nat) : M unit :=
  let service := data in
  c <- get service cancellable ;;
  match c with
  | Some t => g_cancellable_cancel t
  | None =>
      when MULTIPLE_ROUTING_TABLE (connman_service_delete_ip_rule service) ;;
      id <- get service sighandler_id ;;
      proxy <- get service remote ;;
      when (c_true id) (emit (E_signal_handler_disconnect proxy id)) ;;
      emit (E_proxy_unref proxy) ;;
      g_free_service service
  end.

(** The main loop delivers the completion of the [i]-th pending connect:
    the callback given to the asynchronous call runs on its result. *)
Definition complete_connect (i : nat) (res : GAsyncResult) : M unit :=
  fun w =>
    match nth_error (pending w) i with
    | Some c =>
        (if pending_is_peer c
         then peer_connect_callback res (pending_cbd c)
         else connect_callback res (pending_cbd c))
          (set_pending (remove_nth i (pending w)) w)
    | None => (Done tt, w)
    end.

End Service.

(** ** Notions the statements use *)

(** [needle] occurs in [message]. *)
Definition contains (message needle : string) : Prop :=
  exists pre post : string, message = (pre ++ needle ++ post)%string.

(** The dictionary [a{sv}] with the given keys and values. *)
Definition vardict_of (kvs : list (string * GVariant)) : GVariant :=
  builder_end
    (map (fun kv => GV_dict_entry (GV_string (fst kv)) (GV_variant (snd kv)))
       kvs).

(** The value of the "BSS" property, [a(a{sv})]: one structure around one
    dictionary per BSS. *)
Definition bss_bag_of (entries : list (list (string * GVariant))) : GVariant :=
  GV_array (G_VARIANT_TYPE_TUPLE [G_VARIANT_TYPE_VARDICT])
    (map (fun kvs => GV_tuple [vardict_of kvs]) entries).

(** The value the first pair with key [key] carries. *)
Fixpoint field_of (kvs : list (string * GVariant)) (key : string)
  : option GVariant :=
  match kvs with
  | [] => None
  | (k, v) :: rest => if String.eqb k key then Some v else field_of rest key
  end.

(** The sub-field [key] of an entry, present when that value has type
    [ty]. *)
Definition sub_field (kvs : list (string * GVariant)) (key : string)
    (ty : GVariantType) : option GVariant :=
  match field_of kvs key with
  | Some v => if g_variant_is_of_type v ty then Some v else None
  | None => None
  end.

(** What the specification says a BSS entry decodes to: the sub-fields
    "Id" (a string, kept to 17 characters), "Signal" and "Frequency" (both
    int32), each replaced by the empty string or 0 when it is missing. *)
Definition bss_of_entry (kvs : list (string * GVariant)) : bssinfo_t :=
  {| bssid :=
       match sub_field kvs "Id" G_VARIANT_TYPE_STRING with
       | Some (GV_string id) => substring 0 17 id
       | _ => ""
       end;
     signal :=
       match sub_field kvs "Signal" G_VARIANT_TYPE_INT32 with
       | Some (GV_int32 n) => n
       | _ => 0
       end;
     frequency :=
       match sub_field kvs "Frequency" G_VARIANT_TYPE_INT32 with
       | Some (GV_int32 n) => n
       | _ => 0
       end |}.

(** The token [t] after one [g_object_unref]. *)
Definition released (c : GCancellable) : GCancellable :=
  {| cancelled := cancelled c; ref_count := pred (ref_count c) |}.

(** The outcome the connect callback reports when the token is live: the
    result of the call, or success for the error text ["AlreadyConnected"]
    (for a peer, also ["Operation aborted"]). *)
Definition reported (is_peer : bool) (res : GAsyncResult) : bool :=
  match finish_error res with
  | Some message =>
      match g_strrstr message "AlreadyConnected",
            (if is_peer then g_strrstr message "Operation aborted" else None)
      with
      | None, None => finish_ret res
      | _, _ => true
      end
  | None => finish_ret res
  end.

Definition is_property_change (e : Event) : bool :=
  match e with
  | E_property_change_fn _ _ _ _ => true
  | _ => false
  end.

Definition is_diagnostics (e : Event) : bool :=
  match e with
  | E_technology_update_properties => true
  | _ => false
  end.

(** A run of [m] ends in a world that satisfies [I] when it starts in
    one, whether it ends with a value or aborts. *)
Definition preserves {A : Type} (I : World -> Prop) (m : M A) : Prop :=
  forall w, I w -> I (snd (m w)).

(** The service at [p] has state [st] and change mask [mask], and since
    the trace [t0] no property-change callback was invoked. *)
Definition settled (p : nat) (st : option string) (mask : Z)
    (t0 : list Event) (w : World) : Prop :=
  exists s rest,
    lookup_service w p = Some s /\ state s = st /\ change_mask s = mask
    /\ trace w = t0 ++ rest
    /\ forallb (fun e => negb (is_property_change e)) rest = true.

(** *** Sample values *)

Definition sample_header : connman_service_h :=
  {| CONNMAN_SERVICE_TYPE_WIFI := 1;
     CONNMAN_SERVICE_TYPE_ETHERNET := 2;
     CONNMAN_SERVICE_TYPE_P2P := 3;
     CONNMAN_SERVICE_STATE_IDLE := 1;
     CONNMAN_SERVICE_STATE_ASSOCIATION := 2;
     CONNMAN_SERVICE_STATE_CONFIGURATION := 3;
     CONNMAN_SERVICE_STATE_READY := 4;
     CONNMAN_SERVICE_STATE_ONLINE := 5;
     CONNMAN_SERVICE_STATE_DISCONNECT := 6;
     CONNMAN_SERVICE_STATE_FAILURE := 7;
     CONNMAN_SERVICE_CHANGE_CATEGORY_GETSTATUS := 1;
     CONNMAN_SERVICE_CHANGE_CATEGORY_FINDNETWORKS := 2;
     WPS_PBC := 0;
     WPS_KEYPAD := 1;
     WPS_DISPLAY := 2;
     MULTIPLE_ROUTING_TABLE := true |}.

Definition sample_collaborators : Collaborators :=
  {| cb_data_new := fun cb user_data =>
                      {| cb := cb; data := user_data; user := 0 |};
     is_vlan := fun _ => false;
     sscanf_d := fun _ => Some 0;
     g_utf8_validate := fun _ _ => true;
     convert_ssid_to_utf8 := fun s _ _ => Some s;
     strip_prefix := fun s _ => s;
     char_signed := true |}.

Definition sample_env : Environment :=
  {| remote_error := fun _ _ => None;
     remote_properties := fun _ => vardict_of [];
     is_connected_peer := true;
     connected_p2p_service := true;
     service_property_changed := None;
     system_locale := None;
     proxy_new := 7;
     proxy_new_error := None;
     signal_connect := 1 |}.

(** A world that holds the one service [s], at pointer [0]. *)
Definition world_of (s : connman_service_t) : World :=
  {| services := [Some s];
     cancellables := [];
     subscibed_for_diagnostiecs := false;
     pending := [];
     env := sample_env;
     trace := [] |}.

(** A Wi-Fi service with a registered property-change callback. *)
Definition sample_service : connman_service_t :=
  set_handle_property_change_fn (Some 5%nat)
    (set_remote 7 (set_type 1 (set_state (Some "idle") zeroed_service))).

(** The service with a connect pending on token [0], issued for the
    callback [1] with argument [11]. *)
Definition sample_cbd : cb_data :=
  {| cb := Some 1%nat; data := 11; user := 0 |}.

Definition pending_world (token_cancelled : bool) : World :=
  {| services := [Some (set_cancellable (Some 0%nat) sample_service)];
     cancellables := [{| cancelled := token_cancelled; ref_count := 1 |}];
     subscibed_for_diagnostiecs := false;
     pending := [{| pending_is_peer := false; pending_token := 0;
                    pending_cbd := sample_cbd |}];
     env := sample_env;
     trace := [E_remote_call 7 (Call_connect 0)] |}.

(** Results of a connect call: success, and the two errors the daemon
    answers an idempotent connect with. *)
Definition result_ok : GAsyncResult :=
  {| finish_ret := true; finish_error := None |}.

Definition result_already_connected : GAsyncResult :=
  {| finish_ret := false;
     finish_error :=
       Some "GDBus.Error:net.connman.Error.AlreadyConnected: Already connected" |}.

Definition result_aborted : GAsyncResult :=
  {| finish_ret := false;
     finish_error :=
       Some "GDBus.Error:net.connman.Error.OperationAborted: Operation aborted" |}.

(** A P2P service that is in state "ready". *)
Definition sample_peer_service : connman_service_t :=
  set_type 3 (set_state (Some "ready") sample_service).

(** A bag of two BSS entries: the first has an over-long Id and no
    Frequency, the second no Id and a Signal of the wrong type. *)
Definition sample_bss_entries : list (list (string * GVariant)) :=
  [[("Id", GV_string "aa:bb:cc:dd:ee:ff:00:11"); ("Signal", GV_int32 (-40))];
   [("Frequency", GV_int32 2412); ("Signal", GV_string "x")]].

(** *** Notions for the properties of the other functions *)

(** The seven state enumerators, in the order of the vocabulary. *)
Definition state_enumerators {hdr : connman_service_h} : list Z :=
  [CONNMAN_SERVICE_STATE_IDLE; CONNMAN_SERVICE_STATE_ASSOCIATION;
   CONNMAN_SERVICE_STATE_CONFIGURATION; CONNMAN_SERVICE_STATE_READY;
   CONNMAN_SERVICE_STATE_ONLINE; CONNMAN_SERVICE_STATE_DISCONNECT;
   CONNMAN_SERVICE_STATE_FAILURE].

(** The strings of the state vocabulary. *)
Definition state_names : list string :=
  ["idle"; "association"; "configuration"; "ready"; "online"; "disconnect";
   "failure"].

(** The world [w] differs from [w0] at most in the service at [p], which
    is allocated and satisfies [J], in the diagnostics flag and in events
    added to the trace. *)
Definition kept (p : nat) (w0 : World) (J : connman_service_t -> Prop)
    (w : World) : Prop :=
  (exists s, lookup_service w p = Some s /\ J s)
  /\ (forall q, q <> p -> nth_error (services w) q = nth_error (services w0) q)
  /\ List.length (services w) = List.length (services w0)
  /\ cancellables w = cancellables w0
  /\ pending w = pending w0
  /\ env w = env w0
  /\ exists rest, trace w = trace w0 ++ rest.

(** What makes a service the same object to its users: its path and
    identifier, its proxy and signal handler, the token of a pending
    connect and the registered callbacks. *)
Definition same_identity (s0 s : connman_service_t) : Prop :=
  path s = path s0 /\ identifier s = identifier s0 /\ remote s = remote s0
  /\ sighandler_id s = sighandler_id s0 /\ cancellable s = cancellable s0
  /\ handle_property_change_fn s = handle_property_change_fn s0
  /\ handle_p2p_request_fn s = handle_p2p_request_fn s0
  /\ (hidden s0 = true -> hidden s = true).

(** The change mask has no bit outside the two categories. *)
Definition mask_within {hdr : connman_service_h} (s : connman_service_t)
  : Prop :=
  let both := Z.lor CONNMAN_SERVICE_CHANGE_CATEGORY_GETSTATUS
                CONNMAN_SERVICE_CHANGE_CATEGORY_FINDNETWORKS in
  Z.lor (change_mask s) both = both.

(** The daemon answers [GetProperties] on [proxy] without an error and
    with the one property [key], of value [value]. *)
Definition answers (w : World) (proxy : nat) (key : string)
    (value : GVariant) : Prop :=
  remote_error (env w) proxy Call_get_properties = None
  /\ remote_properties (env w) proxy
     = builder_end [GV_dict_entry (GV_string key) value].

(** A member as it is read back: the value that was sent, or the old one
    when none was. *)
Definition or_else {A : Type} (sent old : option A) : option A :=
  match sent with
  | Some x => Some x
  | None => old
  end.

(** The property names [property_changed_cb] acts on, and the keys
    [connman_service_update_properties] acts on. *)
Definition pushed_keys : list string :=
  ["State"; "Strength"; "BSS"; "Online"; "RunOnlineCheck"; "AutoConnect";
   "Favorite"; "Error"; "P2PGONegRequested"; "P2PProvDiscRequestedPBC";
   "P2PProvDiscRequestedEnterPin"; "P2PProvDiscRequestedDisplayPin";
   "P2PInvitationReceived"; "P2PPersistentReceived"; "PeerAdded"; "IPv6";
   "Proxy"; "IPv4"; "Nameservers"].

Definition snapshot_keys : list string :=
  ["Name"; "WiFi.SSID"; "Type"; "State"; "Strength"; "Security";
   "AutoConnect"; "Immutable"; "Favorite"; "Online"; "RunOnlineCheck"; "P2P";
   "Services"; "Address"; "Ethernet"; "BSS"].

(** What the upper layer's hook, when one is installed, sees of a pushed
    property. *)
Definition hook_events (w : World) (s : connman_service_t)
    (property : string) (va : GVariant) : list Event :=
  match service_property_changed (env w) with
  | Some f => [E_service_property_changed f (path s) (Some property) va]
  | None => []
  end.

(** *** More sample values *)

(** A daemon that answers [GetProperties] with the one property [key],
    and one whose calls all fail. *)
Definition answering_env (key : string) (value : GVariant) : Environment :=
  {| remote_error := fun _ _ => None;
     remote_properties :=
       fun _ => builder_end [GV_dict_entry (GV_string key) value];
     is_connected_peer := true;
     connected_p2p_service := true;
     service_property_changed := None;
     system_locale := None;
     proxy_new := 7;
     proxy_new_error := None;
     signal_connect := 1 |}.

Definition failing_env : Environment :=
  {| remote_error := fun _ _ => Some "GDBus.Error:net.connman.Error.Failed";
     remote_properties := fun _ => vardict_of [];
     is_connected_peer := true;
     connected_p2p_service := true;
     service_property_changed := None;
     system_locale := None;
     proxy_new := 7;
     proxy_new_error := Some "GDBus.Error:net.connman.Error.Failed";
     signal_connect := 1 |}.

(** An upper layer that has installed the hook [3]. *)
Definition hooked_env : Environment :=
  {| remote_error := fun _ _ => None;
     remote_properties := fun _ => vardict_of [];
     is_connected_peer := true;
     connected_p2p_service := true;
     service_property_changed := Some 3%nat;
     system_locale := None;
     proxy_new := 7;
     proxy_new_error := None;
     signal_connect := 1 |}.

(** The world of the one service [s], at pointer [0], under [e]. *)
Definition world_with (e : Environment) (s : connman_service_t) : World :=
  {| services := [Some s];
     cancellables := [];
     subscibed_for_diagnostiecs := false;
     pending := [];
     env := e;
     trace := [] |}.

(** A wired service that is "ready" on [eth0]. *)
Definition sample_wired_service : connman_service_t :=
  set_interface_name (Some "eth0")
    (upd_ipv4
       (fun _ =>
          Build_ipv4info (Some "manual") (Some "192.168.0.2")
            (Some "255.255.255.0") (Some "192.168.0.1") 24)
       (set_type 2 (set_state (Some "ready") sample_service))).

Definition sample_ipv4 : ipv4info_t :=
  Build_ipv4info (Some "manual") (Some "192.168.0.2") None
    (Some "192.168.0.1") 0.

Definition sample_ipv6 : ipv6info_t :=
  Build_ipv6info (Some "manual") (Some "fe80::2") 128 None.

Definition sample_proxy : proxyinfo_t :=
  Build_proxyinfo (Some "manual") None (Some ["proxy.example:8080"])
    (Some ["localhost"; "example.org"]).

(** A WFD Device Information subelement: a primary sink that is
    available, with content protection, on port 7236. *)
Definition sample_wfd_subelems : list Z := [0; 0; 6; 1; 17; 28; 68; 0; 50].

(** * Properties *)

(** ** Strings *)

Lemma string_compare_refl (s : string) : String.compare s s = Eq.
Proof.
  pose proof (String.compare_antisym s s) as H.
  destruct (String.compare s s); simpl in H; congruence.
Qed.

Lemma g_strcmp0_zero_iff (a b : option string) : g_strcmp0 a b = 0 <-> a = b.
Proof.
  destruct a as [a|], b as [b|]; simpl;
    try (split; [lia | congruence]); [| tauto].
  destruct (String.compare a b) eqn:E.
  - apply String.compare_eq_iff in E. subst. tauto.
  - split; [lia|]. intros [= ->]. rewrite string_compare_refl in E. discriminate.
  - split; [lia|]. intros [= ->]. rewrite string_compare_refl in E. discriminate.
Qed.

Lemma c_not_strcmp (a b : string) :
  c_not (g_strcmp0 (Some a) (Some b)) = String.eqb a b.
Proof.
  unfold c_not. destruct (String.eqb_spec a b) as [->|N].
  - apply Z.eqb_eq. apply g_strcmp0_zero_iff. reflexivity.
  - apply Z.eqb_neq. intro H. apply g_strcmp0_zero_iff in H. congruence.
Qed.

Lemma c_true_strcmp (a b : string) :
  c_true (g_strcmp0 (Some a) (Some b)) = negb (String.eqb a b).
Proof. unfold c_true. f_equal. apply c_not_strcmp. Qed.

Lemma is_key_eqb (k n : string) : is_key k n = String.eqb k n.
Proof. apply c_not_strcmp. Qed.

Lemma substring_0_append (a b : string) :
  substring 0 (String.length a) (a ++ b) = a.
Proof.
  induction a as [|c a IH]; simpl.
  - destruct b; reflexivity.
  - rewrite IH. reflexivity.
Qed.

Lemma substring_skip (pre s : string) (n : nat) :
  substring (String.length pre) n (pre ++ s) = substring 0 n s.
Proof.
  induction pre as [|c pre IH]; simpl; [reflexivity|]. apply IH.
Qed.

Lemma length_append (a b : string) :
  String.length (a ++ b) = (String.length a + String.length b)%nat.
Proof. induction a; simpl; congruence. Qed.

Lemma match_at_occurrence (pre needle post : string) :
  match_at (pre ++ needle ++ post) needle (String.length pre) = true.
Proof.
  unfold match_at. rewrite substring_skip, substring_0_append.
  apply String.eqb_refl.
Qed.

Lemma g_strrstr_scan_finds (haystack needle : string) (q p : nat) :
  (q <= p)%nat -> match_at haystack needle q = true ->
  g_strrstr_scan haystack needle p <> None.
Proof.
  induction p as [|p IH]; intros Hle Hq; simpl.
  - assert (q = 0)%nat by lia. subst. rewrite Hq. discriminate.
  - destruct (match_at haystack needle (S p)) eqn:E; [discriminate|].
    apply IH; [|assumption].
    destruct (Nat.eq_dec q (S p)) as [->|]; [congruence|lia].
Qed.

Lemma g_strrstr_contains (message needle : string) :
  contains message needle -> g_strrstr message needle <> None.
Proof.
  intros (pre & post & ->). unfold g_strrstr.
  destruct (Nat.eqb (String.length needle) 0); [discriminate|].
  rewrite !length_append.
  destruct (Nat.ltb_spec (String.length pre + (String.length needle + String.length post)) (String.length needle)); [lia|].
  apply g_strrstr_scan_finds with (q := String.length pre); [lia|].
  apply match_at_occurrence.
Qed.

(** ** The stores *)

Lemma update_nth_length {A : Type} (n : nat) (x : A) (l : list A) :
  List.length (update_nth n x l) = List.length l.
Proof.
  revert n; induction l as [|y l IH]; intros [|n]; simpl; auto.
Qed.

Lemma nth_error_update_nth_eq {A : Type} (n : nat) (x : A) (l : list A) :
  (n < List.length l)%nat -> nth_error (update_nth n x l) n = Some x.
Proof.
  revert n; induction l as [|y l IH]; intros [|n] H; simpl in *;
    try lia; auto. apply IH. lia.
Qed.

Lemma nth_error_update_nth_ne {A : Type} (n m : nat) (x : A) (l : list A) :
  n <> m -> nth_error (update_nth n x l) m = nth_error l m.
Proof.
  revert n m; induction l as [|y l IH]; intros [|n] [|m] H; simpl;
    try congruence; auto.
Qed.

Lemma update_nth_twice {A : Type} (n : nat) (x y : A) (l : list A) :
  update_nth n x (update_nth n y l) = update_nth n x l.
Proof.
  revert n; induction l as [|z l IH]; intros [|n]; simpl; f_equal; auto.
Qed.

Lemma update_nth_same {A : Type} (n : nat) (x : A) (l : list A) :
  nth_error l n = Some x -> update_nth n x l = l.
Proof.
  revert n; induction l as [|z l IH]; intros [|n] H; simpl in *;
    try congruence; f_equal; auto.
Qed.

Lemma lookup_service_lt (w : World) (p : nat) (s : connman_service_t) :
  lookup_service w p = Some s -> (p < List.length (services w))%nat.
Proof.
  unfold lookup_service. intros H. apply nth_error_Some.
  destruct (nth_error (services w) p); congruence.
Qed.

Lemma lookup_store_eq (w : World) (p : nat) (s s' : connman_service_t) :
  lookup_service w p = Some s ->
  lookup_service (store_service p s' w) p = Some s'.
Proof.
  intros H. unfold lookup_service, store_service. simpl.
  rewrite nth_error_update_nth_eq; [reflexivity|].
  eapply lookup_service_lt; eassumption.
Qed.

Lemma lookup_store_ne (w : World) (p q : nat) (s' : connman_service_t) :
  p <> q -> lookup_service (store_service p s' w) q = lookup_service w q.
Proof.
  intros H. unfold lookup_service, store_service. simpl.
  rewrite nth_error_update_nth_ne by assumption. reflexivity.
Qed.

Lemma store_store (w : World) (p : nat) (s1 s2 : connman_service_t) :
  store_service p s2 (store_service p s1 w) = store_service p s2 w.
Proof.
  unfold store_service. simpl. rewrite update_nth_twice. reflexivity.
Qed.

(** ** Runs, step by step *)

Lemma bind_mret {A B : Type} (a : A) (k : A -> M B) (w : World) :
  mbind (mret a) k w = k a w.
Proof. reflexivity. Qed.

Lemma bind_assoc {A B C : Type} (m : M A) (k : A -> M B) (k' : B -> M C)
    (w : World) :
  mbind (mbind m k) k' w = mbind m (fun a => mbind (k a) k') w.
Proof.
  unfold mbind. destruct (m w) as [[a| |] w1]; reflexivity.
Qed.

Lemma bind_run {A B : Type} (m : M A) (k : A -> M B) (w w1 : World) (a : A) :
  m w = (Done a, w1) -> mbind m k w = k a w1.
Proof. intros H. unfold mbind. rewrite H. reflexivity. Qed.

Lemma bind_lift {A B : Type} (o : option A) (a : A) (k : A -> M B)
    (w : World) :
  o = Some a -> mbind (lift o) k w = k a w.
Proof. intros ->. reflexivity. Qed.

Lemma bind_emit {B : Type} (e : Event) (k : unit -> M B) (w : World) :
  mbind (emit e) k w = k tt (set_trace (trace w ++ [e]) w).
Proof. reflexivity. Qed.

Lemma bind_ask {A B : Type} (f : Environment -> A) (k : A -> M B) (w : World) :
  mbind (ask f) k w = k (f (env w)) w.
Proof. reflexivity. Qed.

Lemma run_get {A : Type} (p : nat) (f : connman_service_t -> A) (w : World)
    (s : connman_service_t) :
  lookup_service w p = Some s -> get p f w = (Done (f s), w).
Proof. intros H. unfold get. rewrite H. reflexivity. Qed.

Lemma run_modify (p : nat) (f : connman_service_t -> connman_service_t)
    (w : World) (s : connman_service_t) :
  lookup_service w p = Some s ->
  modify p f w = (Done tt, store_service p (f s) w).
Proof. intros H. unfold modify. rewrite H. reflexivity. Qed.

Lemma bind_get {A B : Type} (p : nat) (f : connman_service_t -> A)
    (k : A -> M B) (w : World) (s : connman_service_t) :
  lookup_service w p = Some s -> mbind (get p f) k w = k (f s) w.
Proof. intros H. unfold mbind. rewrite (run_get _ _ _ _ H). reflexivity. Qed.

Lemma bind_modify {B : Type} (p : nat)
    (f : connman_service_t -> connman_service_t) (k : unit -> M B)
    (w : World) (s : connman_service_t) :
  lookup_service w p = Some s ->
  mbind (modify p f) k w = k tt (store_service p (f s) w).
Proof. intros H. unfold mbind. rewrite (run_modify _ _ _ _ H). reflexivity. Qed.


Lemma lookup_set_trace (w : World) (p : nat) (s : connman_service_t)
    (t : list Event) :
  lookup_service w p = Some s -> lookup_service (set_trace t w) p = Some s.
Proof. exact (fun H => H). Qed.

Lemma lookup_set_cancellables (w : World) (p : nat) (s : connman_service_t)
    (c : list GCancellable) :
  lookup_service w p = Some s ->
  lookup_service (set_cancellables c w) p = Some s.
Proof. exact (fun H => H). Qed.

Lemma lookup_set_pending (w : World) (p : nat) (s : connman_service_t)
    (c : list pending_call) :
  lookup_service w p = Some s -> lookup_service (set_pending c w) p = Some s.
Proof. exact (fun H => H). Qed.

Lemma lookup_set_subscibed (w : World) (p : nat) (s : connman_service_t)
    (b : bool) :
  lookup_service w p = Some s ->
  lookup_service (set_subscibed_for_diagnostiecs b w) p = Some s.
Proof. exact (fun H => H). Qed.

Lemma bind_get_subscibed {B : Type} (k : bool -> M B) (w : World) :
  mbind get_subscibed_for_diagnostiecs k w
  = k (subscibed_for_diagnostiecs w) w.
Proof. reflexivity. Qed.

Lemma bind_put_subscibed {B : Type} (b : bool) (k : unit -> M B)
    (w : World) :
  mbind (put_subscibed_for_diagnostiecs b) k w
  = k tt (set_subscibed_for_diagnostiecs b w).
Proof. reflexivity. Qed.

Lemma bind_is_cancelled {B : Type} (t : nat) (k : bool -> M B) (w : World)
    (c : GCancellable) :
  live_token w t = Some c ->
  mbind (g_cancellable_is_cancelled t) k w = k (cancelled c) w.
Proof.
  intros H. unfold mbind, g_cancellable_is_cancelled. rewrite H. reflexivity.
Qed.

Lemma bind_unref {B : Type} (t : nat) (k : unit -> M B) (w : World)
    (c : GCancellable) :
  live_token w t = Some c ->
  mbind (g_object_unref t) k w
  = k tt (set_cancellables (update_nth t (released c) (cancellables w)) w).
Proof.
  intros H. unfold mbind, g_object_unref. rewrite H. reflexivity.
Qed.

Lemma bind_cancellable_new {B : Type} (k : nat -> M B) (w : World) :
  mbind g_cancellable_new k w
  = k (List.length (cancellables w))
      (set_cancellables
         (cancellables w ++ [{| cancelled := false; ref_count := 1 |}]) w).
Proof. reflexivity. Qed.

Lemma live_store (w : World) (p t : nat) (s : connman_service_t)
    (c : GCancellable) :
  live_token w t = Some c -> live_token (store_service p s w) t = Some c.
Proof. exact (fun H => H). Qed.

Lemma live_set_trace (w : World) (t : nat) (l : list Event)
    (c : GCancellable) :
  live_token w t = Some c -> live_token (set_trace l w) t = Some c.
Proof. exact (fun H => H). Qed.

Lemma live_set_pending (w : World) (t : nat) (l : list pending_call)
    (c : GCancellable) :
  live_token w t = Some c -> live_token (set_pending l w) t = Some c.
Proof. exact (fun H => H). Qed.

Lemma live_new_token (w : World) (l : list GCancellable) :
  l = cancellables w ->
  live_token
    (set_cancellables (l ++ [{| cancelled := false; ref_count := 1 |}]) w)
    (List.length l)
  = Some {| cancelled := false; ref_count := 1 |}.
Proof.
  intros _. unfold live_token. simpl.
  rewrite nth_error_app2, Nat.sub_diag by lia. reflexivity.
Qed.

Create HintDb heap.
#[local] Hint Resolve lookup_store_eq lookup_set_trace lookup_set_cancellables
  lookup_set_pending lookup_set_subscibed live_store live_set_trace
  live_set_pending : heap.

Ltac step :=
  first
    [ rewrite bind_assoc
    | rewrite bind_mret
    | rewrite bind_emit
    | rewrite bind_ask
    | rewrite bind_get_subscibed
    | rewrite bind_put_subscibed
    | erewrite bind_get by eauto with heap
    | erewrite bind_modify by eauto with heap
    | erewrite bind_is_cancelled by eauto with heap
    | erewrite bind_unref by eauto with heap
    | rewrite bind_cancellable_new
    | erewrite bind_lift by reflexivity ].

Ltac steps := repeat step.


Lemma preserves_mret {A : Type} (I : World -> Prop) (a : A) :
  preserves I (mret a).
Proof. intros w H. exact H. Qed.

Lemma preserves_abort {A : Type} (I : World -> Prop) :
  preserves I (@abort A).
Proof. intros w H. exact H. Qed.

Lemma preserves_lift {A : Type} (I : World -> Prop) (o : option A) :
  preserves I (lift o).
Proof. destruct o; intros w H; exact H. Qed.

Lemma preserves_ask {A : Type} (I : World -> Prop) (f : Environment -> A) :
  preserves I (ask f).
Proof. intros w H. exact H. Qed.

Lemma preserves_get {A : Type} (I : World -> Prop) (p : nat)
    (f : connman_service_t -> A) :
  preserves I (get p f).
Proof.
  intros w H. unfold get. destruct (lookup_service w p); exact H.
Qed.

Lemma preserves_bind {A B : Type} (I : World -> Prop) (m : M A)
    (k : A -> M B) :
  preserves I m -> (forall a, preserves I (k a)) -> preserves I (mbind m k).
Proof.
  intros Hm Hk w H. unfold mbind. specialize (Hm w H).
  destruct (m w) as [[a| |] w1]; simpl in *; [apply Hk| |]; assumption.
Qed.

Lemma preserves_when (I : World -> Prop) (c : bool) (m : M unit) :
  preserves I m -> preserves I (when c m).
Proof. destruct c; [auto | intros _; apply preserves_mret]. Qed.

Lemma preserves_for_loop (I : World -> Prop) (body : nat -> M unit)
    (count first : nat) :
  (forall j, preserves I (body j)) -> preserves I (for_loop first count body).
Proof.
  intros Hb. revert first.
  induction count as [|c IH]; intros first; simpl.
  - apply preserves_mret.
  - apply preserves_bind; [apply Hb | intros _; apply IH].
Qed.

Lemma preserves_for_each_entry (I : World -> Prop) (property : GVariant)
    (body : GVariant -> string -> M unit) :
  (forall entry key, preserves I (body entry key)) ->
  preserves I (for_each_entry property body).
Proof.
  intros Hb. unfold for_each_entry.
  repeat (apply preserves_bind; [apply preserves_lift | intros ?]).
  apply preserves_for_loop. intros j.
  repeat (apply preserves_bind; [apply preserves_lift | intros ?]).
  apply Hb.
Qed.

Lemma settled_emit (p : nat) (st : option string) (mask : Z)
    (t0 : list Event) (e : Event) :
  is_property_change e = false -> preserves (settled p st mask t0) (emit e).
Proof.
  intros He w (s & rest & Hs & Hst & Hm & Ht & Hr).
  exists s, (rest ++ [e]). simpl. repeat split; auto.
  - rewrite Ht, app_assoc. reflexivity.
  - rewrite forallb_app, Hr. simpl. rewrite He. reflexivity.
Qed.

Lemma settled_modify (p : nat) (st : option string) (mask : Z)
    (t0 : list Event) (f : connman_service_t -> connman_service_t) :
  (forall s, state (f s) = state s /\ change_mask (f s) = change_mask s) ->
  preserves (settled p st mask t0) (modify p f).
Proof.
  intros Hf w (s & rest & Hs & Hst & Hm & Ht & Hr).
  unfold modify. rewrite Hs. simpl.
  exists (f s), rest. destruct (Hf s) as [H1 H2].
  split; [eapply lookup_store_eq; eassumption |].
  repeat split; try congruence; assumption.
Qed.

(** ** Bit masks *)

Lemma land_lor_same (m c : Z) : Z.land (Z.lor m c) c = c.
Proof.
  apply Z.bits_inj'. intros n _.
  rewrite Z.land_spec, Z.lor_spec.
  destruct (Z.testbit m n), (Z.testbit c n); reflexivity.
Qed.

Lemma guint_fits (m : Z) : 0 <= m < 2 ^ 32 -> Z.land m (Z.ones 32) = m.
Proof.
  intros H. rewrite Z.land_ones by lia. apply Z.mod_small. exact H.
Qed.

Lemma land_guint_range (m c : Z) :
  0 <= m < 2 ^ 32 -> 0 <= Z.land m c < 2 ^ 32.
Proof.
  intros H. rewrite <- (guint_fits m H).
  rewrite <- Z.land_assoc, (Z.land_comm (Z.ones 32)), Z.land_assoc.
  rewrite Z.land_ones by lia. apply Z.mod_pos_bound. lia.
Qed.

Lemma land_guint_not (m c : Z) :
  0 <= m < 2 ^ 32 -> Z.land m (Z.lnot c mod 2 ^ 32) = Z.land m (Z.lnot c).
Proof.
  intros H. rewrite <- Z.land_ones by lia.
  rewrite (Z.land_comm (Z.lnot c)), Z.land_assoc, guint_fits by exact H.
  reflexivity.
Qed.

Lemma land_not_same (x c : Z) :
  Z.land (Z.land x (Z.lnot c mod 2 ^ 32)) c = 0.
Proof.
  rewrite <- Z.land_ones by lia.
  rewrite <- !Z.land_assoc.
  rewrite (Z.land_comm (Z.ones 32) c), (Z.land_assoc (Z.lnot c) c).
  rewrite (Z.land_comm (Z.lnot c) c), Z.land_lnot_diag.
  rewrite Z.land_0_l, Z.land_0_r. reflexivity.
Qed.

Lemma gint_of_guint_zero (x : Z) :
  0 <= x < 2 ^ 32 -> (gint_of_guint x = 0 <-> x = 0).
Proof.
  intros H. unfold gint_of_guint.
  destruct (Z.ltb_spec x (2 ^ 31)); lia.
Qed.

(** ** Dictionaries *)

Lemma find_entry_vardict (kvs : list (string * GVariant)) (key : string) :
  find_entry
    (map (fun kv => GV_dict_entry (GV_string (fst kv)) (GV_variant (snd kv)))
       kvs) key
  = option_map GV_variant (field_of kvs key).
Proof.
  induction kvs as [|[k v] kvs IH]; simpl; [reflexivity|].
  destruct (String.eqb k key); [reflexivity | exact IH].
Qed.

Lemma lookup_value_vardict (kvs : list (string * GVariant)) (key : string)
    (ty : GVariantType) :
  g_variant_lookup_value (vardict_of kvs) key ty
  = Some (sub_field kvs key ty).
Proof.
  unfold g_variant_lookup_value, vardict_of, builder_end, sub_field. simpl.
  rewrite find_entry_vardict.
  destruct (field_of kvs key) as [v|]; simpl; [|reflexivity].
  destruct (g_variant_is_of_type v ty); reflexivity.
Qed.

Lemma sub_field_typed (kvs : list (string * GVariant)) (key : string)
    (ty : GVariantType) (v : GVariant) :
  sub_field kvs key ty = Some v -> g_variant_is_of_type v ty = true.
Proof.
  unfold sub_field. destruct (field_of kvs key) as [x|]; [|discriminate].
  destruct (g_variant_is_of_type x ty) eqn:E; [|discriminate].
  intros [= <-]. exact E.
Qed.

Lemma typed_string (v : GVariant) :
  g_variant_is_of_type v G_VARIANT_TYPE_STRING = true ->
  exists s, v = GV_string s.
Proof. destruct v; simpl; try discriminate. eauto. Qed.

Lemma typed_int32 (v : GVariant) :
  g_variant_is_of_type v G_VARIANT_TYPE_INT32 = true ->
  exists n, v = GV_int32 n.
Proof. destruct v; simpl; try discriminate. eauto. Qed.

(** One pass of the BSS loop appends what the entry decodes to and
    leaves the world alone. *)
Lemma decode_bss_entry_run (entries : list (list (string * GVariant)))
    (j : nat) (kvs : list (string * GVariant)) (array : list bssinfo_t)
    (w : World) :
  nth_error entries j = Some kvs ->
  decode_bss_entry (bss_bag_of entries) j array w
  = (Done (array ++ [bss_of_entry kvs]), w).
Proof.
  intros Hj. unfold decode_bss_entry, bss_bag_of.
  erewrite bind_lift
    by (simpl; rewrite nth_error_map, Hj; reflexivity).
  erewrite bind_lift by reflexivity.
  rewrite !lookup_value_vardict. steps.
  unfold bss_of_entry, g_strlcpy.
  destruct (sub_field kvs "Id" G_VARIANT_TYPE_STRING) as [x|] eqn:Ei.
  - destruct (typed_string x (sub_field_typed _ _ _ _ Ei)) as [id ->].
    steps.
    destruct (sub_field kvs "Signal" G_VARIANT_TYPE_INT32) as [y|] eqn:Es.
    + destruct (typed_int32 y (sub_field_typed _ _ _ _ Es)) as [n ->].
      steps.
      destruct (sub_field kvs "Frequency" G_VARIANT_TYPE_INT32)
        as [z|] eqn:Ef.
      * destruct (typed_int32 z (sub_field_typed _ _ _ _ Ef)) as [m ->].
        steps. reflexivity.
      * steps. reflexivity.
    + steps.
      destruct (sub_field kvs "Frequency" G_VARIANT_TYPE_INT32)
        as [z|] eqn:Ef.
      * destruct (typed_int32 z (sub_field_typed _ _ _ _ Ef)) as [m ->].
        steps. reflexivity.
      * steps. reflexivity.
  - steps.
    destruct (sub_field kvs "Signal" G_VARIANT_TYPE_INT32) as [y|] eqn:Es.
    + destruct (typed_int32 y (sub_field_typed _ _ _ _ Es)) as [n ->].
      steps.
      destruct (sub_field kvs "Frequency" G_VARIANT_TYPE_INT32)
        as [z|] eqn:Ef.
      * destruct (typed_int32 z (sub_field_typed _ _ _ _ Ef)) as [m ->].
        steps. reflexivity.
      * steps. reflexivity.
    + steps.
      destruct (sub_field kvs "Frequency" G_VARIANT_TYPE_INT32)
        as [z|] eqn:Ef.
      * destruct (typed_int32 z (sub_field_typed _ _ _ _ Ef)) as [m ->].
        steps. reflexivity.
      * steps. reflexivity.
Qed.

(** The loop over a bag, by induction on the entries still to decode. *)
Lemma decode_bss_loop (rest decoded : list (list (string * GVariant)))
    (array : list bssinfo_t) (w : World) :
  for_fold (List.length decoded) (List.length rest) array
    (decode_bss_entry (bss_bag_of (decoded ++ rest))) w
  = (Done (array ++ map bss_of_entry rest), w).
Proof.
  revert decoded array.
  induction rest as [|kvs rest IH]; intros decoded array; simpl.
  - rewrite app_nil_r. reflexivity.
  - unfold mbind at 1.
    rewrite (decode_bss_entry_run _ _ kvs)
      by (rewrite nth_error_app2, Nat.sub_diag by lia; reflexivity).
    specialize (IH (decoded ++ [kvs]) (array ++ [bss_of_entry kvs])).
    rewrite <- app_assoc in IH. simpl in IH.
    rewrite length_app, Nat.add_1_r in IH.
    rewrite IH, <- app_assoc. reflexivity.
Qed.

Lemma decode_bss_all (entries : list (list (string * GVariant)))
    (w : World) :
  for_fold 0 (List.length entries) []
    (decode_bss_entry (bss_bag_of entries)) w
  = (Done (map bss_of_entry entries), w).
Proof. exact (decode_bss_loop entries [] [] w). Qed.

Lemma update_bss_run (w : World) (p : nat) (s : connman_service_t)
    (entries : list (list (string * GVariant))) :
  lookup_service w p = Some s ->
  update_bss p (bss_bag_of entries) w
  = (Done tt,
     store_service p (set_bss (Some (map bss_of_entry entries)) s) w).
Proof.
  intros Hs. unfold update_bss. steps.
  destruct (bss s) as [old|] eqn:Hold; steps; rewrite length_map.
  - erewrite bind_run by apply decode_bss_all.
    erewrite run_modify by eauto with heap.
    rewrite store_store. reflexivity.
  - erewrite bind_run by apply decode_bss_all.
    erewrite run_modify by eauto with heap. reflexivity.
Qed.

Section Proofs.
Context {hdr : connman_service_h} {ext : Collaborators}.

Lemma update_properties_loop_unfold (fuel p : nat) (properties : GVariant)
    (i : nat) :
  update_properties_loop fuel p properties i
  = (n <- lift (g_variant_n_children properties) ;;
     if Nat.ltb i n then
       match fuel with
       | O => out_of_fuel
       | S fuel' =>
           property <- lift (g_variant_get_child_value properties i) ;;
           i <- update_property p property i ;;
           update_properties_loop fuel' p properties (S i)
       end
     else mret tt).
Proof. destruct fuel; reflexivity. Qed.

(** C2. While [disconnecting] is set, a new state other than "ready" and
    "online" only clears the flag: the state and the change mask stay as
    they are and nothing is appended to the trace, so no property-change
    callback runs. *)
Theorem advance_state_suppressed_while_disconnecting (w : World) (p : nat)
    (s : connman_service_t) (new_state : string) :
  lookup_service w p = Some s ->
  disconnecting s = true ->
  new_state <> "ready" -> new_state <> "online" ->
  exists s' w',
    connman_service_advance_state (Some p) (GV_string new_state) w
    = (Done tt, w')
    /\ w' = store_service p s' w
    /\ s' = set_disconnecting false s
    /\ state s' = state s
    /\ disconnecting s' = false
    /\ change_mask s' = change_mask s
    /\ trace w' = trace w.
Proof.
  intros Hs Hd Hr Ho.
  exists (set_disconnecting false s).
  exists (store_service p (set_disconnecting false s) w).
  split; [| repeat split].
  unfold connman_service_advance_state.
  steps. rewrite Hd, !c_true_strcmp.
  apply String.eqb_neq in Hr, Ho. rewrite Hr, Ho. simpl.
  apply (run_modify _ _ _ _ Hs).
Qed.

Lemma settled_call_sync (p : nat) (st : option string) (mask : Z)
    (t0 : list Event) (proxy : nat) (call : RemoteCall) :
  preserves (settled p st mask t0) (call_sync proxy call).
Proof.
  unfold call_sync. apply preserves_bind.
  - apply settled_emit. reflexivity.
  - intros _. apply preserves_ask.
Qed.

Lemma settled_update_string (p : nat) (st : option string) (mask : Z)
    (t0 : list Event) (inVal : GVariant)
    (outVal : option string -> connman_service_t -> connman_service_t) :
  (forall v s, state (outVal v s) = state s
               /\ change_mask (outVal v s) = change_mask s) ->
  preserves (settled p st mask t0)
    (update_string_val_from_first_element inVal p outVal).
Proof.
  intros H. unfold update_string_val_from_first_element.
  repeat (apply preserves_bind; [apply preserves_lift | intros ?]).
  apply settled_modify. intros s. apply H.
Qed.

Lemma settled_get_int (I : World -> Prop) (inVal : GVariant) :
  preserves I (get_int_val_from_first_element inVal).
Proof.
  unfold get_int_val_from_first_element.
  repeat (apply preserves_bind; [apply preserves_lift | intros ?]).
  destruct a1; [apply preserves_abort | apply preserves_mret].
Qed.

Lemma settled_run_ip_command (p : nat) (st : option string) (mask : Z)
    (t0 : list Event) (c : ip_command) :
  preserves (settled p st mask t0) (run_ip_command c).
Proof.
  unfold run_ip_command.
  destruct (Nat.ltb _ _); [apply preserves_abort |].
  apply settled_emit. reflexivity.
Qed.

Ltac settle :=
  repeat
    first
      [ apply preserves_mret
      | apply preserves_abort
      | apply preserves_lift
      | apply preserves_ask
      | apply preserves_get
      | apply settled_call_sync
      | apply settled_run_ip_command
      | apply settled_get_int
      | apply settled_update_string; intros ? ?; split; reflexivity
      | apply settled_modify; intros ?; split; reflexivity
      | apply settled_emit; reflexivity
      | apply preserves_when
      | apply preserves_for_each_entry; intros ? ?
      | apply preserves_for_loop; intros ?
      | apply preserves_bind; [| intros ?]
      | progress cbv zeta
      | match goal with
        | |- preserves _ (match ?x with _ => _ end) => destruct x
        end ].

Lemma settled_get_ipinfo (p : nat) (st : option string) (mask : Z)
    (t0 : list Event) :
  preserves (settled p st mask t0) (connman_service_get_ipinfo (Some p)).
Proof. unfold connman_service_get_ipinfo. settle. Qed.

Lemma settled_set_ip_rule (p : nat) (st : option string) (mask : Z)
    (t0 : list Event) (status : bool) :
  preserves (settled p st mask t0) (connman_service_set_ip_rule p status).
Proof. unfold connman_service_set_ip_rule. settle. Qed.

Lemma settled_routing (p : nat) (st : option string) (mask : Z)
    (t0 : list Event) (new_state : string) :
  preserves (settled p st mask t0) (update_routing_rules p new_state).
Proof.
  unfold update_routing_rules, connman_service_create_ip_rule,
    connman_service_delete_ip_rule.
  settle.
Qed.


Lemma preserves_put_subscibed (p : nat) (st : option string) (mask : Z)
    (t0 : list Event) (b : bool) :
  preserves (settled p st mask t0) (put_subscibed_for_diagnostiecs b).
Proof. intros w H. exact H. Qed.

Lemma settled_diagnostics (p : nat) (st : option string) (mask : Z)
    (t0 : list Event) :
  preserves (settled p st mask t0) (update_diagnostics_subscription p).
Proof.
  unfold update_diagnostics_subscription, update_wifi_technology.
  apply preserves_bind; [intros w H; exact H | intros ?].
  settle; apply preserves_put_subscibed.
Qed.

Lemma diagnostics_run (w : World) (p : nat) (s : connman_service_t) :
  lookup_service w p = Some s ->
  exists w',
    update_diagnostics_subscription p w = (Done tt, w')
    /\ services w' = services w
    /\ cancellables w' = cancellables w
    /\ pending w' = pending w
    /\ exists l, trace w' = trace w ++ l /\ forallb is_diagnostics l = true.
Proof.
  intros Hs. unfold update_diagnostics_subscription, update_wifi_technology.
  steps.
  match goal with |- context [if ?c then _ else _] => destruct c end.
  - steps. eexists. split; [reflexivity|]. simpl. repeat split.
    exists [E_technology_update_properties]. split; reflexivity.
  - unfold when.
    match goal with |- context [if ?c then _ else _] => destruct c end.
    + steps. eexists. split; [reflexivity|]. simpl. repeat split.
      exists [E_technology_update_properties]. split; reflexivity.
    + eexists. split; [reflexivity|]. repeat split.
      exists []. rewrite app_nil_r. split; reflexivity.
Qed.

Lemma advance_state_new_settled (w : World) (p : nat)
    (s : connman_service_t) (new_state : string) :
  lookup_service w p = Some s ->
  disconnecting s = false ->
  state s <> Some new_state ->
  settled p (Some new_state)
    (Z.lor (change_mask s)
       (Z.lor CONNMAN_SERVICE_CHANGE_CATEGORY_GETSTATUS
          CONNMAN_SERVICE_CHANGE_CATEGORY_FINDNETWORKS))
    (trace w
       ++ match handle_property_change_fn s with
          | Some fn =>
              [E_property_change_fn fn p "State" (GV_string new_state)]
          | None => []
          end)
    (snd (connman_service_advance_state (Some p) (GV_string new_state) w)).
Proof.
  intros Hs Hd Hst.
  unfold connman_service_advance_state.
  steps. rewrite Hd. simpl. steps.
  assert (c_true (g_strcmp0 (state s) (Some new_state)) = true) as ->.
  { unfold c_true. apply negb_true_iff, Z.eqb_neq.
    intro H. apply g_strcmp0_zero_iff in H. contradiction. }
  unfold when at 1, connman_service_set_changed, notify_property_change.
  steps. simpl.
  destruct (handle_property_change_fn s) as [fn|]; steps;
    (apply preserves_bind;
     [apply settled_routing | intros _; apply settled_diagnostics | ]);
    eexists; exists [];
    (split; [eauto with heap |]); simpl; rewrite ?app_nil_r; auto.
Qed.

Lemma routing_skipped (w : World) (p : nat) (s : connman_service_t)
    (new_state : string) :
  lookup_service w p = Some s ->
  MULTIPLE_ROUTING_TABLE = false
  \/ type s <> CONNMAN_SERVICE_TYPE_ETHERNET ->
  update_routing_rules p new_state w = (Done tt, w).
Proof.
  intros Hs [H|H]; unfold update_routing_rules.
  - rewrite H. reflexivity.
  - destruct MULTIPLE_ROUTING_TABLE; [|reflexivity].
    unfold when at 1. steps.
    apply Z.eqb_neq in H. rewrite H, andb_false_r. reflexivity.
Qed.

(** Off Ethernet, or in a build without the routing tables, the change of
    state runs to its end. *)
Lemma advance_state_new_returns (w : World) (p : nat)
    (s : connman_service_t) (new_state : string) :
  lookup_service w p = Some s ->
  disconnecting s = false ->
  state s <> Some new_state ->
  MULTIPLE_ROUTING_TABLE = false
  \/ type s <> CONNMAN_SERVICE_TYPE_ETHERNET ->
  fst (connman_service_advance_state (Some p) (GV_string new_state) w)
  = Done tt.
Proof.
  intros Hs Hd Hst Hroute.
  unfold connman_service_advance_state.
  steps. rewrite Hd. simpl. steps.
  assert (c_true (g_strcmp0 (state s) (Some new_state)) = true) as ->.
  { unfold c_true. apply negb_true_iff, Z.eqb_neq.
    intro H. apply g_strcmp0_zero_iff in H. contradiction. }
  unfold when at 1, connman_service_set_changed, notify_property_change.
  steps. simpl.
  destruct (handle_property_change_fn s) as [fn|]; steps;
    (erewrite bind_run
       by (eapply routing_skipped; [eauto with heap | exact Hroute]));
    match goal with
    | |- fst (update_diagnostics_subscription p ?w1) = _ =>
        destruct (diagnostics_run w1 p _ ltac:(eauto with heap))
          as (w' & Hrun & _);
        rewrite Hrun; reflexivity
    end.
Qed.

(** C6, as amended.  With [disconnecting] clear: a state string equal to
    the current state changes no service and invokes no property-change
    callback, the run can only append the diagnostics refresh to the
    trace; a different string becomes the state, both categories are
    or-ed into the change mask, and the registered callback is invoked
    once, with ("State", value), whatever the routing block does after
    it (without that block the run ends normally). *)
Theorem advance_state_same_or_new (w : World) (p : nat)
    (s : connman_service_t) (new_state : string) :
  lookup_service w p = Some s ->
  disconnecting s = false ->
  (state s = Some new_state ->
   exists w' l,
     connman_service_advance_state (Some p) (GV_string new_state) w
     = (Done tt, w')
     /\ services w' = services w
     /\ cancellables w' = cancellables w
     /\ pending w' = pending w
     /\ trace w' = trace w ++ l
     /\ forallb is_diagnostics l = true)
  /\ (state s <> Some new_state ->
      exists s' rest,
        lookup_service
          (snd (connman_service_advance_state (Some p)
                  (GV_string new_state) w)) p = Some s'
        /\ state s' = Some new_state
        /\ change_mask s'
           = Z.lor (change_mask s)
               (Z.lor CONNMAN_SERVICE_CHANGE_CATEGORY_GETSTATUS
                  CONNMAN_SERVICE_CHANGE_CATEGORY_FINDNETWORKS)
        /\ trace
             (snd (connman_service_advance_state (Some p)
                     (GV_string new_state) w))
           = (trace w
                ++ match handle_property_change_fn s with
                   | Some fn =>
                       [E_property_change_fn fn p "State"
                          (GV_string new_state)]
                   | None => []
                   end) ++ rest
        /\ forallb (fun e => negb (is_property_change e)) rest = true
        /\ (MULTIPLE_ROUTING_TABLE = false
            \/ type s <> CONNMAN_SERVICE_TYPE_ETHERNET ->
            fst (connman_service_advance_state (Some p)
                   (GV_string new_state) w) = Done tt)).
Proof.
  intros Hs Hd. split; intros Hst.
  - unfold connman_service_advance_state.
    steps. rewrite Hd. simpl. steps. rewrite Hst.
    rewrite c_true_strcmp, String.eqb_refl. simpl. steps.
    destruct (diagnostics_run w p s Hs) as (w' & Hrun & H1 & H2 & H3 & l & H4 & H5).
    exists w', l. rewrite Hrun. repeat split; assumption.
  - destruct (advance_state_new_settled w p s new_state Hs Hd Hst)
      as (s' & rest & H1 & H2 & H3 & H4 & H5).
    exists s', rest. repeat split; try assumption.
    exact (advance_state_new_returns w p s new_state Hs Hd Hst).
Qed.

(** C7. The state enumerator read off a state string is always one of
    the seven; each string of the vocabulary maps to its own enumerator
    and every other input, [NULL] included, to Idle. *)
Theorem get_state_is_enumerated (st : option string) :
  In (connman_service_get_state st)
    [CONNMAN_SERVICE_STATE_IDLE; CONNMAN_SERVICE_STATE_ASSOCIATION;
     CONNMAN_SERVICE_STATE_CONFIGURATION; CONNMAN_SERVICE_STATE_READY;
     CONNMAN_SERVICE_STATE_ONLINE; CONNMAN_SERVICE_STATE_DISCONNECT;
     CONNMAN_SERVICE_STATE_FAILURE]
  /\ connman_service_get_state (Some "idle") = CONNMAN_SERVICE_STATE_IDLE
  /\ connman_service_get_state (Some "association")
     = CONNMAN_SERVICE_STATE_ASSOCIATION
  /\ connman_service_get_state (Some "configuration")
     = CONNMAN_SERVICE_STATE_CONFIGURATION
  /\ connman_service_get_state (Some "ready") = CONNMAN_SERVICE_STATE_READY
  /\ connman_service_get_state (Some "online") = CONNMAN_SERVICE_STATE_ONLINE
  /\ connman_service_get_state (Some "disconnect")
     = CONNMAN_SERVICE_STATE_DISCONNECT
  /\ connman_service_get_state (Some "failure")
     = CONNMAN_SERVICE_STATE_FAILURE
  /\ ((exists n,
         In n ["idle"; "association"; "configuration"; "ready"; "online";
               "disconnect"; "failure"] /\ st = Some n)
      \/ connman_service_get_state st = CONNMAN_SERVICE_STATE_IDLE).
Proof.
  split; [| repeat split; try reflexivity].
  - unfold connman_service_get_state. destruct st as [n|]; [| simpl; auto].
    repeat match goal with
           | |- context [if ?c then _ else _] => destruct c
           end; simpl; auto 10.
  - unfold connman_service_get_state. destruct st as [n|]; [| right; reflexivity].
    rewrite !c_not_strcmp.
    repeat match goal with
           | |- context [if String.eqb ?a ?b then _ else _] =>
               destruct (String.eqb_spec a b) as [-> | ?]
           end;
      try (right; reflexivity);
      left; eexists; (split; [| reflexivity]); simpl; auto 10.
Qed.

(** C9, as amended.  On a mask that fits an [unsigned int] and for every
    category set [c]: set is bitwise or, unset is bitwise and-not,
    is-changed is non-zero exactly when the bitwise and is, and after
    set (c) then unset (c), is-changed (c) is zero; after set (c),
    is-changed (c) is non-zero for every [c] that fits an [unsigned int]
    and is not empty. *)
Theorem change_mask_is_a_bitset (w : World) (p : nat) (s : connman_service_t)
    (c : Z) :
  lookup_service w p = Some s ->
  0 <= change_mask s < 2 ^ 32 ->
  connman_service_set_changed p c w
  = (Done tt, store_service p (set_change_mask (Z.lor (change_mask s) c) s) w)
  /\ connman_service_unset_changed p c w
     = (Done tt,
        store_service p
          (set_change_mask (Z.land (change_mask s) (Z.lnot c)) s) w)
  /\ (exists r,
        connman_service_is_changed p c w = (Done r, w)
        /\ (r <> 0 <-> Z.land (change_mask s) c <> 0))
  /\ (0 < c < 2 ^ 32 ->
      exists r w',
        (connman_service_set_changed p c ;;
         connman_service_is_changed p c) w = (Done r, w')
        /\ r <> 0)
  /\ (exists w',
        (connman_service_set_changed p c ;;
         connman_service_unset_changed p c ;;
         connman_service_is_changed p c) w = (Done 0, w')).
Proof.
  intros Hs Hm.
  unfold connman_service_set_changed, connman_service_unset_changed,
    connman_service_is_changed.
  split; [| split; [| split; [| split]]].
  - rewrite (run_modify _ _ _ _ Hs). reflexivity.
  - rewrite (run_modify _ _ _ _ Hs), land_guint_not by exact Hm. reflexivity.
  - eexists. steps. split; [reflexivity|].
    rewrite gint_of_guint_zero by (apply land_guint_range; exact Hm).
    reflexivity.
  - intros Hc. do 2 eexists. steps. split; [reflexivity|]. simpl.
    rewrite land_lor_same, gint_of_guint_zero by lia. lia.
  - eexists. steps. simpl. rewrite land_not_same. reflexivity.
Qed.

(** C10. Every command of the facade returns [FALSE] ([NULL] for
    [connman_service_fetch_properties]) on a [NULL] service and leaves the
    world as it was: no call is issued, and nothing is written. *)
Theorem null_service_is_refused (w : World) (cb : option nat)
    (user_data : nat) (ipv6 : option ipv6info_t) (ipv4 : option ipv4info_t)
    (proxyinfo : option proxyinfo_t) (dns : option (list string))
    (value : bool) (passphrase : option string) :
  connman_service_connect None cb user_data w = (Done false, w)
  /\ connman_peer_connect None cb user_data w = (Done false, w)
  /\ connman_service_disconnect None w = (Done false, w)
  /\ connman_peer_disconnect None w = (Done false, w)
  /\ connman_service_remove None w = (Done false, w)
  /\ connman_service_reject_peer None w = (Done false, w)
  /\ connman_service_set_default None w = (Done false, w)
  /\ connman_service_set_ipv6 None ipv6 w = (Done false, w)
  /\ connman_service_set_ipv4 None ipv4 w = (Done false, w)
  /\ connman_service_set_proxy None proxyinfo w = (Done false, w)
  /\ connman_service_set_nameservers None dns w = (Done false, w)
  /\ connman_service_set_autoconnect None value w = (Done false, w)
  /\ connman_service_set_run_online_check None value w = (Done false, w)
  /\ connman_service_set_passphrase None passphrase w = (Done false, w)
  /\ connman_service_get_ipinfo None w = (Done false, w)
  /\ connman_service_get_proxyinfo None w = (Done false, w)
  /\ connman_service_fetch_properties None w = (Done None, w).
Proof.
  unfold connman_service_connect, connman_peer_connect,
    connman_service_disconnect, connman_peer_disconnect,
    connman_service_remove, connman_service_reject_peer,
    connman_service_set_default, connman_service_set_ipv6,
    connman_service_set_ipv4, connman_service_set_proxy,
    connman_service_set_nameservers, connman_service_set_autoconnect,
    connman_service_set_run_online_check, connman_service_set_passphrase,
    connman_service_get_ipinfo, connman_service_get_proxyinfo,
    connman_service_fetch_properties, mret.
  repeat split.
Qed.


Lemma set_cancellable_none (s : connman_service_t) :
  cancellable s = None -> set_cancellable None s = s.
Proof. destruct s. simpl. intros ->. reflexivity. Qed.

Lemma reported_service (res : GAsyncResult) :
  match finish_error res with
  | Some message =>
      match g_strrstr message "AlreadyConnected" with
      | Some _ => true
      | None => finish_ret res
      end
  | None => finish_ret res
  end = reported false res.
Proof.
  unfold reported. destruct (finish_error res) as [m|]; [|reflexivity].
  destruct (g_strrstr m "AlreadyConnected"); reflexivity.
Qed.

Lemma reported_peer (res : GAsyncResult) :
  match finish_error res with
  | Some message =>
      match g_strrstr message "AlreadyConnected",
            g_strrstr message "Operation aborted" with
      | None, None => finish_ret res
      | _, _ => true
      end
  | None => finish_ret res
  end = reported true res.
Proof. reflexivity. Qed.

(** The completion handlers on a token that is live and not cancelled. *)
Lemma connect_callback_live (is_peer : bool) (w : World) (cbd : cb_data)
    (s : connman_service_t) (t : nat) (c : GCancellable)
    (res : GAsyncResult) :
  lookup_service w (user cbd) = Some s ->
  cancellable s = Some t ->
  live_token w t = Some c ->
  cancelled c = false ->
  exists w',
    (if is_peer then peer_connect_callback res cbd
     else connect_callback res cbd) w = (Done tt, w')
    /\ trace w'
       = trace w
           ++ E_connect_finish (remote s) is_peer
              :: match cb cbd with
                 | Some fn =>
                     [E_connect_cb fn (reported is_peer res) (data cbd)]
                 | None => []
                 end
    /\ lookup_service w' (user cbd) = Some (set_cancellable None s)
    /\ cancellables w' = update_nth t (released c) (cancellables w)
    /\ pending w' = pending w.
Proof.
  intros Hs Ht Hl Hc.
  destruct is_peer.
  - unfold peer_connect_callback, call_connect_finish.
    steps. rewrite Ht. steps. rewrite Hc. steps. simpl fst. simpl snd.
    rewrite reported_peer.
    destruct (cb cbd) as [fn|]; steps; rewrite Ht; steps;
      (eexists; split; [apply run_modify; eauto with heap |]);
      simpl; rewrite <- ?app_assoc; repeat split;
      eauto with heap.
  - unfold connect_callback, call_connect_finish.
    steps. rewrite Ht. steps. rewrite Hc. steps. simpl fst. simpl snd.
    rewrite reported_service.
    destruct (cb cbd) as [fn|]; steps; rewrite Ht; steps;
      (eexists; split; [apply run_modify; eauto with heap |]);
      simpl; rewrite <- ?app_assoc; repeat split;
      eauto with heap.
Qed.

(** The completion handlers on a token that is gone: cancelled, or [NULL]
    already. *)
Lemma connect_callback_gone (is_peer : bool) (w : World) (cbd : cb_data)
    (s : connman_service_t) (res : GAsyncResult) :
  lookup_service w (user cbd) = Some s ->
  match cancellable s with
  | None => True
  | Some t => exists c, live_token w t = Some c /\ cancelled c = true
  end ->
  exists w',
    (if is_peer then peer_connect_callback res cbd
     else connect_callback res cbd) w = (Done tt, w')
    /\ trace w'
       = trace w
           ++ match cb cbd with
              | Some fn => [E_connect_cb fn false (data cbd)]
              | None => []
              end
    /\ lookup_service w' (user cbd) = Some (set_cancellable None s)
    /\ cancellables w'
       = match cancellable s with
         | None => cancellables w
         | Some t =>
             match live_token w t with
             | Some c => update_nth t (released c) (cancellables w)
             | None => cancellables w
             end
         end
    /\ pending w' = pending w.
Proof.
  intros Hs Hgone.
  assert (forall w', (if is_peer then peer_connect_callback res cbd
                      else connect_callback res cbd) w = (Done tt, w')
                     <-> connect_callback res cbd w = (Done tt, w')) as Hsame.
  { intros w'. destruct is_peer; [| reflexivity].
    unfold peer_connect_callback, connect_callback.
    steps. destruct (cancellable s) as [t|].
    - destruct Hgone as (c & Hl & Hc). steps. rewrite Hc. reflexivity.
    - steps. reflexivity. }
  setoid_rewrite Hsame. clear Hsame.
  unfold connect_callback. steps.
  destruct (cancellable s) as [t|] eqn:Ht.
  - destruct Hgone as (c & Hl & Hc). steps. rewrite Hc. steps.
    rewrite Ht. steps. rewrite Hl.
    destruct (cb cbd) as [fn|].
    + eexists. split; [reflexivity|]. simpl. repeat split. eauto with heap.
    + eexists. split; [reflexivity|]. simpl. rewrite app_nil_r.
      repeat split. eauto with heap.
  - steps. rewrite Ht. steps. rewrite set_cancellable_none by exact Ht.
    destruct (cb cbd) as [fn|].
    + eexists. split; [reflexivity|]. simpl. repeat split. exact Hs.
    + eexists. split; [reflexivity|]. simpl. rewrite app_nil_r.
      repeat split. exact Hs.
Qed.


(** C3. When the token is live and not cancelled and the call ended in an
    error whose message contains "AlreadyConnected" (for a peer connect,
    "AlreadyConnected" or "Operation aborted") anywhere in its text, the
    caller's callback is invoked with success. *)
Theorem connect_error_is_remapped_to_success (w : World) (cbd : cb_data)
    (s : connman_service_t) (t : nat) (c : GCancellable) (fn : nat)
    (res : GAsyncResult) (message : string) :
  lookup_service w (user cbd) = Some s ->
  cancellable s = Some t ->
  live_token w t = Some c ->
  cancelled c = false ->
  cb cbd = Some fn ->
  finish_error res = Some message ->
  (contains message "AlreadyConnected" ->
   exists w',
     connect_callback res cbd w = (Done tt, w')
     /\ trace w'
        = trace w
            ++ [E_connect_finish (remote s) false;
                E_connect_cb fn true (data cbd)])
  /\ (contains message "AlreadyConnected"
      \/ contains message "Operation aborted" ->
      exists w',
        peer_connect_callback res cbd w = (Done tt, w')
        /\ trace w'
           = trace w
               ++ [E_connect_finish (remote s) true;
                   E_connect_cb fn true (data cbd)]).
Proof.
  intros Hs Ht Hl Hc Hcb Herr. split; intros Hin.
  - destruct (connect_callback_live false w cbd s t c res Hs Ht Hl Hc)
      as (w' & Hrun & Htr & _).
    exists w'. split; [exact Hrun|]. rewrite Htr, Hcb.
    unfold reported. rewrite Herr.
    destruct (g_strrstr message "AlreadyConnected") eqn:E; [reflexivity|].
    exfalso. exact (g_strrstr_contains _ _ Hin E).
  - destruct (connect_callback_live true w cbd s t c res Hs Ht Hl Hc)
      as (w' & Hrun & Htr & _).
    exists w'. split; [exact Hrun|]. rewrite Htr, Hcb.
    unfold reported. rewrite Herr.
    destruct (g_strrstr message "AlreadyConnected") eqn:E1; [reflexivity|].
    destruct (g_strrstr message "Operation aborted") eqn:E2; [reflexivity|].
    exfalso. destruct Hin as [Hin | Hin].
    + exact (g_strrstr_contains _ _ Hin E1).
    + exact (g_strrstr_contains _ _ Hin E2).
Qed.

(** C4. When the completion handler runs on a token that was cancelled,
    or finds none, the caller's callback is invoked once, with failure;
    the world reached is the same for every result, which is not read;
    the service ends with no token, and the token it held has lost
    exactly one reference. *)
Theorem cancelled_connect_reports_failure (w : World) (cbd : cb_data)
    (s : connman_service_t) (fn : nat) :
  lookup_service w (user cbd) = Some s ->
  cb cbd = Some fn ->
  match cancellable s with
  | None => True
  | Some t => exists c, live_token w t = Some c /\ cancelled c = true
  end ->
  exists w',
    (forall res,
       connect_callback res cbd w = (Done tt, w')
       /\ peer_connect_callback res cbd w = (Done tt, w'))
    /\ trace w' = trace w ++ [E_connect_cb fn false (data cbd)]
    /\ lookup_service w' (user cbd) = Some (set_cancellable None s)
    /\ match cancellable s with
       | None => cancellables w' = cancellables w
       | Some t =>
           exists c,
             live_token w t = Some c
             /\ cancellables w' = update_nth t (released c) (cancellables w)
             /\ nth_error (cancellables w') t
                = Some {| cancelled := true;
                          ref_count := pred (ref_count c) |}
       end.
Proof.
  intros Hs Hcb Hgone.
  destruct (connect_callback_gone false w cbd s
              {| finish_ret := false; finish_error := None |} Hs Hgone)
    as (w' & Hrun & Htr & Hlk & Hcs & _).
  exists w'. rewrite Hcb in Htr. repeat split; try assumption.
  - destruct (connect_callback_gone false w cbd s res Hs Hgone)
      as (w2 & Hrun2 & _).
    simpl in Hrun, Hrun2. rewrite Hrun2.
    revert Hrun Hrun2. unfold connect_callback. steps.
    destruct (cancellable s) as [t|].
    + destruct Hgone as (c & Hl & Hc). steps. rewrite Hc. congruence.
    + steps. congruence.
  - destruct (connect_callback_gone true w cbd s res Hs Hgone)
      as (w2 & Hrun2 & _).
    simpl in Hrun, Hrun2. rewrite Hrun2.
    revert Hrun Hrun2. unfold connect_callback, peer_connect_callback. steps.
    destruct (cancellable s) as [t|].
    + destruct Hgone as (c & Hl & Hc). steps. rewrite Hc. congruence.
    + steps. congruence.
  - destruct (cancellable s) as [t|]; [| exact Hcs].
    destruct Hgone as (c & Hl & Hc). rewrite Hl in Hcs.
    exists c. repeat split; try assumption.
    rewrite Hcs, nth_error_update_nth_eq.
    + unfold released. rewrite Hc. reflexivity.
    + unfold live_token in Hl. apply nth_error_Some.
      destruct (nth_error (cancellables w) t); congruence.
Qed.

(** A connect on a service: the flag is cleared, a fresh token replaces
    whatever the service held, and the call joins the pending ones. *)
Lemma connect_run (w : World) (p : nat) (s : connman_service_t)
    (cb2 : option nat) (data2 : nat) :
  lookup_service w p = Some s ->
  exists w1,
    connman_service_connect (Some p) cb2 data2 w = (Done true, w1)
    /\ lookup_service w1 p
       = Some (set_cancellable (Some (List.length (cancellables w)))
                 (set_disconnecting false s))
    /\ cancellables w1
       = cancellables w ++ [{| cancelled := false; ref_count := 1 |}]
    /\ pending w1
       = pending w
           ++ [{| pending_is_peer := false;
                  pending_token := List.length (cancellables w);
                  pending_cbd := set_user p (cb_data_new cb2 data2) |}]
    /\ trace w1
       = trace w
           ++ [E_remote_call (remote s)
                 (Call_connect (List.length (cancellables w)))].
Proof.
  intros Hs. unfold connman_service_connect, call_connect_async.
  steps. eexists. split; [reflexivity|]. simpl.
  repeat split. unfold lookup_service. simpl.
  rewrite update_nth_twice, nth_error_update_nth_eq; [reflexivity|].
  eapply lookup_service_lt; eassumption.
Qed.

(** C5, as amended.  A connect issued while another is pending stores a
    fresh, uncancelled token in the service and joins the pending calls;
    the tokens that existed are left as they were.  When the completion
    of a connect that was pending before arrives, its callback receives
    the outcome of the call, not a failure for cancellation, and the
    service is left without a token while the later connect is still
    pending. *)
Theorem second_connect_replaces_the_token (w : World) (p : nat)
    (s : connman_service_t) (cb2 : option nat) (data2 : nat) :
  lookup_service w p = Some s ->
  exists w1,
    connman_service_connect (Some p) cb2 data2 w = (Done true, w1)
    /\ (exists s1,
          lookup_service w1 p = Some s1
          /\ cancellable s1 = Some (List.length (cancellables w))
          /\ live_token w1 (List.length (cancellables w))
             = Some {| cancelled := false; ref_count := 1 |})
    /\ cancellables w1
       = cancellables w ++ [{| cancelled := false; ref_count := 1 |}]
    /\ pending w1
       = pending w
           ++ [{| pending_is_peer := false;
                  pending_token := List.length (cancellables w);
                  pending_cbd := set_user p (cb_data_new cb2 data2) |}]
    /\ (forall i c fn res,
          nth_error (pending w) i = Some c ->
          pending_is_peer c = false ->
          user (pending_cbd c) = p ->
          cb (pending_cbd c) = Some fn ->
          exists w2 s2,
            complete_connect i res w1 = (Done tt, w2)
            /\ trace w2
               = trace w1
                   ++ [E_connect_finish (remote s) false;
                       E_connect_cb fn (reported false res)
                         (data (pending_cbd c))]
            /\ lookup_service w2 p = Some s2
            /\ cancellable s2 = None
            /\ pending w2
               = remove_nth i (pending w)
                   ++ [{| pending_is_peer := false;
                          pending_token := List.length (cancellables w);
                          pending_cbd :=
                            set_user p (cb_data_new cb2 data2) |}]).
Proof.
  intros Hs.
  destruct (connect_run w p s cb2 data2 Hs)
    as (w1 & Hrun & Hlk & Hcs & Hpd & Htr).
  assert (live_token w1 (List.length (cancellables w))
          = Some {| cancelled := false; ref_count := 1 |}) as Hlive.
  { unfold live_token. rewrite Hcs, nth_error_app2, Nat.sub_diag by lia.
    reflexivity. }
  exists w1. split; [exact Hrun|].
  split; [eexists; repeat split; [exact Hlk | reflexivity | exact Hlive] |].
  split; [exact Hcs|]. split; [exact Hpd|].
  intros i c fn res Hi Hpeer Huser Hfn.
  assert (nth_error (pending w1) i = Some c) as Hi1.
  { rewrite Hpd, nth_error_app1; [exact Hi|].
    apply nth_error_Some. congruence. }
  assert (remove_nth i (pending w1)
          = remove_nth i (pending w)
              ++ [{| pending_is_peer := false;
                     pending_token := List.length (cancellables w);
                     pending_cbd :=
                       set_user p (cb_data_new cb2 data2) |}]) as Hrm.
  { rewrite Hpd. clear - Hi. revert i Hi.
    induction (pending w) as [|x l IH]; intros [|i] Hi; simpl in *;
      try discriminate; try reflexivity.
    rewrite IH by exact Hi. reflexivity. }
  unfold complete_connect. rewrite Hi1, Hpeer.
  destruct (connect_callback_live false
              (set_pending (remove_nth i (pending w1)) w1) (pending_cbd c)
              (set_cancellable (Some (List.length (cancellables w)))
                 (set_disconnecting false s))
              (List.length (cancellables w))
              {| cancelled := false; ref_count := 1 |} res)
    as (w2 & Hrun2 & Htr2 & Hlk2 & _ & Hpd2).
  - rewrite Huser. apply lookup_set_pending. exact Hlk.
  - reflexivity.
  - apply live_set_pending. exact Hlive.
  - reflexivity.
  - exists w2. eexists. simpl in Hrun2. rewrite Hrun2.
    split; [reflexivity|]. rewrite Hfn in Htr2. simpl in Htr2.
    split; [exact Htr2|]. rewrite Huser in Hlk2.
    split; [exact Hlk2|]. split; [reflexivity|].
    rewrite Hpd2. simpl. exact Hrm.
Qed.


(** C8. A "BSS" update, pushed or read from a snapshot, ends normally and
    leaves the service with a list that has one entry per entry of the
    bag, in order, each decoded on its own: a sub-field that is missing
    gives the empty string (Id) or 0 (Signal, Frequency) in that entry,
    and the entries after it are decoded all the same.  The snapshot is
    the one that holds the "BSS" entry alone, read with fuel for its one
    pass or more. *)
Theorem bss_update_replaces_the_list (w : World) (p : nat)
    (s : connman_service_t) (entries : list (list (string * GVariant)))
    (fuel : nat) :
  lookup_service w p = Some s ->
  (exists w' s',
     property_changed_cb "BSS" (GV_variant (bss_bag_of entries)) p w
     = (Done tt, w')
     /\ lookup_service w' p = Some s'
     /\ bss s' = Some (map bss_of_entry entries))
  /\ (exists w' s',
        connman_service_update_properties (S fuel) (Some p)
          (Some (vardict_of [("BSS", bss_bag_of entries)])) w
        = (Done tt, w')
        /\ lookup_service w' p = Some s'
        /\ bss s' = Some (map bss_of_entry entries))
  /\ List.length (map bss_of_entry entries) = List.length entries
  /\ (forall kvs,
        sub_field kvs "Id" G_VARIANT_TYPE_STRING = None ->
        bssid (bss_of_entry kvs) = "")
  /\ (forall kvs,
        sub_field kvs "Signal" G_VARIANT_TYPE_INT32 = None ->
        signal (bss_of_entry kvs) = 0)
  /\ (forall kvs,
        sub_field kvs "Frequency" G_VARIANT_TYPE_INT32 = None ->
        frequency (bss_of_entry kvs) = 0).
Proof.
  intros Hs. repeat split.
  - unfold property_changed_cb. steps.
    destruct (service_property_changed (env w)) as [f|]; steps;
      rewrite !is_key_eqb; cbn [String.eqb Ascii.eqb Bool.eqb];
      (erewrite update_bss_run by eauto with heap);
      do 2 eexists; (split; [reflexivity|]); split;
      [eauto with heap | reflexivity | eauto with heap | reflexivity].
  - unfold connman_service_update_properties.
    rewrite update_properties_loop_unfold. steps.
    change (Nat.ltb 0 _) with true. cbv iota. steps.
    unfold update_property. steps.
    cbn [fst snd]. rewrite !is_key_eqb.
    cbn [String.eqb Ascii.eqb Bool.eqb andb]. steps.
    rewrite (bind_run _ _ _ _ _ (update_bss_run _ _ _ _ Hs)). steps.
    rewrite update_properties_loop_unfold. steps.
    change (Nat.ltb 1 _) with false. cbv iota.
    do 2 eexists. split; [reflexivity|]. split;
      [eauto with heap | reflexivity].
  - apply length_map.
  - intros kvs H. unfold bss_of_entry. simpl. rewrite H. reflexivity.
  - intros kvs H. unfold bss_of_entry. simpl. rewrite H. reflexivity.
  - intros kvs H. unfold bss_of_entry. simpl. rewrite H. reflexivity.
Qed.

(** What the parser does with a buffer of at least seven bytes: it
    leaves [peer] alone when [len] is below 9, when the first byte is not
    0, or when the second byte is not 0 and the third is not 6 as well;
    in every other case it fills the five capability fields. *)
Lemma wfd_parser_behaviour (b0 b1 b2 b3 b4 b5 b6 : Z) (tail : list Z)
    (len : Z) (peer0 : peer) :
  p2p_parse_wfd_dev_info (b0 :: b1 :: b2 :: b3 :: b4 :: b5 :: b6 :: tail)
    len peer0
  = Some
      (if (len <? 9) || negb (b0 =? 0)
          || (negb (b1 =? 0) && negb (b2 =? 6))
       then peer0
       else
         set_wfd_rtspport (Z.shiftl b5 8 + b6)
           (set_wfd_cpsupport (Z.land b3 1)
              (set_wfd_sessionavail (Z.land (Z.shiftr b4 4) 3)
                 (set_wfd_devtype (Z.land b4 3)
                    (set_wfd_enabled true peer0))))).
Proof.
  unfold p2p_parse_wfd_dev_info, byte_at. simpl nth_error.
  destruct (len <? 9); [reflexivity|].
  destruct (b0 =? 0); [|reflexivity].
  destruct (b1 =? 0); simpl; [reflexivity|].
  destruct (b2 =? 6); reflexivity.
Qed.

(** C1, on the input that separates the code from the claim: the length
    field of these two subelements is not 6 (0x0106, then 0x0007), and
    the parser fills the capability fields all the same. *)
Theorem wfd_length_check_lets_wrong_lengths_through (peer0 : peer) :
  p2p_parse_wfd_dev_info [0; 1; 6; 1; 17; 28; 68; 0; 0] 9 peer0
  = Some (set_wfd_rtspport 7236
            (set_wfd_cpsupport 1
               (set_wfd_sessionavail 1
                  (set_wfd_devtype 1 (set_wfd_enabled true peer0)))))
  /\ p2p_parse_wfd_dev_info [0; 0; 7; 1; 17; 28; 68; 0; 0] 9 peer0
     = Some (set_wfd_rtspport 7236
               (set_wfd_cpsupport 1
                  (set_wfd_sessionavail 1
                     (set_wfd_devtype 1 (set_wfd_enabled true peer0))))).
Proof. split; reflexivity. Qed.

End Proofs.

(** ** The theorems at sample inputs *)

(** A disconnecting service that is told "failure" keeps its state "idle"
    and only loses the flag. *)
Lemma advance_state_suppressed_at_failure :
  exists s' w',
    connman_service_advance_state (hdr := sample_header)
      (ext := sample_collaborators) (Some 0%nat) (GV_string "failure")
      (world_of (set_disconnecting true sample_service))
    = (Done tt, w')
    /\ w' = store_service 0 s' (world_of (set_disconnecting true sample_service))
    /\ s' = set_disconnecting false (set_disconnecting true sample_service)
    /\ state s' = Some "idle"
    /\ disconnecting s' = false
    /\ change_mask s' = 0
    /\ trace w' = [].
Proof.
  apply (advance_state_suppressed_while_disconnecting
           (hdr := sample_header) (ext := sample_collaborators)
           (world_of (set_disconnecting true sample_service)) 0
           (set_disconnecting true sample_service) "failure").
  - reflexivity.
  - reflexivity.
  - discriminate.
  - discriminate.
Defined.

(** The daemon's "AlreadyConnected" error text, which is longer than the
    needle, reaches the callback as success; so does "Operation aborted"
    for a peer. *)
Lemma connect_error_is_remapped_at_daemon_errors :
  (exists w',
     connect_callback result_already_connected sample_cbd
       (pending_world false) = (Done tt, w')
     /\ trace w'
        = trace (pending_world false)
            ++ [E_connect_finish 7 false; E_connect_cb 1 true 11])
  /\ (exists w',
        peer_connect_callback result_aborted sample_cbd
          (pending_world false) = (Done tt, w')
        /\ trace w'
           = trace (pending_world false)
               ++ [E_connect_finish 7 true; E_connect_cb 1 true 11]).
Proof.
  split.
  - refine (proj1
              (connect_error_is_remapped_to_success (pending_world false)
                 sample_cbd (set_cancellable (Some 0%nat) sample_service) 0
                 {| cancelled := false; ref_count := 1 |} 1
                 result_already_connected _
                 eq_refl eq_refl eq_refl eq_refl eq_refl eq_refl) _).
    exists "GDBus.Error:net.connman.Error.", ": Already connected".
    reflexivity.
  - refine (proj2
              (connect_error_is_remapped_to_success (pending_world false)
                 sample_cbd (set_cancellable (Some 0%nat) sample_service) 0
                 {| cancelled := false; ref_count := 1 |} 1
                 result_aborted _
                 eq_refl eq_refl eq_refl eq_refl eq_refl eq_refl) _).
    right.
    exists "GDBus.Error:net.connman.Error.OperationAborted: ", "".
    reflexivity.
Defined.

(** A completion that finds the token cancelled reports failure once and
    releases the token, whose only reference was the service's. *)
Lemma cancelled_connect_reports_failure_at_sample :
  exists w',
    (forall res,
       connect_callback res sample_cbd (pending_world true) = (Done tt, w')
       /\ peer_connect_callback res sample_cbd (pending_world true)
          = (Done tt, w'))
    /\ trace w'
       = [E_remote_call 7 (Call_connect 0); E_connect_cb 1 false 11]
    /\ lookup_service w' 0 = Some (set_cancellable None sample_service)
    /\ exists c,
         live_token (pending_world true) 0 = Some c
         /\ cancellables w'
            = update_nth 0 (released c) (cancellables (pending_world true))
         /\ nth_error (cancellables w') 0
            = Some {| cancelled := true; ref_count := pred (ref_count c) |}.
Proof.
  apply (cancelled_connect_reports_failure (pending_world true) sample_cbd
           (set_cancellable (Some 0%nat) sample_service) 1).
  - reflexivity.
  - reflexivity.
  - exists {| cancelled := true; ref_count := 1 |}. split; reflexivity.
Defined.

(** A second connect on the sample service, then the completion of the
    first: the first callback is told the call succeeded. *)
Lemma second_connect_at_sample :
  exists w1 w2,
    connman_service_connect (ext := sample_collaborators) (Some 0%nat)
      (Some 2%nat) 22 (pending_world false)
    = (Done true, w1)
    /\ complete_connect 0 result_ok w1 = (Done tt, w2)
    /\ trace w2
       = trace w1 ++ [E_connect_finish 7 false; E_connect_cb 1 true 11]
    /\ List.length (pending w2) = 1%nat.
Proof.
  destruct (second_connect_replaces_the_token (ext := sample_collaborators)
              (pending_world false) 0
              (set_cancellable (Some 0%nat) sample_service) (Some 2%nat) 22
              eq_refl)
    as (w1 & H1 & _ & _ & _ & H5).
  destruct (H5 0%nat
              {| pending_is_peer := false; pending_token := 0;
                 pending_cbd := sample_cbd |} 1%nat result_ok
              eq_refl eq_refl eq_refl eq_refl)
    as (w2 & s2 & H6 & H7 & _ & _ & H8).
  exists w1, w2. split; [exact H1|]. split; [exact H6|].
  split; [exact H7|]. rewrite H8. reflexivity.
Defined.

(** C5, the claim as stated fails: after two connects on one service,
    the completion of the first (with a successful result) invokes the
    first callback with success, not with the failure of a cancelled
    connect; it also leaves the service without a token while the second
    connect is still pending, and the first token is never released. *)
Lemma prior_connect_is_not_cancelled :
  let w1 :=
    snd (connman_service_connect (ext := sample_collaborators) (Some 0%nat)
           (Some 1%nat) 11 (world_of sample_service)) in
  let w2 :=
    snd (connman_service_connect (ext := sample_collaborators) (Some 0%nat)
           (Some 2%nat) 22 w1) in
  let w3 := snd (complete_connect 0 result_ok w2) in
  trace w3
  = [E_remote_call 7 (Call_connect 0); E_remote_call 7 (Call_connect 1);
     E_connect_finish 7 false; E_connect_cb 1 true 11]
  /\ option_map cancellable (lookup_service w3 0) = Some None
  /\ pending w3
     = [{| pending_is_peer := false; pending_token := 1;
           pending_cbd := {| cb := Some 2%nat; data := 22; user := 0 |} |}]
  /\ cancellables w3
     = [{| cancelled := false; ref_count := 1 |};
        {| cancelled := false; ref_count := 0 |}].
Proof. repeat split. Qed.

(** With the sample header, "ready" on an idle Wi-Fi service becomes the
    state, marks both categories and reaches the registered callback, and
    the run ends normally. *)
Lemma advance_state_new_at_ready :
  exists s' rest,
    lookup_service
      (snd (connman_service_advance_state (hdr := sample_header)
              (ext := sample_collaborators) (Some 0%nat) (GV_string "ready")
              (world_of sample_service))) 0 = Some s'
    /\ state s' = Some "ready"
    /\ change_mask s' = 3
    /\ trace
         (snd (connman_service_advance_state (hdr := sample_header)
                 (ext := sample_collaborators) (Some 0%nat)
                 (GV_string "ready") (world_of sample_service)))
       = E_property_change_fn 5 0 "State" (GV_string "ready") :: rest
    /\ forallb (fun e => negb (is_property_change e)) rest = true
    /\ fst (connman_service_advance_state (hdr := sample_header)
              (ext := sample_collaborators) (Some 0%nat)
              (GV_string "ready") (world_of sample_service)) = Done tt.
Proof.
  destruct (proj2
              (advance_state_same_or_new (hdr := sample_header)
                 (ext := sample_collaborators) (world_of sample_service) 0
                 sample_service "ready" eq_refl eq_refl))
    as (s' & rest & H1 & H2 & H3 & H4 & H5 & H6).
  - discriminate.
  - exists s', rest.
    split; [exact H1|]. split; [exact H2|]. split; [exact H3|].
    split; [exact H4|]. split; [exact H5|].
    apply H6. right. discriminate.
Defined.

(** C6, the claim as stated fails: "ready" applied to a P2P service that
    is in state "ready" already, with [disconnecting] clear, is not a
    no-op when a peer is connected and the diagnostics flag is clear: the
    Wi-Fi technology is refreshed and the flag is set. *)
Lemma same_state_is_not_a_no_op :
  trace (world_of sample_peer_service) = []
  /\ subscibed_for_diagnostiecs (world_of sample_peer_service) = false
  /\ state sample_peer_service = Some "ready"
  /\ disconnecting sample_peer_service = false
  /\ connman_service_advance_state (hdr := sample_header)
       (ext := sample_collaborators) (Some 0%nat) (GV_string "ready")
       (world_of sample_peer_service)
     = (Done tt,
        set_subscibed_for_diagnostiecs true
          (set_trace [E_technology_update_properties]
             (world_of sample_peer_service))).
Proof. repeat split. Qed.

(** Two entries in, two entries out; the Id is cut to 17 characters and
    what is missing or of the wrong type reads as 0 or empty. *)
Lemma bss_update_at_sample :
  (exists w' s',
     property_changed_cb (hdr := sample_header) (ext := sample_collaborators)
       "BSS" (GV_variant (bss_bag_of sample_bss_entries)) 0
       (world_of sample_service) = (Done tt, w')
     /\ lookup_service w' 0 = Some s'
     /\ bss s'
        = Some [{| bssid := "aa:bb:cc:dd:ee:ff"; signal := -40;
                   frequency := 0 |};
                {| bssid := ""; signal := 0; frequency := 2412 |}])
  /\ (exists w' s',
        connman_service_update_properties (hdr := sample_header)
          (ext := sample_collaborators) 1 (Some 0%nat)
          (Some (vardict_of [("BSS", bss_bag_of sample_bss_entries)]))
          (world_of sample_service) = (Done tt, w')
        /\ lookup_service w' 0 = Some s'
        /\ bss s'
           = Some [{| bssid := "aa:bb:cc:dd:ee:ff"; signal := -40;
                      frequency := 0 |};
                   {| bssid := ""; signal := 0; frequency := 2412 |}]).
Proof.
  destruct (bss_update_replaces_the_list (hdr := sample_header)
              (ext := sample_collaborators) (world_of sample_service) 0
              sample_service sample_bss_entries 0 eq_refl)
    as (H1 & H2 & _).
  split; [exact H1 | exact H2].
Defined.

(** Mask 1, category 2. *)
Lemma change_mask_at_sample :
  connman_service_set_changed 0 2 (world_of (set_change_mask 1 sample_service))
  = (Done tt,
     store_service 0
       (set_change_mask (Z.lor 1 2) (set_change_mask 1 sample_service))
       (world_of (set_change_mask 1 sample_service)))
  /\ (exists r w',
        (connman_service_set_changed 0 2 ;; connman_service_is_changed 0 2)
          (world_of (set_change_mask 1 sample_service)) = (Done r, w')
        /\ r <> 0)
  /\ (exists w',
        (connman_service_set_changed 0 2 ;;
         connman_service_unset_changed 0 2 ;;
         connman_service_is_changed 0 2)
          (world_of (set_change_mask 1 sample_service)) = (Done 0, w')).
Proof.
  destruct (change_mask_is_a_bitset
              (world_of (set_change_mask 1 sample_service)) 0
              (set_change_mask 1 sample_service) 2 eq_refl)
    as (H1 & _ & _ & H4 & H5).
  - simpl. lia.
  - split; [exact H1|]. split; [apply H4; lia | exact H5].
Defined.

(** C9, the claim as stated fails: for the empty category set, is-changed
    after set-changed is 0, whatever the mask. *)
Lemma empty_category_is_never_changed :
  fst ((connman_service_set_changed 0 0 ;; connman_service_is_changed 0 0)
         (world_of (set_change_mask 3 sample_service)))
  = Done 0.
Proof. reflexivity. Qed.

(** * More of the file *)

(** ** Helpers *)

Lemma store_same (w : World) (p : nat) (s : connman_service_t) :
  lookup_service w p = Some s -> store_service p s w = w.
Proof.
  intros H. unfold store_service, lookup_service in *.
  destruct w as [sv c d pd e t]. simpl in *.
  rewrite update_nth_same; [reflexivity|].
  destruct (nth_error sv p) as [[x|]|]; congruence.
Qed.

Lemma strv_equal_iff (l1 l2 : list string) :
  strv_equal l1 l2 = true <-> l1 = l2.
Proof.
  revert l2. induction l1 as [|a l1 IH]; intros [|b l2];
    cbn [strv_equal]; try (split; congruence).
  rewrite c_true_strcmp.
  destruct (String.eqb_spec a b) as [->|N]; simpl.
  - rewrite IH. split; congruence.
  - split; congruence.
Qed.

Section More.
Context {hdr : connman_service_h} {ext : Collaborators}.

(** A string outside the vocabulary, or [NULL], reads as Idle. *)
Lemma get_state_of_unknown (st : option string) :
  (exists n, In n state_names /\ st = Some n)
  \/ connman_service_get_state st = CONNMAN_SERVICE_STATE_IDLE.
Proof.
  unfold connman_service_get_state.
  destruct st as [n|]; [| right; reflexivity].
  rewrite !c_not_strcmp.
  repeat match goal with
         | |- context [if String.eqb ?a ?b then _ else _] =>
             destruct (String.eqb_spec a b) as [-> | ?]
         end;
    try (right; reflexivity);
    left; eexists; (split; [| reflexivity]); simpl; auto 10.
Qed.

(** X1. [compare_strv] answers [TRUE] exactly when its two arguments are
    the same: both [NULL], or vectors with the same strings in the same
    order. *)
Theorem compare_strv_decides_equality (first second : option (list string)) :
  compare_strv first second = true <-> first = second.
Proof.
  destruct first as [l1|], second as [l2|]; simpl;
    try (split; congruence).
  destruct (Nat.eqb_spec (List.length l1) (List.length l2)) as [E|N]; simpl.
  - rewrite strv_equal_iff. split; congruence.
  - split; [discriminate|]. intros [= ->]. contradiction.
Qed.

(** X2. When the seven state enumerators are pairwise distinct, as the labels
    of the [switch] have to be, each vocabulary string reaches its webOS
    state through the enumerator: "idle" and "disconnect" read
    "notAssociated", "association" reads "associating", "configuration"
    reads "associated", "ready" and "online" read "ipConfigured",
    "failure" reads "ipFailed"; every other string, and [NULL], reads
    "notAssociated". *)
Theorem webos_state_of_state_string (st : option string) :
  NoDup state_enumerators ->
  let webos st :=
    connman_service_get_webos_state (connman_service_get_state st) in
  webos (Some "idle") = "notAssociated"
  /\ webos (Some "association") = "associating"
  /\ webos (Some "configuration") = "associated"
  /\ webos (Some "ready") = "ipConfigured"
  /\ webos (Some "online") = "ipConfigured"
  /\ webos (Some "disconnect") = "notAssociated"
  /\ webos (Some "failure") = "ipFailed"
  /\ ((exists n, In n state_names /\ st = Some n)
      \/ webos st = "notAssociated").
Proof.
  intros Hnd. unfold state_enumerators in Hnd.
  repeat match goal with
         | H : NoDup (_ :: _) |- _ => inversion H; clear H; subst
         end.
  simpl in *.
  assert (forall st, connman_service_get_state st = CONNMAN_SERVICE_STATE_IDLE ->
             connman_service_get_webos_state (connman_service_get_state st)
             = "notAssociated") as Hidle.
  { intros st0 ->. unfold connman_service_get_webos_state.
    rewrite Z.eqb_refl, orb_true_r. reflexivity. }
  cbv zeta.
  repeat split;
    try (unfold connman_service_get_state; simpl;
         unfold connman_service_get_webos_state;
         repeat match goal with
                | |- context [?a =? ?b] =>
                    destruct (Z.eqb_spec a b); simpl;
                    try (exfalso; intuition congruence)
                end; reflexivity).
  destruct (get_state_of_unknown st) as [H|H]; [left; exact H|].
  right. apply Hidle. exact H.
Qed.

(** X3. [connman_service_update_type] stores the Wi-Fi type for "wifi",
    the Ethernet type for "ethernet" and the P2P type for "Peer" and for
    "peer", after which the matching type predicate answers [TRUE]; for
    any other string, and for [NULL], it leaves the world as it was. *)
Theorem update_type_then_predicate (w : World) (p : nat)
    (s : connman_service_t) (v : option string) :
  lookup_service w p = Some s ->
  (v = Some "wifi" ->
   exists w',
     connman_service_update_type p v w = (Done tt, w')
     /\ w' = store_service p (set_type CONNMAN_SERVICE_TYPE_WIFI s) w
     /\ connman_service_type_wifi (Some p) w' = (Done true, w'))
  /\ (v = Some "ethernet" ->
      exists w',
        connman_service_update_type p v w = (Done tt, w')
        /\ w' = store_service p (set_type CONNMAN_SERVICE_TYPE_ETHERNET s) w
        /\ connman_service_type_ethernet (Some p) w' = (Done true, w'))
  /\ (v = Some "Peer" \/ v = Some "peer" ->
      exists w',
        connman_service_update_type p v w = (Done tt, w')
        /\ w' = store_service p (set_type CONNMAN_SERVICE_TYPE_P2P s) w
        /\ connman_service_type_p2p (Some p) w' = (Done true, w'))
  /\ (v <> Some "wifi" -> v <> Some "ethernet" -> v <> Some "Peer" ->
      v <> Some "peer" ->
      connman_service_update_type p v w = (Done tt, w)).
Proof.
  intros Hs.
  assert (forall t,
             lookup_service (store_service p (set_type t s) w) p
             = Some (set_type t s)) as Hl
      by (intros t; eapply lookup_store_eq; exact Hs).
  repeat split.
  - intros ->. eexists. split; [apply (run_modify _ _ _ _ Hs)|].
    split; [reflexivity|].
    unfold connman_service_type_wifi. steps. simpl.
    rewrite Z.eqb_refl. reflexivity.
  - intros ->. eexists. split; [apply (run_modify _ _ _ _ Hs)|].
    split; [reflexivity|].
    unfold connman_service_type_ethernet. steps. simpl.
    rewrite Z.eqb_refl. reflexivity.
  - intros [-> | ->]; (eexists; split; [apply (run_modify _ _ _ _ Hs)|]);
      (split; [reflexivity|]);
      unfold connman_service_type_p2p; steps; simpl;
      rewrite Z.eqb_refl; reflexivity.
  - intros H1 H2 H3 H4. unfold connman_service_update_type, c_not.
    repeat match goal with
           | |- context [g_strcmp0 v (Some ?n) =? 0] =>
               destruct (Z.eqb_spec (g_strcmp0 v (Some n)) 0) as [E|_];
               [apply g_strcmp0_zero_iff in E; contradiction|]
           end.
    reflexivity.
Qed.

(** X4. An "Online" value equal to the stored one changes nothing and
    notifies nobody.  A value that differs is stored, Status is or-ed into
    the change mask, and exactly one notification follows: the registered
    property-change callback with ("Online", value), or, when none is
    registered and the service is Ethernet, the status broadcast to the
    subscribers; with no callback and another type, none. *)
Theorem advance_online_state_notifies_once (w : World) (p : nat)
    (s : connman_service_t) (b : bool) :
  lookup_service w p = Some s ->
  (b = online s ->
   connman_service_advance_online_state (Some p) (GV_boolean b) w
   = (Done tt, w))
  /\ (b <> online s ->
      exists w',
        connman_service_advance_online_state (Some p) (GV_boolean b) w
        = (Done tt, w')
        /\ lookup_service w' p
           = Some (set_change_mask
                     (Z.lor (change_mask s)
                        CONNMAN_SERVICE_CHANGE_CATEGORY_GETSTATUS)
                     (set_online b s))
        /\ trace w'
           = trace w
               ++ match handle_property_change_fn s with
                  | Some fn =>
                      [E_property_change_fn fn p "Online" (GV_boolean b)]
                  | None =>
                      if type s =? CONNMAN_SERVICE_TYPE_ETHERNET
                      then [E_send_status_to_subscribers]
                      else []
                  end
        /\ cancellables w' = cancellables w
        /\ pending w' = pending w).
Proof.
  intros Hs. split.
  - intros ->. unfold connman_service_advance_online_state. steps.
    rewrite eqb_reflx. simpl.
    assert (set_online (online s) s = s) as -> by (destruct s; reflexivity).
    rewrite (store_same _ _ _ Hs). reflexivity.
  - intros Hb. unfold connman_service_advance_online_state. steps.
    assert (Bool.eqb (online s) b = false) as ->.
    { apply eqb_false_iff. congruence. }
    cbn [negb when]. unfold connman_service_set_changed. steps.
    cbn [handle_property_change_fn set_change_mask set_online].
    destruct (handle_property_change_fn s) as [fn|].
    + eexists. split; [reflexivity|].
      split; [eauto with heap|]. repeat split.
    + unfold connman_service_type_ethernet. steps.
      cbn [type set_change_mask set_online].
      destruct (type s =? CONNMAN_SERVICE_TYPE_ETHERNET);
        (eexists; split; [reflexivity|]); cbn [trace set_trace];
        rewrite ?app_nil_r;
        (split; [eauto with heap|]); repeat split.
Qed.

(** X5. Disconnect, the peer disconnect and Remove set [disconnecting]
    before the call and leave it set when the call fails; Reject-peer and
    Set-default do not touch the service.  Each of the five issues exactly
    one remote call and returns [TRUE] exactly when the call set no
    error. *)
Theorem synchronous_commands (w : World) (p : nat) (s : connman_service_t) :
  lookup_service w p = Some s ->
  let answer call :=
    match remote_error (env w) (remote s) call with
    | Some _ => false
    | None => true
    end in
  let called call w0 := set_trace (trace w ++ [E_remote_call (remote s) call]) w0 in
  connman_service_disconnect (Some p) w
  = (Done (answer Call_disconnect),
     called Call_disconnect (store_service p (set_disconnecting true s) w))
  /\ connman_peer_disconnect (Some p) w
     = (Done (answer Call_peer_disconnect),
        called Call_peer_disconnect
          (store_service p (set_disconnecting true s) w))
  /\ connman_service_remove (Some p) w
     = (Done (answer Call_remove),
        called Call_remove (store_service p (set_disconnecting true s) w))
  /\ connman_service_reject_peer (Some p) w
     = (Done (answer Call_reject_peer), called Call_reject_peer w)
  /\ connman_service_set_default (Some p) w
     = (Done (answer Call_set_default), called Call_set_default w).
Proof.
  intros Hs. cbv zeta.
  unfold connman_service_disconnect, connman_peer_disconnect,
    connman_service_remove, connman_service_reject_peer,
    connman_service_set_default, call_sync, succeeded.
  repeat split; steps; simpl;
    match goal with
    | |- context [remote_error ?e ?r ?c] => destruct (remote_error e r c)
    end; reflexivity.
Qed.

End More.

(** ** What a run leaves alone *)

Section Kept.
Context {hdr : connman_service_h} {ext : Collaborators}.

Lemma length_update_nth {A : Type} (n : nat) (x : A) (l : list A) :
  List.length (update_nth n x l) = List.length l.
Proof.
  revert n; induction l as [|y l IH]; intros [|n]; simpl; auto.
Qed.

Lemma kept_start (w : World) (p : nat) (s : connman_service_t)
    (J : connman_service_t -> Prop) :
  lookup_service w p = Some s -> J s -> kept p w J w.
Proof.
  intros Hs HJ. repeat split; eauto.
  exists []. rewrite app_nil_r. reflexivity.
Qed.

Lemma kept_emit (p : nat) (w0 : World) (J : connman_service_t -> Prop)
    (e : Event) :
  preserves (kept p w0 J) (emit e).
Proof.
  intros w (Hs & Ho & Hl & Hc & Hp & He & rest & Ht).
  repeat split; try assumption.
  exists (rest ++ [e]). simpl. rewrite Ht, app_assoc. reflexivity.
Qed.

Lemma kept_modify (p : nat) (w0 : World) (J : connman_service_t -> Prop)
    (f : connman_service_t -> connman_service_t) :
  (forall s, J s -> J (f s)) -> preserves (kept p w0 J) (modify p f).
Proof.
  intros Hf w ((s & Hs & HJ) & Ho & Hl & Hc & Hp & He & Ht).
  unfold modify. rewrite Hs. simpl.
  split; [exists (f s); split; [eapply lookup_store_eq; eassumption | auto]|].
  unfold store_service. simpl.
  split; [intros q Hq; rewrite nth_error_update_nth_ne by congruence; auto|].
  split; [rewrite length_update_nth; assumption|].
  repeat split; assumption.
Qed.

Lemma kept_put_subscibed (p : nat) (w0 : World)
    (J : connman_service_t -> Prop) (b : bool) :
  preserves (kept p w0 J) (put_subscibed_for_diagnostiecs b).
Proof. intros w H. exact H. Qed.

Lemma preserves_get_subscibed (I : World -> Prop) :
  preserves I get_subscibed_for_diagnostiecs.
Proof. intros w H. exact H. Qed.

Lemma preserves_for_fold {A : Type} (I : World -> Prop)
    (body : nat -> A -> M A) (count first : nat) (acc : A) :
  (forall j a, preserves I (body j a)) ->
  preserves I (for_fold first count acc body).
Proof.
  intros Hb. revert first acc.
  induction count as [|c IH]; intros first acc; simpl.
  - apply preserves_mret.
  - apply preserves_bind; [apply Hb | intros a; apply IH].
Qed.

End Kept.

Lemma preserves_out_of_fuel {A : Type} (I : World -> Prop) :
  preserves I (@out_of_fuel A).
Proof. intros w H. exact H. Qed.

(** The loop over a snapshot keeps what each of its passes keeps, with
    whatever fuel. *)
Lemma preserves_update_properties_loop {hdr : connman_service_h}
    {ext : Collaborators} (I : World -> Prop) (p : nat)
    (properties : GVariant) (fuel i : nat) :
  (forall property j, preserves I (update_property p property j)) ->
  preserves I (update_properties_loop fuel p properties i).
Proof.
  intros Hpass. revert i.
  induction fuel as [|fuel IH]; intros i;
    rewrite update_properties_loop_unfold;
    (apply preserves_bind; [apply preserves_lift | intros n]);
    destruct (Nat.ltb i n); try apply preserves_mret.
  - apply preserves_out_of_fuel.
  - apply preserves_bind; [apply preserves_lift | intros property].
    apply preserves_bind; [apply Hpass | intros j]. apply IH.
Qed.

(** The steps of a run that keep an invariant of the form [kept p w0 J];
    [setter] proves that a setter keeps [J]. *)
Ltac keep setter :=
  repeat
    first
      [ apply preserves_mret
      | apply preserves_abort
      | apply preserves_lift
      | apply preserves_ask
      | apply preserves_get
      | apply preserves_get_subscibed
      | apply kept_put_subscibed
      | apply kept_emit
      | apply kept_modify; setter
      | apply preserves_when
      | apply preserves_for_each_entry; intros ? ?
      | apply preserves_for_loop; intros ?
      | apply preserves_for_fold; intros ? ?
      | apply preserves_bind; [| intros ?]
      | progress cbv beta iota zeta
      | match goal with
        | |- preserves _ (match ?x with _ => _ end) => destruct x
        end ].

(** The functions through which the daemon's data reach the service. *)
Ltac unfold_readers :=
  unfold property_changed_cb,
    update_property, update_p2p_property, connman_service_advance_state,
    connman_service_advance_online_state, update_bss, decode_bss_entry,
    p2p_request, notify_property_change, update_routing_rules,
    update_diagnostics_subscription, update_wifi_technology,
    connman_service_get_ipinfo, connman_service_get_proxyinfo,
    connman_service_create_ip_rule, connman_service_delete_ip_rule,
    connman_service_set_ip_rule, run_ip_command,
    connman_service_update_display_name,
    connman_service_update_type, connman_service_type_ethernet,
    connman_service_set_changed, update_string_val_from_first_element,
    get_int_val_from_first_element, call_sync.

Ltac identity_setter :=
  let H := fresh in
  intros ? H; first
    [ exact H
    | destruct H as (? & ? & ? & ? & ? & ? & ? & ?);
      repeat split; trivial ].

Section Frames.
Context {hdr : connman_service_h} {ext : Collaborators}.

Lemma readers_keep_identity (p : nat) (w0 : World) (s0 : connman_service_t)
    (key : string) (v props : GVariant) (fuel : nat) :
  let I := kept p w0 (same_identity s0) in
  preserves I (property_changed_cb key v p)
  /\ preserves I
       (connman_service_update_properties fuel (Some p) (Some props))
  /\ preserves I (connman_service_get_ipinfo (Some p))
  /\ preserves I (connman_service_get_proxyinfo (Some p)).
Proof.
  cbv zeta. split; [| split; [| split]];
    try (unfold connman_service_update_properties;
         apply preserves_update_properties_loop; intros property j);
    unfold_readers; keep identity_setter.
Qed.

(** X6. Whatever the daemon pushes or answers, well-formed or not, and
    wherever the run stands when it ends, when it stops at a violated
    precondition, at a command that does not fit its buffer or at an
    [int] that overflows, or when a snapshot loop that does not end is
    cut off after any number of passes: a property change, a properties
    snapshot and the two reads of IP and proxy data have left the service
    at its address with its path, identifier, proxy, signal handler,
    connect token and callbacks, have not cleared [hidden], have touched
    no other service, no token and no pending call, and have only added
    to the trace. *)
Theorem daemon_data_keep_the_identity (w : World) (p : nat)
    (s : connman_service_t) (key : string) (v props : GVariant)
    (fuel : nat) :
  lookup_service w p = Some s ->
  kept p w (same_identity s) (snd (property_changed_cb key v p w))
  /\ kept p w (same_identity s)
       (snd (connman_service_update_properties fuel (Some p) (Some props)
               w))
  /\ kept p w (same_identity s) (snd (connman_service_get_ipinfo (Some p) w))
  /\ kept p w (same_identity s)
       (snd (connman_service_get_proxyinfo (Some p) w)).
Proof.
  intros Hs.
  assert (kept p w (same_identity s) w) as H0.
  { apply (kept_start _ _ _ _ Hs). repeat split; trivial. }
  destruct (readers_keep_identity p w s key v props fuel)
    as (H1 & H2 & H3 & H4).
  split; [| split; [| split]];
    [apply H1 | apply H2 | apply H3 | apply H4]; exact H0.
Qed.

End Frames.
(** ** The change mask *)

Lemma lor_absorbed (m c b : Z) :
  Z.lor m b = b -> Z.lor c b = b -> Z.lor (Z.lor m c) b = b.
Proof. intros H1 H2. rewrite <- Z.lor_assoc, H2. exact H1. Qed.

Lemma land_absorbed (m x b : Z) :
  Z.lor m b = b -> Z.lor (Z.land m x) b = b.
Proof.
  intros H. apply Z.bits_inj'. intros n _.
  apply (f_equal (fun z => Z.testbit z n)) in H.
  rewrite Z.lor_spec in H. rewrite Z.lor_spec, Z.land_spec.
  destruct (Z.testbit m n), (Z.testbit x n), (Z.testbit b n);
    simpl in *; congruence.
Qed.

Lemma lor_left_absorbed (a b : Z) : Z.lor a (Z.lor a b) = Z.lor a b.
Proof. rewrite Z.lor_assoc, Z.lor_diag. reflexivity. Qed.

Lemma lor_right_absorbed (a b : Z) : Z.lor b (Z.lor a b) = Z.lor a b.
Proof.
  rewrite (Z.lor_comm a b), Z.lor_assoc, Z.lor_diag. reflexivity.
Qed.

Ltac mask_setter :=
  let H := fresh in
  intros ? H; first
    [ exact H
    | unfold mask_within in *; simpl; apply lor_absorbed;
      [ exact H
      | first [ apply lor_left_absorbed | apply lor_right_absorbed
              | apply Z.lor_diag ] ] ].

Section Masks.
Context {hdr : connman_service_h} {ext : Collaborators}.

Lemma readers_keep_mask (p : nat) (w0 : World) (key : string)
    (v props : GVariant) (fuel : nat) :
  let I := kept p w0 mask_within in
  preserves I (property_changed_cb key v p)
  /\ preserves I
       (connman_service_update_properties fuel (Some p) (Some props))
  /\ preserves I (connman_service_get_ipinfo (Some p))
  /\ preserves I (connman_service_get_proxyinfo (Some p)).
Proof.
  cbv zeta. split; [| split; [| split]];
    try (unfold connman_service_update_properties;
         apply preserves_update_properties_loop; intros property j);
    unfold_readers; keep mask_setter.
Qed.

(** X7. A change mask that has no bit outside Status and FindNetworks
    has that form wherever a property change, a properties snapshot or a
    read of IP or proxy data stands when it ends, stops (at a violated
    precondition, a command that does not fit its buffer, an [int] that
    overflows) or is cut off in a snapshot loop that does not end,
    whatever the daemon sends; and after [connman_service_set_changed]
    with either category and [connman_service_unset_changed] with any
    value. *)
Theorem change_mask_stays_within_the_categories (w : World) (p : nat)
    (s : connman_service_t) (key : string) (v props : GVariant) (c : Z)
    (fuel : nat) :
  lookup_service w p = Some s ->
  mask_within s ->
  let I := kept p w mask_within in
  I (snd (property_changed_cb key v p w))
  /\ I (snd (connman_service_update_properties fuel (Some p) (Some props)
               w))
  /\ I (snd (connman_service_get_ipinfo (Some p) w))
  /\ I (snd (connman_service_get_proxyinfo (Some p) w))
  /\ I (snd (connman_service_set_changed p
               CONNMAN_SERVICE_CHANGE_CATEGORY_GETSTATUS w))
  /\ I (snd (connman_service_set_changed p
               CONNMAN_SERVICE_CHANGE_CATEGORY_FINDNETWORKS w))
  /\ I (snd (connman_service_unset_changed p c w)).
Proof.
  intros Hs Hm. cbv zeta.
  pose proof (kept_start _ _ _ _ Hs Hm) as H0.
  destruct (readers_keep_mask p w key v props fuel) as (H1 & H2 & H3 & H4).
  split; [apply H1, H0|]. split; [apply H2, H0|].
  split; [apply H3, H0|]. split; [apply H4, H0|].
  split; [| split].
  - apply kept_modify; [mask_setter | exact H0].
  - apply kept_modify; [mask_setter | exact H0].
  - apply kept_modify; [| exact H0].
    intros s1 H. unfold mask_within in *. simpl.
    apply land_absorbed. exact H.
Qed.

End Masks.
(** ** The WFD parser *)

Section Parser.
Context {hdr : connman_service_h} {ext : Collaborators}.

(** X8. When [len] does not exceed the number of bytes behind
    [wfd_subelems], the WFD parser reads inside the buffer and returns;
    with bytes in 0..255 it either leaves the peer as it was or marks it
    WFD-enabled with a device type and a session availability in 0..3, a
    content-protection bit of 0 or 1 and a port in 0..65535, and changes
    none of the five other members of the peer. *)
Theorem wfd_parser_stays_in_the_buffer (wfd_subelems : list Z) (len : Z)
    (peer0 : peer) :
  len <= Z.of_nat (List.length wfd_subelems) ->
  (forall b, In b wfd_subelems -> 0 <= b < 256) ->
  exists peer1,
    p2p_parse_wfd_dev_info wfd_subelems len peer0 = Some peer1
    /\ (peer1 = peer0
        \/ (wfd_enabled peer1 = true
            /\ 0 <= wfd_devtype peer1 <= 3
            /\ 0 <= wfd_sessionavail peer1 <= 3
            /\ 0 <= wfd_cpsupport peer1 <= 1
            /\ 0 <= wfd_rtspport peer1 <= 65535
            /\ peer_address peer1 = peer_address peer0
            /\ pri_dev_type peer1 = pri_dev_type peer0
            /\ group_owner peer1 = group_owner peer0
            /\ config_method peer1 = config_method peer0
            /\ service_discovery_response peer1
               = service_discovery_response peer0)).
Proof.
  intros Hlen Hbytes.
  destruct (Z.ltb_spec len 9) as [Hs|Hl].
  - exists peer0. split; [|left; reflexivity].
    unfold p2p_parse_wfd_dev_info.
    destruct (Z.ltb_spec len 9); [reflexivity | lia].
  - destruct wfd_subelems as [|b0 [|b1 [|b2 [|b3 [|b4 [|b5 [|b6 tail]]]]]]];
      simpl in Hlen; try lia.
    rewrite wfd_parser_behaviour. eexists. split; [reflexivity|].
    destruct ((len <? 9) || negb (b0 =? 0)
              || (negb (b1 =? 0) && negb (b2 =? 6)));
      [left; reflexivity | right].
    assert (0 <= b3 < 256) by (apply Hbytes; simpl; auto 10).
    assert (0 <= b4 < 256) by (apply Hbytes; simpl; auto 10).
    assert (0 <= b5 < 256) by (apply Hbytes; simpl; auto 10).
    assert (0 <= b6 < 256) by (apply Hbytes; simpl; auto 10).
    cbv [set_wfd_rtspport set_wfd_cpsupport set_wfd_sessionavail
           set_wfd_devtype set_wfd_enabled wfd_enabled wfd_devtype
           wfd_sessionavail wfd_cpsupport wfd_rtspport peer_address
           pri_dev_type group_owner config_method
           service_discovery_response].
    change 3 with (Z.ones 2). change 1 with (Z.ones 1).
    rewrite !Z.land_ones by lia.
    rewrite Z.shiftl_mul_pow2 by lia.
    pose proof (Z.mod_pos_bound b4 (2 ^ 2)).
    pose proof (Z.mod_pos_bound (Z.shiftr b4 4) (2 ^ 2)).
    pose proof (Z.mod_pos_bound b3 (2 ^ 1)).
    change (Z.ones 2) with 3. change (Z.ones 1) with 1.
    repeat split; try reflexivity; lia.
Qed.

End Parser.
(** ** What is written can be read *)

Lemma env_set_trace (t : list Event) (w : World) :
  env (set_trace t w) = env w.
Proof. reflexivity. Qed.

Lemma env_store (p : nat) (s : connman_service_t) (w : World) :
  env (store_service p s w) = env w.
Proof. reflexivity. Qed.

Lemma strings_of_strings (l : list string) :
  strings_of (map GV_string l) = Some l.
Proof.
  induction l as [|a l IH]; simpl; [reflexivity|]. rewrite IH. reflexivity.
Qed.

Lemma dup_strv_new_strv (l : list string) :
  g_variant_dup_strv (g_variant_new_strv l) = Some l.
Proof. apply strings_of_strings. Qed.

(** A run on values that are known: the steps, the comparisons of keys
    and the loops. *)
Ltac run :=
  repeat
    first
      [ step
      | erewrite bind_lift by apply dup_strv_new_strv
      | erewrite run_modify by eauto 10 with heap
      | progress (rewrite ?is_key_eqb;
                  cbn [String.eqb Ascii.eqb Bool.eqb andb when for_loop
                       List.length]) ].

(** Records given by their members, for equalities up to eta. *)
Ltac open_records :=
  repeat match goal with
         | x : connman_service_t |- _ => destruct x
         | x : ipinfo_t |- _ => destruct x
         | x : ipv4info_t |- _ => destruct x
         | x : ipv6info_t |- _ => destruct x
         | x : proxyinfo_t |- _ => destruct x
         end.

(** The end of a run: the world reached, and the service found in it. *)
Ltac finish :=
  eexists; split; [reflexivity|];
  etransitivity; [solve [eauto 10 with heap nocore] |];
  apply (f_equal Some); open_records; reflexivity.

Section RoundTrips.
Context {hdr : connman_service_h} {ext : Collaborators}.

(** X9. The IPv4 configuration that [connman_service_set_ipv4] sends
    goes out in one "IPv4.Configuration" call; when the daemon answers
    [GetProperties] with that dictionary as "IPv4",
    [connman_service_get_ipinfo] returns [TRUE] and leaves the service
    with the method, address, netmask and gateway that were given, the old
    value of each one that was [NULL], and nothing else changed. *)
Theorem ipv4_configuration_reads_back (w : World) (p : nat)
    (s : connman_service_t) (cfg : ipv4info_t) :
  lookup_service w p = Some s ->
  exists sent,
    snd (connman_service_set_ipv4 (Some p) (Some cfg) w)
    = set_trace
        (trace w
           ++ [E_remote_call (remote s)
                 (Call_set_property "IPv4.Configuration" sent)]) w
    /\ forall w2 s2,
         lookup_service w2 p = Some s2 ->
         answers w2 (remote s2) "IPv4" sent ->
         exists w3,
           connman_service_get_ipinfo (Some p) w2 = (Done true, w3)
           /\ lookup_service w3 p
              = Some
                  (upd_ipv4
                     (fun old =>
                        {| ipv4_method :=
                             or_else (ipv4_method cfg) (ipv4_method old);
                           ipv4_address :=
                             or_else (ipv4_address cfg) (ipv4_address old);
                           ipv4_netmask :=
                             or_else (ipv4_netmask cfg) (ipv4_netmask old);
                           ipv4_gateway :=
                             or_else (ipv4_gateway cfg) (ipv4_gateway old);
                           prefix_len := prefix_len old |}) s2).
Proof.
  intros Hs. eexists. split.
  - unfold connman_service_set_ipv4, call_sync, succeeded. steps.
    destruct (remote_error _ _ _); reflexivity.
  - intros w2 s2 Hs2 [Herr Hprops].
    unfold connman_service_get_ipinfo, call_sync. steps.
    cbv beta. rewrite env_set_trace, Herr. steps.
    rewrite env_set_trace, Hprops.
    destruct cfg as [[m|] [a|] [n|] [g|] l];
      cbn [builder_add option_map ipv4_method ipv4_address ipv4_netmask
             ipv4_gateway app];
      unfold for_each_entry, update_string_val_from_first_element;
      run; finish.
Qed.
(** X10. The same for IPv6.  The prefix length is sent when it is in
    0..128 and read back through a plain [char]: a value up to 127 comes
    back as it was, and 128 comes back as -128 where [char] is signed. *)
Theorem ipv6_configuration_reads_back (w : World) (p : nat)
    (s : connman_service_t) (cfg : ipv6info_t) :
  lookup_service w p = Some s ->
  (exists sent,
     snd (connman_service_set_ipv6 (Some p) (Some cfg) w)
     = set_trace
         (trace w
            ++ [E_remote_call (remote s)
                  (Call_set_property "IPv6.Configuration" sent)]) w
     /\ forall w2 s2,
          lookup_service w2 p = Some s2 ->
          answers w2 (remote s2) "IPv6" sent ->
          exists w3,
            connman_service_get_ipinfo (Some p) w2 = (Done true, w3)
            /\ lookup_service w3 p
               = Some
                   (upd_ipv6
                      (fun old =>
                         {| ipv6_method :=
                              or_else (ipv6_method cfg) (ipv6_method old);
                            ipv6_address :=
                              or_else (ipv6_address cfg) (ipv6_address old);
                            prefix_length :=
                              if (0 <=? prefix_length cfg)
                                 && (prefix_length cfg <=? 128)
                              then char_of_byte char_signed
                                     (prefix_length cfg)
                              else prefix_length old;
                            ipv6_gateway :=
                              or_else (ipv6_gateway cfg) (ipv6_gateway old)
                         |}) s2))
  /\ (0 <= prefix_length cfg <= 127 ->
      char_of_byte char_signed (prefix_length cfg) = prefix_length cfg)
  /\ (char_signed = true -> prefix_length cfg = 128 ->
      char_of_byte char_signed (prefix_length cfg) = -128).
Proof.
  intros Hs. split; [| split].
  - eexists. split.
    + unfold connman_service_set_ipv6, call_sync, succeeded. steps.
      destruct (remote_error _ _ _); reflexivity.
    + intros w2 s2 Hs2 [Herr Hprops].
      unfold connman_service_get_ipinfo, call_sync. steps.
      cbv beta. rewrite env_set_trace, Herr. steps.
      rewrite env_set_trace, Hprops.
      destruct cfg as [[m|] [a|] l [g|]];
        cbn [builder_add option_map ipv6_method ipv6_address prefix_length
               ipv6_gateway app];
        destruct ((0 <=? l) && (l <=? 128));
        cbn [builder_add option_map app];
        unfold for_each_entry, update_string_val_from_first_element,
          get_int_val_from_first_element;
        run; finish.
  - intros H. unfold char_of_byte.
    destruct (Z.leb_spec 128 (prefix_length cfg)); [lia|].
    rewrite andb_false_r. reflexivity.
  - intros -> ->. reflexivity.
Qed.

(** X11. The proxy configuration that [connman_service_set_proxy] sends
    goes out in one "Proxy.Configuration" call; when the daemon answers
    [GetProperties] with that dictionary as "Proxy",
    [connman_service_get_proxyinfo] returns [TRUE] and leaves the service
    with the method, URL, servers and excludes that were given, and the
    old value of each one that was [NULL]. *)
Theorem proxy_configuration_reads_back (w : World) (p : nat)
    (s : connman_service_t) (cfg : proxyinfo_t) :
  lookup_service w p = Some s ->
  exists sent,
    snd (connman_service_set_proxy (Some p) (Some cfg) w)
    = set_trace
        (trace w
           ++ [E_remote_call (remote s)
                 (Call_set_property "Proxy.Configuration" sent)]) w
    /\ forall w2 s2,
         lookup_service w2 p = Some s2 ->
         answers w2 (remote s2) "Proxy" sent ->
         exists w3,
           connman_service_get_proxyinfo (Some p) w2 = (Done true, w3)
           /\ lookup_service w3 p
              = Some
                  (upd_proxyinfo
                     (fun old =>
                        {| proxy_method :=
                             or_else (proxy_method cfg) (proxy_method old);
                           url := or_else (url cfg) (url old);
                           servers := or_else (servers cfg) (servers old);
                           excludes := or_else (excludes cfg) (excludes old)
                        |}) s2).
Proof.
  intros Hs. eexists. split.
  - unfold connman_service_set_proxy, call_sync, succeeded. steps.
    destruct (remote_error _ _ _); reflexivity.
  - intros w2 s2 Hs2 [Herr Hprops].
    unfold connman_service_get_proxyinfo, call_sync. steps.
    cbv beta. rewrite env_set_trace, Herr. steps.
    rewrite env_set_trace, Hprops.
    destruct cfg as [[m|] [u|] [srv|] [exc|]];
      cbn [builder_add option_map proxy_method url servers excludes app];
      unfold for_each_entry, update_string_val_from_first_element;
      run; finish.
Qed.

(** X12. The name servers that [connman_service_set_nameservers] sends
    go out in one "Nameservers.Configuration" call; when the daemon
    answers [GetProperties] with that array as "Nameservers",
    [connman_service_get_ipinfo] stores the same list, in the same
    order. *)
Theorem nameservers_read_back (w : World) (p : nat)
    (s : connman_service_t) (dns' : list string) :
  lookup_service w p = Some s ->
  exists sent,
    snd (connman_service_set_nameservers (Some p) (Some dns') w)
    = set_trace
        (trace w
           ++ [E_remote_call (remote s)
                 (Call_set_property "Nameservers.Configuration" sent)]) w
    /\ forall w2 s2,
         lookup_service w2 p = Some s2 ->
         answers w2 (remote s2) "Nameservers" sent ->
         exists w3,
           connman_service_get_ipinfo (Some p) w2 = (Done true, w3)
           /\ lookup_service w3 p
              = Some (upd_ipinfo (set_dns (Some dns')) s2).
Proof.
  intros Hs. eexists. split.
  - unfold connman_service_set_nameservers, call_sync, succeeded. steps.
    destruct (remote_error _ _ _); reflexivity.
  - intros w2 s2 Hs2 [Herr Hprops].
    unfold connman_service_get_ipinfo, call_sync. steps.
    cbv beta. rewrite env_set_trace, Herr. steps.
    rewrite env_set_trace, Hprops.
    run; finish.
Qed.

End RoundTrips.
(** ** The life of a service *)

Lemma remove_nth_last {A : Type} (l : list A) (x : A) :
  remove_nth (List.length l) (l ++ [x]) = l.
Proof. induction l as [|y l IH]; simpl; [reflexivity | rewrite IH; reflexivity]. Qed.

Lemma nth_error_last {A : Type} (l : list A) (x : A) :
  nth_error (l ++ [x]) (List.length l) = Some x.
Proof. rewrite nth_error_app2, Nat.sub_diag by lia. reflexivity. Qed.

Section Lifecycle.
Context {hdr : connman_service_h} {ext : Collaborators}.

Lemma free_with_token (w : World) (p : nat) (s : connman_service_t)
    (t : nat) (c : GCancellable) :
  lookup_service w p = Some s ->
  cancellable s = Some t ->
  live_token w t = Some c ->
  connman_service_free p w
  = (Done tt,
     set_cancellables
       (update_nth t {| cancelled := true; ref_count := ref_count c |}
          (cancellables w)) w).
Proof.
  intros Hs Ht Hl. unfold connman_service_free. steps. rewrite Ht.
  unfold g_cancellable_cancel. rewrite Hl. reflexivity.
Qed.

Lemma free_without_token (w : World) (p : nat) (s : connman_service_t) :
  lookup_service w p = Some s ->
  cancellable s = None ->
  MULTIPLE_ROUTING_TABLE = false \/ iprule_added s = false ->
  exists w',
    connman_service_free p w = (Done tt, w')
    /\ lookup_service w' p = None
    /\ (forall q, q <> p -> lookup_service w' q = lookup_service w q)
    /\ trace w'
       = trace w
           ++ (if c_true (sighandler_id s)
               then [E_signal_handler_disconnect (remote s) (sighandler_id s)]
               else [])
           ++ [E_proxy_unref (remote s)]
    /\ cancellables w' = cancellables w
    /\ pending w' = pending w.
Proof.
  intros Hs Ht Hrule. unfold connman_service_free. steps. rewrite Ht.
  assert (forall k : unit -> M unit,
             mbind (when MULTIPLE_ROUTING_TABLE
                      (connman_service_delete_ip_rule p)) k w = k tt w)
    as Hskip.
  { intros k. destruct Hrule as [-> | Hr]; [reflexivity|].
    destruct MULTIPLE_ROUTING_TABLE; [|reflexivity].
    unfold when, connman_service_delete_ip_rule. steps. rewrite Hr.
    reflexivity. }
  rewrite Hskip. steps.
  assert (forall w0, lookup_service w0 p = Some s ->
            exists w',
              g_free_service p w0 = (Done tt, w')
              /\ lookup_service w' p = None
              /\ (forall q, q <> p ->
                    lookup_service w' q = lookup_service w0 q)
              /\ trace w' = trace w0
              /\ cancellables w' = cancellables w0
              /\ pending w' = pending w0) as Hfree.
  { intros w0 H0. unfold g_free_service. rewrite H0.
    eexists. split; [reflexivity|]. repeat split.
    - unfold lookup_service. simpl.
      rewrite nth_error_update_nth_eq; [reflexivity|].
      eapply lookup_service_lt; eassumption.
    - intros q Hq. unfold lookup_service. simpl.
      rewrite nth_error_update_nth_ne by congruence. reflexivity. }
  destruct (c_true (sighandler_id s)); cbn [when]; steps.
  - edestruct Hfree as (w' & Hrun & Hl & Ho & Htr & Hc & Hp);
      [| exists w'; split; [exact Hrun|]].
    + eauto with heap.
    + rewrite Htr. simpl. rewrite <- app_assoc.
      repeat split; assumption.
  - edestruct Hfree as (w' & Hrun & Hl & Ho & Htr & Hc & Hp);
      [| exists w'; split; [exact Hrun|]].
    + eauto with heap.
    + rewrite Htr. simpl. repeat split; assumption.
Qed.

(** X13. [connman_service_free] on a service that holds a connect token
    cancels the token and does nothing else: the service stays allocated
    and no event leaves the file.  On a service without a token (and
    without routing rules to delete) it disconnects the signal handler
    when one is registered, drops the proxy and releases the block; the
    other services, the tokens and the pending calls are not touched. *)
Theorem free_cancels_or_releases (w : World) (p : nat)
    (s : connman_service_t) :
  lookup_service w p = Some s ->
  (forall t c,
     cancellable s = Some t ->
     live_token w t = Some c ->
     connman_service_free p w
     = (Done tt,
        set_cancellables
          (update_nth t {| cancelled := true; ref_count := ref_count c |}
             (cancellables w)) w))
  /\ (cancellable s = None ->
      MULTIPLE_ROUTING_TABLE = false \/ iprule_added s = false ->
      exists w',
        connman_service_free p w = (Done tt, w')
        /\ lookup_service w' p = None
        /\ (forall q, q <> p -> lookup_service w' q = lookup_service w q)
        /\ trace w'
           = trace w
               ++ (if c_true (sighandler_id s)
                   then [E_signal_handler_disconnect (remote s)
                           (sighandler_id s)]
                   else [])
               ++ [E_proxy_unref (remote s)]
        /\ cancellables w' = cancellables w
        /\ pending w' = pending w).
Proof.
  intros Hs. split.
  - intros t c. apply free_with_token. exact Hs.
  - apply free_without_token. exact Hs.
Qed.

(** X14. A service that is freed while its connect is pending is not
    released by this file.  The free only cancels the token; the
    completion that follows, whatever its result, reports failure to the
    caller's callback, gives up the token and leaves the service
    allocated, with its proxy, and without a token: releasing it takes
    another [connman_service_free]. *)
Theorem free_during_connect_is_deferred (w : World) (p : nat)
    (s : connman_service_t) (cb2 : option nat) (data2 : nat)
    (res : GAsyncResult) :
  lookup_service w p = Some s ->
  let t := List.length (cancellables w) in
  let cbd := set_user p (cb_data_new cb2 data2) in
  exists w1 w2 w3,
    connman_service_connect (Some p) cb2 data2 w = (Done true, w1)
    /\ connman_service_free p w1 = (Done tt, w2)
    /\ services w2 = services w1
    /\ trace w2 = trace w1
    /\ pending w2 = pending w1
    /\ nth_error (cancellables w2) t
       = Some {| cancelled := true; ref_count := 1 |}
    /\ complete_connect (List.length (pending w)) res w2 = (Done tt, w3)
    /\ trace w3
       = trace w2
           ++ match cb cbd with
              | Some fn => [E_connect_cb fn false (data cbd)]
              | None => []
              end
    /\ lookup_service w3 p
       = Some (set_cancellable None
                 (set_cancellable (Some t) (set_disconnecting false s)))
    /\ nth_error (cancellables w3) t
       = Some {| cancelled := true; ref_count := 0 |}
    /\ pending w3 = pending w.
Proof.
  intros Hs t cbd.
  destruct (connect_run w p s cb2 data2 Hs)
    as (w1 & Hrun & Hlk & Hcs & Hpd & Htr).
  assert (live_token w1 t = Some {| cancelled := false; ref_count := 1 |})
    as Hlive.
  { unfold live_token. rewrite Hcs. unfold t. rewrite nth_error_last.
    reflexivity. }
  assert (t < List.length (cancellables w1))%nat as Hlt.
  { rewrite Hcs, length_app. simpl. unfold t. lia. }
  pose proof (free_with_token w1 p _ t _ Hlk eq_refl Hlive) as Hfree.
  simpl ref_count in Hfree.
  set (w2 := set_cancellables
               (update_nth t {| cancelled := true; ref_count := 1 |}
                  (cancellables w1)) w1) in *.
  assert (nth_error (cancellables w2) t
          = Some {| cancelled := true; ref_count := 1 |}) as Htok.
  { unfold w2. simpl. apply nth_error_update_nth_eq. exact Hlt. }
  set (w2' := set_pending (remove_nth (List.length (pending w)) (pending w2))
                w2).
  assert (lookup_service w2' (user cbd)
          = Some (set_cancellable (Some t) (set_disconnecting false s)))
    as Hlk2 by exact Hlk.
  destruct (connect_callback_gone false w2' cbd _ res Hlk2)
    as (w3 & Hrun3 & Htr3 & Hlk3 & Hcs3 & Hpd3).
  { simpl. exists {| cancelled := true; ref_count := 1 |}.
    split; [| reflexivity]. unfold live_token.
    change (cancellables w2') with (cancellables w2). rewrite Htok.
    reflexivity. }
  exists w1, w2, w3.
  split; [exact Hrun|]. split; [exact Hfree|].
  split; [reflexivity|]. split; [reflexivity|]. split; [reflexivity|].
  split; [exact Htok|].
  split.
  { unfold complete_connect. fold w2'.
    change (pending w2) with (pending w1). rewrite Hpd, nth_error_last.
    exact Hrun3. }
  split; [exact Htr3|]. split; [exact Hlk3|].
  split.
  { rewrite Hcs3. simpl cancellable. cbv iota.
    unfold live_token. change (cancellables w2') with (cancellables w2).
    rewrite Htok. simpl.
    apply nth_error_update_nth_eq. unfold w2. simpl.
    rewrite length_update_nth. exact Hlt. }
  rewrite Hpd3.
  change (remove_nth (List.length (pending w)) (pending w1) = pending w).
  rewrite Hpd. apply remove_nth_last.
Qed.

End Lifecycle.
(** ** Construction *)

Lemma bind_new0 {B : Type} (k : nat -> M B) (w : World) :
  mbind g_new0_service k w
  = k (List.length (services w))
      (set_services (services w ++ [Some zeroed_service]) w).
Proof. reflexivity. Qed.

Lemma bind_free {B : Type} (p : nat) (k : unit -> M B) (w : World)
    (x : connman_service_t) :
  lookup_service w p = Some x ->
  mbind (g_free_service p) k w
  = k tt (set_services (update_nth p None (services w)) w).
Proof.
  intros H. unfold mbind, g_free_service. rewrite H. reflexivity.
Qed.

Lemma lookup_new0 (w : World) (x : connman_service_t) :
  lookup_service (set_services (services w ++ [Some x]) w)
    (List.length (services w)) = Some x.
Proof.
  unfold lookup_service. simpl. rewrite nth_error_last. reflexivity.
Qed.

Lemma outcome_of_last {A B : Type} (m : M A) (b : B) (w : World) (r : B) :
  fst (mbind m (fun _ => mret b) w) = Done r -> r = b.
Proof.
  unfold mbind. destruct (m w) as [[a| |] w1]; simpl; congruence.
Qed.

Lemma world_of_last {A B : Type} (m : M A) (b : B) (w : World) :
  snd (mbind m (fun _ => mret b) w) = snd (m w).
Proof.
  unfold mbind. destruct (m w) as [[a| |] w1]; reflexivity.
Qed.

Section Construction.
Context {hdr : connman_service_h} {ext : Collaborators}.

(** X15. [connman_service_new] on a variant (path, properties).  When
    the proxy cannot be created it returns [NULL], has released the block
    it allocated and has left every other service, and the trace, as they
    were.  Otherwise the new service has the path of the variant, the
    identifier stripped from it, the new proxy, the signal handler, no
    token and no callbacks, whatever the properties hold and wherever the
    reading of them stands when it ends, stops or is cut off; the
    services that existed are untouched.  The function returns the
    address of the new service when the bag of properties is empty, and
    nothing else whenever it returns. *)
Theorem new_service_is_initialised (w : World) (p2p : bool)
    (service_path : string) (properties : GVariant) (fuel : nat) :
  let variant := GV_tuple [GV_string service_path; properties] in
  let p := List.length (services w) in
  let run := connman_service_new fuel (Some variant) p2p w in
  connman_service_new fuel None p2p w = (Done None, w)
  /\ (proxy_new_error (env w) <> None ->
      fst run = Done None
      /\ lookup_service (snd run) p = None
      /\ (forall q, (q < p)%nat ->
            lookup_service (snd run) q = lookup_service w q)
      /\ trace (snd run) = trace w)
  /\ (proxy_new_error (env w) = None ->
      (g_variant_n_children properties = Some 0%nat ->
       fst run = Done (Some p))
      /\ (forall r, fst run = Done r -> r = Some p)
      /\ (exists s,
            lookup_service (snd run) p = Some s
            /\ path s = Some service_path
            /\ identifier s
               = strip_prefix (Some service_path)
                   (if p2p then "/net/connman/peer/"
                    else "/net/connman/service/")
            /\ remote s = proxy_new (env w)
            /\ sighandler_id s = signal_connect (env w)
            /\ cancellable s = None
            /\ handle_property_change_fn s = None
            /\ handle_p2p_request_fn s = None)
      /\ (forall q, (q < p)%nat ->
            lookup_service (snd run) q = lookup_service w q)
      /\ cancellables (snd run) = cancellables w
      /\ pending (snd run) = pending w).
Proof.
  cbv zeta. split; [reflexivity|].
  pose proof (lookup_new0 w zeroed_service) as H0.
  set (w0 := set_services (services w ++ [Some zeroed_service]) w) in *.
  set (p := List.length (services w)) in *.
  assert (forall q, (q < p)%nat ->
            nth_error (services w0) q = nth_error (services w) q) as Hold.
  { intros q Hq. unfold w0. simpl. apply nth_error_app1. exact Hq. }
  split.
  - intros Herr. unfold connman_service_new.
    rewrite bind_new0. fold w0. fold p. steps.
    destruct (proxy_new_error (env w)) as [msg|] eqn:E; [| congruence].
    change (env (store_service _ _ _)) with (env w). rewrite E.
    erewrite bind_free by eauto 10 with heap.
    unfold mret. cbn [fst snd].
    split; [reflexivity|]. split.
    + unfold lookup_service. simpl.
      rewrite nth_error_update_nth_eq; [reflexivity|].
      rewrite !length_update_nth. unfold w0. simpl.
      rewrite length_app. simpl. unfold p. lia.
    + split; [| reflexivity].
      intros q Hq. unfold lookup_service. simpl.
      rewrite !nth_error_update_nth_ne by lia.
      rewrite Hold by exact Hq. reflexivity.
  - intros Herr. unfold connman_service_new.
    rewrite bind_new0. fold w0. fold p. steps.
    change (env (store_service _ _ _)) with (env w). rewrite Herr.
    steps. rewrite !store_store.
    change (env (store_service _ _ _)) with (env w).
    match goal with
    | |- context [mbind _ _ (store_service p ?s1 w0)] =>
        set (s_init := s1); set (w1 := store_service p s1 w0)
    end.
    assert (lookup_service w1 p = Some s_init) as H1
      by (unfold w1; eauto with heap).
    split.
    { intros Hn. unfold connman_service_update_properties.
      rewrite update_properties_loop_unfold, bind_assoc.
      erewrite bind_lift by exact Hn.
      change (Nat.ltb 0 0) with false. reflexivity. }
    split; [intros r; apply outcome_of_last|].
    rewrite world_of_last.
    pose proof (kept_start w1 p s_init (same_identity s_init) H1) as Hk.
    destruct (readers_keep_identity p w1 s_init "" properties properties
                fuel) as (_ & Hupd & _).
    specialize (Hupd w1 (Hk ltac:(repeat split; trivial))).
    destruct Hupd as ((s & Hs & Hid) & Hothers & _ & Hc & Hp & _).
    destruct Hid as (Hp1 & Hp2 & Hp3 & Hp4 & Hp5 & Hp6 & Hp7 & _).
    split; [| split; [| split]].
    + exists s. split; [exact Hs|].
      rewrite Hp1, Hp2, Hp3, Hp4, Hp5, Hp6, Hp7. repeat split.
    + intros q Hq. unfold lookup_service. rewrite Hothers by lia.
      unfold w1. simpl. rewrite nth_error_update_nth_ne by lia.
      rewrite Hold by exact Hq. reflexivity.
    + etransitivity; [exact Hc | reflexivity].
    + etransitivity; [exact Hp | reflexivity].
Qed.

End Construction.
(** ** Pushed properties and snapshots *)

(** The comparisons of a key that is none of the names in the list of
    [H]. *)
Ltac other_key key H :=
  rewrite ?is_key_eqb;
  repeat match goal with
         | |- context [String.eqb key ?k] =>
             let E := fresh in
             destruct (String.eqb_spec key k) as [E|E];
             [exfalso; apply H; rewrite E; simpl; tauto |]
         end;
  cbn [andb].

Section Pushes.
Context {hdr : connman_service_h} {ext : Collaborators}.

(** X16. A property whose name the handler does not know changes
    nothing: a push of it reaches the upper layer's hook, when one is
    installed, and nothing else; an entry of a snapshot with such a key
    leaves the world, and the loop variable, as they were. *)
Theorem unknown_properties_are_ignored (w : World) (p : nat)
    (s : connman_service_t) (key : string) (va : GVariant) (i : nat) :
  lookup_service w p = Some s ->
  (~ In key pushed_keys ->
   exists w',
     property_changed_cb key (GV_variant va) p w = (Done tt, w')
     /\ trace w' = trace w ++ hook_events w s key va
     /\ services w' = services w
     /\ cancellables w' = cancellables w
     /\ pending w' = pending w)
  /\ (~ In key snapshot_keys ->
      update_property p (GV_dict_entry (GV_string key) (GV_variant va)) i w
      = (Done i, w)).
Proof.
  intros Hs. split; intros Hkey.
  - unfold property_changed_cb, hook_events. steps.
    destruct (service_property_changed (env w)) as [f|]; steps;
      other_key key Hkey;
      (eexists; split; [reflexivity|]); simpl; rewrite ?app_nil_r;
      repeat split.
  - unfold update_property. steps. other_key key Hkey. reflexivity.
Qed.

(** X17. A pushed "Strength" or "RunOnlineCheck" that repeats the stored
    value changes nothing and marks nothing.  A new strength is stored
    and marks FindNetworks, pushed or in a snapshot; a new
    "RunOnlineCheck" that is pushed is stored, marks Status and is
    broadcast to the subscribers, while in a snapshot it is only
    stored. *)
Theorem repeated_values_mark_nothing (w : World) (p : nat)
    (s : connman_service_t) (n : Z) (b : bool) (i : nat) :
  lookup_service w p = Some s ->
  let stronger :=
    if n =? strength s then s
    else set_change_mask
           (Z.lor (change_mask s)
              CONNMAN_SERVICE_CHANGE_CATEGORY_FINDNETWORKS)
           (set_strength n s) in
  (exists w',
     property_changed_cb "Strength" (GV_variant (GV_byte n)) p w
     = (Done tt, w')
     /\ lookup_service w' p = Some stronger
     /\ trace w' = trace w ++ hook_events w s "Strength" (GV_byte n))
  /\ (exists w',
        update_property p
          (GV_dict_entry (GV_string "Strength") (GV_variant (GV_byte n))) i w
        = (Done i, w')
        /\ lookup_service w' p = Some stronger
        /\ trace w' = trace w)
  /\ (exists w',
        property_changed_cb "RunOnlineCheck" (GV_variant (GV_boolean b)) p w
        = (Done tt, w')
        /\ lookup_service w' p
           = Some (if Bool.eqb (online_checking s) b then s
                   else set_change_mask
                          (Z.lor (change_mask s)
                             CONNMAN_SERVICE_CHANGE_CATEGORY_GETSTATUS)
                          (set_online_checking b s))
        /\ trace w'
           = trace w
               ++ hook_events w s "RunOnlineCheck" (GV_boolean b)
               ++ (if Bool.eqb (online_checking s) b then []
                   else [E_send_status_to_subscribers]))
  /\ (exists w',
        update_property p
          (GV_dict_entry (GV_string "RunOnlineCheck")
             (GV_variant (GV_boolean b))) i w
        = (Done i, w')
        /\ lookup_service w' p = Some (set_online_checking b s)
        /\ trace w' = trace w).
Proof.
  intros Hs. cbv zeta. split; [| split; [| split]].
  - unfold property_changed_cb, hook_events, connman_service_set_changed.
    destruct (service_property_changed (env w)) as [f|] eqn:Eh; run;
      rewrite ?Eh; run; destruct (n =? strength s); cbn [negb when]; run;
      (eexists; split; [reflexivity|]); simpl; rewrite ?app_nil_r;
      split; eauto with heap.
  - unfold update_property, connman_service_set_changed. run.
    destruct (n =? strength s); cbn [negb when]; run;
      (eexists; split; [reflexivity|]); simpl; split; eauto with heap.
  - unfold property_changed_cb, hook_events, connman_service_set_changed.
    destruct (service_property_changed (env w)) as [f|] eqn:Eh; run;
      rewrite ?Eh; run; destruct (Bool.eqb (online_checking s) b);
      cbn [negb when]; run;
      (eexists; split; [reflexivity|]); simpl;
      rewrite <- ?app_assoc, ?app_nil_r; split; eauto with heap.
  - unfold update_property. run.
    eexists. split; [reflexivity|]. simpl. split; eauto with heap.
Qed.

(** X18. The callbacks.  Registering [NULL] keeps the callback that was
    registered.  After a function is registered for property changes, a
    pushed "Online" that differs from the stored value is reported to
    that function; after one is registered for P2P requests, a pushed
    "P2PGONegRequested" reaches it with the WPS type of the push and the
    name of the signal. *)
Theorem registered_callbacks_are_invoked (w : World) (p : nat)
    (s : connman_service_t) (f : nat) (b : bool) (wpstype : Z) :
  lookup_service w p = Some s ->
  connman_service_register_property_changed_cb p None w = (Done tt, w)
  /\ connman_service_register_p2p_requests_cb p None w = (Done tt, w)
  /\ (b <> online s ->
      exists w1 w2,
        connman_service_register_property_changed_cb p (Some f) w
        = (Done tt, w1)
        /\ property_changed_cb "Online" (GV_variant (GV_boolean b)) p w1
           = (Done tt, w2)
        /\ trace w2
           = trace w
               ++ hook_events w s "Online" (GV_boolean b)
               ++ [E_property_change_fn f p "Online" (GV_boolean b)])
  /\ (exists w1 w2,
        connman_service_register_p2p_requests_cb p (Some f) w
        = (Done tt, w1)
        /\ property_changed_cb "P2PGONegRequested"
             (GV_variant (GV_int32 wpstype)) p w1
           = (Done tt, w2)
        /\ trace w2
           = trace w
               ++ hook_events w s "P2PGONegRequested" (GV_int32 wpstype)
               ++ [E_p2p_request_fn f p wpstype None None
                     "P2PGONegRequested"]).
Proof.
  intros Hs. split; [reflexivity|]. split; [reflexivity|]. split.
  - intros Hb.
    assert (Bool.eqb (online s) b = false) as Hne
      by (apply eqb_false_iff; congruence).
    unfold connman_service_register_property_changed_cb.
    unfold property_changed_cb, hook_events,
      connman_service_advance_online_state, connman_service_set_changed.
    destruct (service_property_changed (env w)) as [h|] eqn:Eh;
      (eexists; eexists; split; [apply (run_modify _ _ _ _ Hs)|]); run;
      change (env (store_service _ _ _)) with (env w) in *;
      rewrite ?Eh; run; cbn [online set_handle_property_change_fn];
      rewrite Hne; cbn [negb when]; run;
      (split; [reflexivity|]); simpl; rewrite <- ?app_assoc; reflexivity.
  - unfold connman_service_register_p2p_requests_cb.
    unfold property_changed_cb, hook_events, p2p_request.
    destruct (service_property_changed (env w)) as [h|] eqn:Eh;
      (eexists; eexists; split; [apply (run_modify _ _ _ _ Hs)|]); run;
      change (env (store_service _ _ _)) with (env w) in *;
      rewrite ?Eh; run;
      (split; [reflexivity|]); simpl; rewrite <- ?app_assoc; reflexivity.
Qed.

End Pushes.
(** ** The state of a service *)

Section States.
Context {hdr : connman_service_h} {ext : Collaborators}.

Lemma get_state_ready_online (st : option string) :
  NoDup state_enumerators ->
  (connman_service_get_state st = CONNMAN_SERVICE_STATE_ONLINE
   <-> st = Some "online")
  /\ (connman_service_get_state st = CONNMAN_SERVICE_STATE_READY
      <-> st = Some "ready").
Proof.
  intros Hnd. unfold state_enumerators in Hnd.
  repeat match goal with
         | H : NoDup (_ :: _) |- _ => inversion H; clear H; subst
         end.
  simpl in *.
  destruct st as [n|].
  - unfold connman_service_get_state. rewrite !c_not_strcmp.
    repeat match goal with
           | |- context [if String.eqb n ?b then _ else _] =>
               destruct (String.eqb_spec n b) as [-> | ?]
           end;
      (split; split; intros E; try congruence; try reflexivity;
       exfalso; intuition congruence).
  - simpl. split; split; intros E; try congruence;
      exfalso; intuition congruence.
Qed.

(** X19. With pairwise distinct enumerators,
    [connman_service_is_online] answers [TRUE] exactly for the state
    string "online" and [connman_service_is_connected] exactly for
    "ready" and "online"; neither changes the world. *)
Theorem connected_is_ready_or_online (w : World) (p : nat)
    (s : connman_service_t) :
  NoDup state_enumerators ->
  lookup_service w p = Some s ->
  exists online connected,
    connman_service_is_online p w = (Done online, w)
    /\ connman_service_is_connected p w = (Done connected, w)
    /\ (online = true <-> state s = Some "online")
    /\ (connected = true
        <-> state s = Some "ready" \/ state s = Some "online").
Proof.
  intros Hnd Hs.
  destruct (get_state_ready_online (state s) Hnd) as [Hon Hre].
  unfold connman_service_is_online, connman_service_is_connected.
  do 2 eexists. steps. cbv zeta.
  split; [reflexivity|]. split; [reflexivity|].
  rewrite orb_true_iff, !Z.eqb_eq, Hon, Hre. tauto.
Qed.

Lemma rest_of_advance_keeps (p : nat) (w0 : World) (st : option string)
    (d : bool) (n : string) :
  preserves
    (kept p w0 (fun x => state x = st /\ disconnecting x = d))
    (update_routing_rules p n ;; update_diagnostics_subscription p).
Proof.
  unfold_readers. keep ltac:(let H := fresh in intros ? H; exact H).
Qed.

Lemma disconnect_run (w : World) (p : nat) (s : connman_service_t) :
  lookup_service w p = Some s ->
  exists r,
    connman_service_disconnect (Some p) w
    = (Done r,
       set_trace (trace w ++ [E_remote_call (remote s) Call_disconnect])
         (store_service p (set_disconnecting true s) w)).
Proof.
  intros Hs. unfold connman_service_disconnect, call_sync, succeeded.
  steps.
  match goal with
  | |- context [remote_error ?e ?r ?c] => destruct (remote_error e r c)
  end; eexists; reflexivity.
Qed.

Lemma push_state_is_advance (w : World) (p : nat) (s : connman_service_t)
    (n : string) :
  lookup_service w p = Some s ->
  property_changed_cb "State" (GV_variant (GV_string n)) p w
  = connman_service_advance_state (Some p) (GV_string n)
      match service_property_changed (env w) with
      | Some f =>
          set_trace
            (trace w
               ++ [E_service_property_changed f (path s) (Some "State")
                     (GV_string n)]) w
      | None => w
      end.
Proof.
  intros Hs. unfold property_changed_cb. steps.
  destruct (service_property_changed (env w)) as [f|]; steps;
    rewrite is_key_eqb; reflexivity.
Qed.

Lemma ready_and_online_are_applied (w : World) (p : nat)
    (s : connman_service_t) (n : string) :
  lookup_service w p = Some s ->
  disconnecting s = true ->
  n = "ready" \/ n = "online" ->
  exists s',
    lookup_service
      (snd (connman_service_advance_state (Some p) (GV_string n) w)) p
    = Some s'
    /\ state s' = Some n
    /\ disconnecting s' = true.
Proof.
  intros Hs Hd Hn.
  assert (forall W x,
             lookup_service W p = Some x ->
             state x = Some n -> disconnecting x = true ->
             exists s',
               lookup_service
                 (snd ((update_routing_rules p n ;;
                        update_diagnostics_subscription p) W)) p = Some s'
               /\ state s' = Some n /\ disconnecting s' = true) as Hrest.
  { intros W x Hx Hst Hdx.
    destruct (rest_of_advance_keeps p W (Some n) true n W)
      as ((s' & Hs' & HJ') & _).
    - apply (kept_start _ _ _ _ Hx). split; assumption.
    - exists s'. split; [exact Hs' | exact HJ']. }
  unfold connman_service_advance_state. steps. rewrite Hd. cbn [andb].
  assert (c_true (g_strcmp0 (Some n) (Some "ready"))
          && c_true (g_strcmp0 (Some n) (Some "online")) = false) as ->.
  { rewrite !c_true_strcmp. destruct Hn as [-> | ->]; reflexivity. }
  cbn [andb]. steps.
  destruct (c_true (g_strcmp0 (state s) (Some n))) eqn:E; cbn [when].
  - unfold connman_service_set_changed, notify_property_change. steps.
    cbn [handle_property_change_fn set_change_mask set_state].
    destruct (handle_property_change_fn s) as [fn|]; steps;
      (eapply Hrest; [eauto 10 with heap | reflexivity | exact Hd]).
  - steps.
    destruct (diagnostics_run w p s Hs) as (w' & Hrun & Hsv & _).
    rewrite Hrun. cbn [snd]. exists s.
    split; [unfold lookup_service in *; rewrite Hsv; exact Hs|].
    split; [| exact Hd].
    apply negb_false_iff, Z.eqb_eq, g_strcmp0_zero_iff in E. exact E.
Qed.

(** X20. The [disconnecting] flag and the pushes of "State".  While the
    flag is set, a pushed "ready" or "online" is not suppressed: the
    state is stored and the flag stays set, however the run goes on.
    After a disconnect, the first push of another state is dropped: it
    reaches the upper layer's hook, when one is installed, and nothing
    else, the state stays as it was and the flag is cleared; the same
    push, repeated, is then applied. *)
Theorem suppression_is_one_shot (w : World) (p : nat)
    (s : connman_service_t) (n : string) :
  lookup_service w p = Some s ->
  let push := property_changed_cb "State" (GV_variant (GV_string n)) p in
  (disconnecting s = true ->
   n = "ready" \/ n = "online" ->
   exists s',
     lookup_service (snd (push w)) p = Some s'
     /\ state s' = Some n
     /\ disconnecting s' = true)
  /\ (n <> "ready" -> n <> "online" -> state s <> Some n ->
      exists r w1 w2,
        connman_service_disconnect (Some p) w = (Done r, w1)
        /\ push w1 = (Done tt, w2)
        /\ lookup_service w2 p = Some (set_disconnecting false
                                        (set_disconnecting true s))
        /\ trace w2 = trace w1 ++ hook_events w s "State" (GV_string n)
        /\ exists s3,
             lookup_service (snd (push w2)) p = Some s3
             /\ state s3 = Some n).
Proof.
  intros Hs. cbv zeta. split.
  - intros Hd Hn. rewrite (push_state_is_advance _ _ _ _ Hs).
    apply (ready_and_online_are_applied _ p s n); [| exact Hd | exact Hn].
    destruct (service_property_changed (env w)); eauto with heap.
  - intros N1 N2 Hst.
    destruct (disconnect_run w p s Hs) as (r & Hrun).
    set (w1 := set_trace
                 (trace w ++ [E_remote_call (remote s) Call_disconnect])
                 (store_service p (set_disconnecting true s) w)) in *.
    assert (lookup_service w1 p = Some (set_disconnecting true s)) as H1
      by (unfold w1; eauto with heap).
    apply String.eqb_neq in N1. apply String.eqb_neq in N2.
    assert (forall W,
               lookup_service W p = Some (set_disconnecting true s) ->
               connman_service_advance_state (Some p) (GV_string n) W
               = (Done tt,
                  store_service p
                    (set_disconnecting false (set_disconnecting true s)) W))
      as Hdrop.
    { intros W HW. unfold connman_service_advance_state. steps.
      cbn [disconnecting set_disconnecting].
      rewrite !c_true_strcmp, N1, N2. cbn [negb andb].
      apply run_modify. exact HW. }
    assert (forall W,
               lookup_service W p
               = Some (set_disconnecting false (set_disconnecting true s)) ->
               exists s3,
                 lookup_service
                   (snd (connman_service_advance_state (Some p)
                           (GV_string n) W)) p = Some s3
                 /\ state s3 = Some n) as Hnext.
    { intros W HW.
      destruct (advance_state_new_settled W p _ n HW eq_refl Hst)
        as (s3 & rest & Hs3 & Hst3 & _).
      exists s3. split; assumption. }
    pose proof (push_state_is_advance w1 p _ n H1) as Hpush.
    change (env w1) with (env w) in Hpush.
    change (path (set_disconnecting true s)) with (path s) in Hpush.
    unfold hook_events.
    destruct (service_property_changed (env w)) as [f|] eqn:Eh.
    + rewrite ?Eh in Hpush.
      exists r, w1. eexists. split; [exact Hrun|].
      rewrite Hpush, Hdrop by eauto with heap.
      split; [reflexivity|]. split; [eauto with heap|].
      split; [reflexivity|].
      erewrite push_state_is_advance by eauto with heap.
      apply Hnext.
      match goal with
      | |- context [service_property_changed ?e] =>
          change (service_property_changed e)
            with (service_property_changed (env w))
      end.
      rewrite Eh. eauto 10 with heap.
    + rewrite ?Eh in Hpush.
      exists r, w1. eexists. split; [exact Hrun|].
      rewrite Hpush, Hdrop by exact H1.
      split; [reflexivity|]. split; [eauto with heap|].
      split; [rewrite app_nil_r; reflexivity|].
      erewrite push_state_is_advance by eauto with heap.
      apply Hnext.
      match goal with
      | |- context [service_property_changed ?e] =>
          change (service_property_changed e)
            with (service_property_changed (env w))
      end.
      rewrite Eh. eauto 10 with heap.
Qed.

End States.
(** ** Routing rules *)

Section Rules.
Context {hdr : connman_service_h} {ext : Collaborators}.

(** X21. The routing rules of a service that is "ready", has an IPv4
    address, netmask and gateway and an interface whose name carries the
    table number from its fourth character on, a number that with ten
    added is still an [int].  When each of the three [ip] commands, for
    adding and for deleting, fits the 80 bytes of the buffer it is
    printed to: creating the rules runs the three commands and sets the
    flag; creating them again does nothing; deleting them runs the three
    commands with the same address, prefix, gateway and table and clears
    the flag; deleting them again does nothing.  When the first command
    does not fit, creating the rules stops at it: nothing is run and the
    flag stays clear. *)
Theorem ip_rules_are_added_and_withdrawn_once (w : World) (p : nat)
    (s : connman_service_t) (addr mask gateway ifname : string) (n : Z) :
  lookup_service w p = Some s ->
  state s = Some "ready" ->
  iprule_added s = false ->
  ipv4_address (ipv4 (ipinfo s)) = Some addr ->
  ipv4_netmask (ipv4 (ipinfo s)) = Some mask ->
  ipv4_gateway (ipv4 (ipinfo s)) = Some gateway ->
  interface_name s = Some ifname ->
  is_vlan ifname = false ->
  (3 <= String.length ifname)%nat ->
  sscanf_d (substring 3 (String.length ifname - 3) ifname) = Some n ->
  INT_MIN <= n <= INT_MAX - 10 ->
  let commands status :=
    [Ip_route_default status (n + 10) gateway;
     Ip_rule_from status addr (prefix_len (ipv4 (ipinfo s))) (n + 10);
     Ip_rule_to status addr (prefix_len (ipv4 (ipinfo s))) (n + 10)] in
  let rules status := map E_system (commands status) in
  ((forall status c,
       In c (commands status) ->
       (String.length (ip_command_text c) <= 79)%nat) ->
   exists w1 w2,
     connman_service_create_ip_rule p w = (Done tt, w1)
     /\ trace w1 = trace w ++ rules true
     /\ lookup_service w1 p = Some (set_iprule_added true s)
     /\ connman_service_create_ip_rule p w1 = (Done tt, w1)
     /\ connman_service_delete_ip_rule p w1 = (Done tt, w2)
     /\ trace w2 = trace w1 ++ rules false
     /\ lookup_service w2 p
        = Some (set_iprule_added false (set_iprule_added true s))
     /\ connman_service_delete_ip_rule p w2 = (Done tt, w2))
  /\ ((79 < String.length
              (ip_command_text (Ip_route_default true (n + 10) gateway)))%nat ->
      connman_service_create_ip_rule p w = (Abort, w)).
Proof.
  intros Hs Hst Hadd Ha Hm Hg Hi Hv Hlen Hn Hint. cbv zeta.
  assert ((n <? INT_MIN) || (INT_MAX - 10 <? n) = false) as Hb.
  { apply orb_false_iff. split; apply Z.ltb_ge; lia. }
  split.
  2: { intros Hlong.
       unfold connman_service_create_ip_rule. steps.
       rewrite Hadd, Hst. cbn [negb andb when].
       change (c_not (g_strcmp0 (Some "ready") (Some "ready"))) with true.
       cbn [when].
       unfold connman_service_set_ip_rule. steps.
       rewrite Ha, Hm, Hg, Hi, Hv. cbn [negb].
       destruct (Nat.ltb_spec (String.length ifname) 3); [lia|].
       rewrite Hn, Hb. unfold run_ip_command at 1.
       rewrite (proj2 (Nat.ltb_lt _ _) Hlong). reflexivity. }
  intros Hfit.
  assert (forall status c,
             In c [Ip_route_default status (n + 10) gateway;
                   Ip_rule_from status addr (prefix_len (ipv4 (ipinfo s)))
                     (n + 10);
                   Ip_rule_to status addr (prefix_len (ipv4 (ipinfo s)))
                     (n + 10)] ->
             run_ip_command c = emit (E_system c)) as Hcmd.
  { intros status c Hc. unfold run_ip_command.
    rewrite (proj2 (Nat.ltb_ge _ _) (Hfit status c Hc)). reflexivity. }
  assert (forall status W x,
             lookup_service W p = Some x ->
             ipinfo x = ipinfo s -> interface_name x = interface_name s ->
             connman_service_set_ip_rule p status W
             = (Done tt,
                store_service p (set_iprule_added status x)
                  (set_trace
                     (trace W
                        ++ [E_system (Ip_route_default status (n + 10)
                                        gateway);
                            E_system (Ip_rule_from status addr
                                        (prefix_len (ipv4 (ipinfo s)))
                                        (n + 10));
                            E_system (Ip_rule_to status addr
                                        (prefix_len (ipv4 (ipinfo s)))
                                        (n + 10))]) W))) as Hset.
  { intros status W x Hx Hip Hif.
    unfold connman_service_set_ip_rule. steps.
    rewrite Hip, Hif, Ha, Hm, Hg, Hi, Hv. cbn [negb].
    destruct (Nat.ltb_spec (String.length ifname) 3); [lia|].
    rewrite Hn, Hb.
    rewrite (Hcmd status (Ip_route_default status (n + 10) gateway))
      by (left; reflexivity).
    rewrite (Hcmd status
               (Ip_rule_from status addr (prefix_len (ipv4 (ipinfo s)))
                  (n + 10)))
      by (right; left; reflexivity).
    rewrite (Hcmd status
               (Ip_rule_to status addr (prefix_len (ipv4 (ipinfo s)))
                  (n + 10)))
      by (right; right; left; reflexivity).
    steps. erewrite run_modify by eauto 10 with heap.
    cbn [trace set_trace]. rewrite <- !app_assoc. reflexivity. }
  cbn [map].
  do 2 eexists.
  split.
  { unfold connman_service_create_ip_rule. steps.
    rewrite Hadd, Hst. cbn [negb andb when].
    change (c_not (g_strcmp0 (Some "ready") (Some "ready"))) with true.
    cbn [when]. apply (Hset true w s Hs); reflexivity. }
  split; [reflexivity|]. split; [eauto 10 with heap|].
  split.
  { unfold connman_service_create_ip_rule. steps. reflexivity. }
  split.
  { unfold connman_service_delete_ip_rule. steps.
    cbn [iprule_added set_iprule_added when].
    apply Hset; [eauto 10 with heap | reflexivity | reflexivity]. }
  split; [reflexivity|]. split; [eauto 10 with heap|].
  unfold connman_service_delete_ip_rule. steps. reflexivity.
Qed.

End Rules.
(** ** The outcome of a connect *)

Lemma substring_occurs (m : string) (p k : nat) (x : string) :
  substring p k m = x -> String.length x = k ->
  exists pre post, m = (pre ++ x ++ post)%string.
Proof.
  revert m k x. induction p as [|p IHp].
  - intros m k. revert m. induction k as [|k IHk]; intros m x Hsub Hlen.
    + destruct x; [| discriminate]. exists ""%string, m. reflexivity.
    + destruct m as [|c m]; simpl in Hsub; subst x; [discriminate|].
      simpl in Hlen. injection Hlen as Hlen.
      destruct (IHk m _ eq_refl Hlen) as (pre & post & Hm).
      destruct pre as [|c' pre].
      * exists ""%string, post. simpl in *. congruence.
      * clear Hm.
        assert (forall a b, String.length (substring 0 a b) = a ->
                  exists post, b = (substring 0 a b ++ post)%string) as Hpre.
        { clear. induction a as [|a IH]; intros b H.
          - exists b. destruct b; reflexivity.
          - destruct b as [|c b]; simpl in *; [discriminate|].
            injection H as H. destruct (IH b H) as (post & Hb).
            exists post. congruence. }
        destruct (Hpre k m Hlen) as (post' & Hm').
        exists ""%string, post'. simpl. congruence.
  - intros m k x Hsub Hlen. destruct m as [|c m]; simpl in Hsub.
    + subst x. simpl in Hlen. subst k. exists ""%string, ""%string.
      reflexivity.
    + destruct (IHp m k x Hsub Hlen) as (pre & post & Hm).
      exists (String c pre), post. simpl. congruence.
Qed.

Lemma g_strrstr_scan_sound (haystack needle : string) (p i : nat) :
  g_strrstr_scan haystack needle p = Some i -> contains haystack needle.
Proof.
  induction p as [|p IH]; simpl;
    destruct (match_at haystack needle _) eqn:E; intros H;
    try discriminate; try (apply IH; exact H);
    unfold match_at in E; apply String.eqb_eq in E;
    apply (substring_occurs _ _ _ _ E); reflexivity.
Qed.

Lemma g_strrstr_sound (message needle : string) (i : nat) :
  g_strrstr message needle = Some i -> contains message needle.
Proof.
  unfold g_strrstr.
  destruct (Nat.eqb_spec (String.length needle) 0) as [E|E].
  - intros _. destruct needle; [| discriminate].
    exists ""%string, message. reflexivity.
  - destruct (Nat.ltb _ _); [discriminate|]. apply g_strrstr_scan_sound.
Qed.

Lemma g_strrstr_decides (message needle : string) :
  g_strrstr message needle <> None <-> contains message needle.
Proof.
  split; [| apply g_strrstr_contains].
  destruct (g_strrstr message needle) as [i|] eqn:E; [| congruence].
  intros _. eapply g_strrstr_sound. exact E.
Qed.

Section Outcome.
Context {hdr : connman_service_h} {ext : Collaborators}.

(** X22. On a live token that was not cancelled, the completion of a
    connect calls the caller's callback once, after the call is
    finished, and gives up the token.  The callback receives success
    exactly when the call returned [TRUE] or ended in an error whose
    message contains "AlreadyConnected" (for a peer, also "Operation
    aborted"); any other error is reported as the call returned. *)
Theorem connect_reports_success_exactly_when (is_peer : bool) (w : World)
    (cbd : cb_data) (s : connman_service_t) (t : nat) (c : GCancellable)
    (fn : nat) (res : GAsyncResult) :
  lookup_service w (user cbd) = Some s ->
  cancellable s = Some t ->
  live_token w t = Some c ->
  cancelled c = false ->
  cb cbd = Some fn ->
  exists w' ret,
    (if is_peer then peer_connect_callback res cbd
     else connect_callback res cbd) w = (Done tt, w')
    /\ trace w'
       = trace w
           ++ [E_connect_finish (remote s) is_peer;
               E_connect_cb fn ret (data cbd)]
    /\ lookup_service w' (user cbd) = Some (set_cancellable None s)
    /\ (ret = true
        <-> finish_ret res = true
            \/ exists message,
                 finish_error res = Some message
                 /\ (contains message "AlreadyConnected"
                     \/ (is_peer = true
                         /\ contains message "Operation aborted"))).
Proof.
  intros Hs Ht Hl Hc Hcb.
  destruct (connect_callback_live is_peer w cbd s t c res Hs Ht Hl Hc)
    as (w' & Hrun & Htr & Hlk & _).
  exists w', (reported is_peer res).
  split; [exact Hrun|]. rewrite Hcb in Htr. split; [exact Htr|].
  split; [exact Hlk|].
  unfold reported. destruct (finish_error res) as [message|].
  - pose proof (g_strrstr_decides message "AlreadyConnected") as HA.
    pose proof (g_strrstr_decides message "Operation aborted") as HO.
    destruct (g_strrstr message "AlreadyConnected") as [i|].
    + split; [| reflexivity]. intros _. right. exists message.
      split; [reflexivity|]. left. apply HA. discriminate.
    + destruct is_peer.
      * destruct (g_strrstr message "Operation aborted") as [j|].
        -- split; [| reflexivity]. intros _. right. exists message.
           split; [reflexivity|]. right. split; [reflexivity|].
           apply HO. discriminate.
        -- split; [tauto|]. intros [H | (m & [= <-] & [H | [_ H]])];
             [exact H | apply HA in H | apply HO in H]; congruence.
      * split; [tauto|]. intros [H | (m & [= <-] & [H | [H _]])];
          [exact H | apply HA in H | discriminate]; congruence.
  - split; [tauto|]. intros [H | (m & H & _)]; [exact H | discriminate].
Qed.

End Outcome.
(** ** Names and addresses *)

Lemma bytes_of_bytes (l : list Z) : bytes_of (map GV_byte l) = Some l.
Proof.
  induction l as [|a l IH]; simpl; [reflexivity|]. rewrite IH. reflexivity.
Qed.

Lemma length_substring_le (n : nat) (s : string) :
  (String.length (substring 0 n s) <= n)%nat.
Proof.
  revert s. induction n as [|n IH]; intros [|c s]; simpl; try lia.
  specialize (IH s). lia.
Qed.

Section Names.
Context {hdr : connman_service_h} {ext : Collaborators}.

Lemma zero_byte_found (bytes : list Z) :
  existsb (fun b => b =? 0) bytes = true <-> In 0 bytes.
Proof.
  rewrite existsb_exists. split.
  - intros (b & Hb & E). apply Z.eqb_eq in E. subst. exact Hb.
  - intros H. exists 0. split; [exact H | reflexivity].
Qed.

Lemma ssid_pass_run (w : World) (p : nat) (s : connman_service_t)
    (bytes : list Z) (i : nat) :
  lookup_service w p = Some s ->
  In 0 bytes ->
  exists w',
    update_property p
      (GV_dict_entry (GV_string "WiFi.SSID")
         (GV_variant (GV_array G_VARIANT_TYPE_BYTE (map GV_byte bytes))))
      i w
    = (Done (List.length (c_string_of bytes)), w')
    /\ lookup_service w' p
       = Some
           (set_display_name
              (if g_utf8_validate (string_of_bytes (c_string_of bytes))
                    (List.length bytes)
               then Some (string_of_bytes (c_string_of bytes))
               else convert_ssid_to_utf8
                      (string_of_bytes (c_string_of bytes))
                      (List.length bytes) (system_locale (env w)))
              (set_ssid (Some (string_of_bytes (c_string_of bytes)))
                 (set_ssid_len (List.length bytes) s)))
    /\ trace w' = trace w.
Proof.
  intros Hs Hz. apply zero_byte_found in Hz.
  unfold update_property, connman_service_update_display_name.
  run.
  change (g_variant_is_of_type
            (GV_array G_VARIANT_TYPE_BYTE (map GV_byte bytes))
            G_VARIANT_TYPE_BYTESTRING) with true.
  cbv iota.
  erewrite bind_lift
    by (unfold g_variant_get_data; apply bytes_of_bytes).
  erewrite bind_lift
    by (unfold g_variant_get_size, g_variant_get_data;
        rewrite bytes_of_bytes; reflexivity).
  run. rewrite Hz.
  run. simpl (ssid (set_ssid _ _)). run. simpl (ssid_len _).
  destruct (g_utf8_validate _ _); run;
    (eexists; split; [reflexivity|]); (split; [| reflexivity]);
    rewrite ?store_store; eauto 10 with heap.
Qed.

Lemma name_pass_run (w : World) (p : nat) (s : connman_service_t)
    (name' : string) (i : nat) :
  lookup_service w p = Some s ->
  exists w' s',
    update_property p
      (GV_dict_entry (GV_string "Name") (GV_variant (GV_string name'))) i w
    = (Done i, w')
    /\ lookup_service w' p = Some s'.
Proof.
  intros Hs. unfold update_property. run.
  destruct (c_true (g_strcmp0 (Some name') (name s))); cbn [when];
    unfold connman_service_set_changed; run;
    do 2 eexists; (split; [reflexivity | eauto 10 with heap]).
Qed.


(** X29. The "WiFi.SSID" entry and the loop of a snapshot.  The loop
    goes on from the entry after the number of bytes of the SSID, not
    from the entry after the one read.  So a snapshot that starts with an
    SSID entry, with a zero byte, and has no more entries after it than
    the SSID has bytes is read to the SSID entry and no further, on any
    fuel but none: the service is as that entry alone leaves it, and the
    trace as it was.  And a snapshot of a "Name" followed by an SSID that
    starts with a zero byte is never read to its end: whatever the fuel,
    the run is cut off. *)
Theorem ssid_entry_moves_the_loop (w : World) (p : nat)
    (s : connman_service_t) (bytes tail : list Z) (name' : string)
    (entries : list (string * GVariant)) (fuel : nat) :
  lookup_service w p = Some s ->
  let ssid_of l := GV_array G_VARIANT_TYPE_BYTE (map GV_byte l) in
  let size := List.length bytes in
  let ssid' := string_of_bytes (c_string_of bytes) in
  (In 0 bytes ->
   (List.length entries <= List.length (c_string_of bytes))%nat ->
   exists w',
     connman_service_update_properties (S fuel) (Some p)
       (Some (vardict_of (("WiFi.SSID", ssid_of bytes) :: entries))) w
     = (Done tt, w')
     /\ lookup_service w' p
        = Some
            (set_display_name
               (if g_utf8_validate ssid' size then Some ssid'
                else convert_ssid_to_utf8 ssid' size (system_locale (env w)))
               (set_ssid (Some ssid') (set_ssid_len size s)))
     /\ trace w' = trace w)
  /\ fst (connman_service_update_properties fuel (Some p)
            (Some (vardict_of [("Name", GV_string name');
                               ("WiFi.SSID", ssid_of (0 :: tail))])) w)
     = OutOfFuel.
Proof.
  intros Hs. cbv zeta. split.
  - intros Hz Hlen.
    destruct (ssid_pass_run w p s bytes 0 Hs Hz) as (w' & Hrun & Hlk & Htr).
    exists w'. split; [| split; [exact Hlk | exact Htr]].
    unfold connman_service_update_properties.
    rewrite update_properties_loop_unfold. steps.
    change (Nat.ltb 0 _) with true. cbv iota. steps. cbn [fst snd].
    erewrite bind_run by exact Hrun.
    rewrite update_properties_loop_unfold. steps.
    match goal with
    | |- context [Nat.ltb ?a ?b] =>
        replace (Nat.ltb a b) with false
          by (symmetry; apply Nat.ltb_ge; cbn [List.length map];
              rewrite length_map; lia)
    end.
    reflexivity.
  - assert (forall k W x,
               lookup_service W p = Some x ->
               fst (update_properties_loop k p
                      (vardict_of
                         [("Name", GV_string name');
                          ("WiFi.SSID",
                           GV_array G_VARIANT_TYPE_BYTE
                             (map GV_byte (0 :: tail)))]) 1 W)
               = OutOfFuel) as Hloop.
    { induction k as [|k IH]; intros W x HW;
        rewrite update_properties_loop_unfold; steps;
        change (Nat.ltb 1 _) with true; cbv iota.
      - reflexivity.
      - steps. cbn [fst snd].
        destruct (ssid_pass_run W p x (0 :: tail) 1 HW (or_introl eq_refl))
          as (W' & Hrun & Hlk & _).
        erewrite bind_run by exact Hrun.
        change (c_string_of (0 :: tail)) with (@nil Z).
        eapply IH. exact Hlk. }
    unfold connman_service_update_properties.
    destruct fuel as [|k];
      rewrite update_properties_loop_unfold; steps;
      change (Nat.ltb 0 _) with true; cbv iota.
    + reflexivity.
    + steps. cbn [fst snd].
      destruct (name_pass_run w p s name' 0 Hs) as (w' & s' & Hrun & Hlk).
      erewrite bind_run by exact Hrun.
      eapply Hloop. exact Hlk.
Qed.

(** X24. After a "BSS" push, every entry of the stored list has a BSSID
    of at most 17 characters, which is what its [char[18]] holds,
    however long the "Id" strings of the bag are. *)
Theorem bssid_fits_its_buffer (w : World) (p : nat) (s : connman_service_t)
    (entries : list (list (string * GVariant))) :
  lookup_service w p = Some s ->
  exists w' l,
    property_changed_cb "BSS" (GV_variant (bss_bag_of entries)) p w
    = (Done tt, w')
    /\ (exists s', lookup_service w' p = Some s' /\ bss s' = Some l)
    /\ List.length l = List.length entries
    /\ Forall (fun b => (String.length (bssid b) <= 17)%nat) l.
Proof.
  intros Hs. unfold property_changed_cb.
  destruct (service_property_changed (env w)) as [f|] eqn:Eh; run;
    rewrite ?Eh; run;
    (erewrite update_bss_run by eauto with heap);
    (do 2 eexists; split; [reflexivity|]);
    (split; [eexists; split; [eauto 10 with heap | reflexivity]|]);
    (split; [apply length_map|]);
    apply Forall_forall; intros b Hb; apply in_map_iff in Hb;
    destruct Hb as (kvs & <- & _); unfold bss_of_entry; cbn [bssid];
    destruct (sub_field kvs "Id" G_VARIANT_TYPE_STRING) as [[]|];
    simpl; try lia; apply length_substring_le.
Qed.

End Names.
(** ** Peers *)

Lemma preserves_lift_bind {A B : Type} (I : World -> Prop) (o : option A)
    (k : A -> M B) :
  (forall a, o = Some a -> preserves I (k a)) ->
  preserves I (mbind (lift o) k).
Proof.
  intros H. destruct o as [a|]; [apply (H a eq_refl) | intros w Hw; exact Hw].
Qed.

Section Peers.
Context {hdr : connman_service_h} {ext : Collaborators}.

(** X25. A "P2P" entry of a snapshot first clears [wfd_enabled], and
    only a "WFDDevType" entry of its bag sets it again: after a bag that
    has no such entry the peer is not WFD-enabled, whatever the other
    entries hold and wherever the run stops. *)
Theorem p2p_bag_resets_wfd (w : World) (p : nat) (s : connman_service_t)
    (bag : GVariant) (i : nat) :
  lookup_service w p = Some s ->
  (forall j entry,
     g_variant_get_child_value bag j = Some entry ->
     g_variant_get_child_value entry 0 <> Some (GV_string "WFDDevType")) ->
  exists s',
    lookup_service
      (snd (update_property p
              (GV_dict_entry (GV_string "P2P") (GV_variant bag)) i w)) p
    = Some s'
    /\ wfd_enabled (peer_info s') = false.
Proof.
  intros Hs Hbag.
  set (J := fun x : connman_service_t => wfd_enabled (peer_info x) = false).
  unfold update_property. run.
  match goal with
  | |- context [snd (?m ?W)] =>
      assert (preserves (kept p W J) m) as Hkeep;
      [| destruct (Hkeep W) as ((s' & Hs' & HJ) & _);
         [apply (kept_start W p (upd_peer (set_wfd_enabled false) s));
          [eauto with heap | reflexivity]
         | exists s'; split; [exact Hs' | exact HJ]]]
  end.
  apply preserves_bind; [apply preserves_lift | intros n].
  apply preserves_bind; [| intros ?; apply preserves_mret].
  apply preserves_for_loop. intros j.
  apply preserves_lift_bind. intros entry He.
  apply preserves_lift_bind. intros key_v Hk.
  apply preserves_bind; [apply preserves_lift | intros val_v].
  apply preserves_bind; [apply preserves_lift | intros val].
  apply preserves_lift_bind. intros key Hkey.
  destruct key_v; try discriminate. injection Hkey as ->.
  assert (is_key key "WFDDevType" = false) as Hno.
  { rewrite is_key_eqb. apply String.eqb_neq. intros ->.
    exact (Hbag j entry He Hk). }
  unfold update_p2p_property. rewrite Hno.
  keep ltac:(let H := fresh in intros ? H; exact H).
Qed.

End Peers.
(** ** Commands *)

Section Commands.
Context {hdr : connman_service_h} {ext : Collaborators}.

Lemma peer_connect_run (w : World) (p : nat) (s : connman_service_t)
    (cb2 : option nat) (data2 : nat) :
  lookup_service w p = Some s ->
  exists w1,
    connman_peer_connect (Some p) cb2 data2 w = (Done true, w1)
    /\ lookup_service w1 p
       = Some (set_cancellable (Some (List.length (cancellables w)))
                 (set_disconnecting false s))
    /\ cancellables w1
       = cancellables w ++ [{| cancelled := false; ref_count := 1 |}]
    /\ pending w1
       = pending w
           ++ [{| pending_is_peer := true;
                  pending_token := List.length (cancellables w);
                  pending_cbd := set_user p (cb_data_new cb2 data2) |}].
Proof.
  intros Hs. unfold connman_peer_connect, call_connect_async.
  steps. eexists. split; [reflexivity|]. simpl.
  repeat split. unfold lookup_service. simpl.
  rewrite update_nth_twice, nth_error_update_nth_eq; [reflexivity|].
  eapply lookup_service_lt; eassumption.
Qed.

(** X26. A connect, on a service or on a peer, ends the suppression: it
    clears [disconnecting], so that the next pushed state is stored even
    when a disconnect came before.  The peer connect joins the pending
    calls as a peer call, under a fresh token. *)
Theorem connect_ends_the_suppression (w : World) (p : nat)
    (s : connman_service_t) (n : string) (cb2 : option nat) (data2 : nat) :
  lookup_service w p = Some s ->
  state s <> Some n ->
  (exists w1 s2,
     connman_service_connect (Some p) cb2 data2 w = (Done true, w1)
     /\ lookup_service
          (snd (connman_service_advance_state (Some p) (GV_string n) w1)) p
        = Some s2
     /\ state s2 = Some n)
  /\ (exists w1 s2,
        connman_peer_connect (Some p) cb2 data2 w = (Done true, w1)
        /\ pending w1
           = pending w
               ++ [{| pending_is_peer := true;
                      pending_token := List.length (cancellables w);
                      pending_cbd := set_user p (cb_data_new cb2 data2) |}]
        /\ lookup_service
             (snd (connman_service_advance_state (Some p) (GV_string n) w1))
             p
           = Some s2
        /\ state s2 = Some n).
Proof.
  intros Hs Hst. split.
  - destruct (connect_run w p s cb2 data2 Hs) as (w1 & Hrun & Hlk & _).
    destruct (advance_state_new_settled w1 p _ n Hlk eq_refl Hst)
      as (s2 & rest & Hs2 & Hst2 & _).
    exists w1, s2. repeat split; assumption.
  - destruct (peer_connect_run w p s cb2 data2 Hs)
      as (w1 & Hrun & Hlk & _ & Hpd).
    destruct (advance_state_new_settled w1 p _ n Hlk eq_refl Hst)
      as (s2 & rest & Hs2 & Hst2 & _).
    exists w1, s2. repeat split; assumption.
Qed.

(** X27. A [GetProperties] call that fails leaves what the service
    holds as it was: [connman_service_get_ipinfo] and
    [connman_service_get_proxyinfo] return [FALSE] and
    [connman_service_fetch_properties] returns [NULL], each after the one
    call.  When the call succeeds, [connman_service_fetch_properties]
    returns the daemon's dictionary as it is and stores nothing. *)
Theorem failed_read_changes_nothing (w : World) (p : nat)
    (s : connman_service_t) :
  lookup_service w p = Some s ->
  let called :=
    set_trace (trace w ++ [E_remote_call (remote s) Call_get_properties]) w in
  (remote_error (env w) (remote s) Call_get_properties <> None ->
   connman_service_get_ipinfo (Some p) w = (Done false, called)
   /\ connman_service_get_proxyinfo (Some p) w = (Done false, called)
   /\ connman_service_fetch_properties (Some p) w = (Done None, called))
  /\ (remote_error (env w) (remote s) Call_get_properties = None ->
      connman_service_fetch_properties (Some p) w
      = (Done (Some (remote_properties (env w) (remote s))), called)).
Proof.
  intros Hs. cbv zeta.
  unfold connman_service_get_ipinfo, connman_service_get_proxyinfo,
    connman_service_fetch_properties, call_sync.
  split; intros Herr; steps; cbv beta; rewrite !env_set_trace.
  - destruct (remote_error (env w) (remote s) Call_get_properties);
      [repeat split | congruence].
  - rewrite Herr. reflexivity.
Qed.

(** X28. The setters.  A [NULL] configuration is refused with [FALSE]
    before any call.  [connman_service_set_autoconnect],
    [connman_service_set_run_online_check] and
    [connman_service_set_passphrase] issue one [SetProperty] call, for
    "AutoConnect", "RunOnlineCheck" and "Passphrase", return [TRUE]
    exactly when it set no error and do not touch the service; a [NULL]
    passphrase stops at the precondition of [g_variant_new_string],
    before the call. *)
Theorem setters_issue_one_call (w : World) (p : nat)
    (s : connman_service_t) (value : bool) (passphrase : string) :
  lookup_service w p = Some s ->
  let result key v :=
    (Done match remote_error (env w) (remote s) (Call_set_property key v)
          with
          | Some _ => false
          | None => true
          end,
     set_trace
       (trace w ++ [E_remote_call (remote s) (Call_set_property key v)]) w)
  in
  connman_service_set_ipv4 (Some p) None w = (Done false, w)
  /\ connman_service_set_ipv6 (Some p) None w = (Done false, w)
  /\ connman_service_set_proxy (Some p) None w = (Done false, w)
  /\ connman_service_set_nameservers (Some p) None w = (Done false, w)
  /\ connman_service_set_autoconnect (Some p) value w
     = result "AutoConnect" (GV_variant (GV_boolean value))
  /\ connman_service_set_run_online_check (Some p) value w
     = result "RunOnlineCheck" (GV_variant (GV_boolean value))
  /\ connman_service_set_passphrase (Some p) (Some passphrase) w
     = result "Passphrase" (GV_variant (GV_string passphrase))
  /\ connman_service_set_passphrase (Some p) None w = (Abort, w).
Proof.
  intros Hs. cbv zeta.
  unfold connman_service_set_autoconnect,
    connman_service_set_run_online_check, connman_service_set_passphrase,
    call_sync, succeeded.
  repeat split; steps; cbv beta; rewrite ?env_set_trace;
    try match goal with
      | |- context [remote_error ?e ?r ?c] => destruct (remote_error e r c)
      end; reflexivity.
Qed.

End Commands.
(** ** More theorems at sample inputs *)

#[local] Existing Instance sample_header.
#[local] Existing Instance sample_collaborators.

Lemma sample_enumerators_distinct : NoDup state_enumerators.
Proof.
  unfold state_enumerators. simpl.
  repeat constructor; simpl; intuition discriminate.
Qed.

(** "association" reads "associating", and a string outside the
    vocabulary reads "notAssociated". *)
Lemma webos_state_at_sample :
  connman_service_get_webos_state
    (connman_service_get_state (Some "association")) = "associating"
  /\ connman_service_get_webos_state
       (connman_service_get_state (Some "roaming")) = "notAssociated".
Proof.
  destruct (webos_state_of_state_string (Some "roaming")
              sample_enumerators_distinct)
    as (_ & H2 & _ & _ & _ & _ & _ & H8).
  split; [exact H2|].
  destruct H8 as [(n & Hin & E) | H]; [| exact H].
  exfalso. injection E as <-. simpl in Hin. intuition discriminate.
Defined.

(** "ethernet" makes the sample service a wired one. *)
Lemma update_type_at_sample :
  exists w',
    connman_service_update_type 0 (Some "ethernet") (world_of sample_service)
    = (Done tt, w')
    /\ connman_service_type_ethernet (Some 0%nat) w' = (Done true, w').
Proof.
  destruct (update_type_then_predicate (world_of sample_service) 0
              sample_service (Some "ethernet") eq_refl) as (_ & H & _).
  destruct (H eq_refl) as (w' & H1 & _ & H3).
  exists w'. split; assumption.
Defined.

(** The sample service is not online; told that it is, it notifies its
    callback once. *)
Lemma advance_online_state_at_sample :
  exists w',
    connman_service_advance_online_state (Some 0%nat) (GV_boolean true)
      (world_of sample_service) = (Done tt, w')
    /\ trace w' = [E_property_change_fn 5 0 "Online" (GV_boolean true)].
Proof.
  destruct (advance_online_state_notifies_once (world_of sample_service) 0
              sample_service true eq_refl) as (_ & H).
  destruct H as (w' & H1 & _ & H3 & _); [discriminate|].
  exists w'. split; [exact H1 | exact H3].
Defined.

(** A disconnect that the daemon accepts returns [TRUE] and leaves the
    flag set. *)
Lemma synchronous_commands_at_sample :
  connman_service_disconnect (Some 0%nat) (world_of sample_service)
  = (Done true,
     set_trace [E_remote_call 7 Call_disconnect]
       (store_service 0 (set_disconnecting true sample_service)
          (world_of sample_service))).
Proof.
  exact (proj1 (synchronous_commands (world_of sample_service) 0
                  sample_service eq_refl)).
Defined.

(** A pushed "ready" on the sample service. *)
Lemma daemon_data_keep_the_identity_at_sample :
  kept 0 (world_of sample_service) (same_identity sample_service)
    (snd (property_changed_cb "State" (GV_variant (GV_string "ready")) 0
            (world_of sample_service))).
Proof.
  exact (proj1 (daemon_data_keep_the_identity (world_of sample_service) 0
                  sample_service "State" (GV_variant (GV_string "ready"))
                  (vardict_of []) 0 eq_refl)).
Defined.

(** The empty mask of the sample service, through a pushed "ready". *)
Lemma change_mask_at_ready :
  mask_within sample_service
  /\ kept 0 (world_of sample_service) mask_within
       (snd (property_changed_cb "State" (GV_variant (GV_string "ready")) 0
               (world_of sample_service))).
Proof.
  split; [reflexivity|].
  exact (proj1 (change_mask_stays_within_the_categories
                  (world_of sample_service) 0 sample_service "State"
                  (GV_variant (GV_string "ready")) (vardict_of []) 0 0
                  eq_refl eq_refl)).
Defined.

(** The sample subelement gives a WFD peer on port 7236. *)
Lemma wfd_parser_at_sample :
  exists peer1,
    p2p_parse_wfd_dev_info sample_wfd_subelems 9 (peer_info zeroed_service)
    = Some peer1
    /\ wfd_enabled peer1 = true
    /\ wfd_rtspport peer1 = 7236.
Proof.
  destruct (wfd_parser_stays_in_the_buffer sample_wfd_subelems 9
              (peer_info zeroed_service)) as (peer1 & H & _).
  - simpl. lia.
  - intros b Hb. simpl in Hb. intuition lia.
  - exists peer1. split; [exact H|].
    injection H as <-. split; reflexivity.
Defined.

(** The method, address and gateway of the sample configuration come
    back; the netmask, which was not given, keeps its old value. *)
Lemma ipv4_configuration_at_sample :
  exists sent w3,
    connman_service_get_ipinfo (Some 0%nat)
      (world_with (answering_env "IPv4" sent) sample_wired_service)
    = (Done true, w3)
    /\ option_map (fun s => ipv4 (ipinfo s)) (lookup_service w3 0)
       = Some (Build_ipv4info (Some "manual") (Some "192.168.0.2")
                 (Some "255.255.255.0") (Some "192.168.0.1") 24).
Proof.
  destruct (ipv4_configuration_reads_back (world_of sample_service) 0
              sample_service sample_ipv4 eq_refl) as (sent & _ & Hread).
  destruct (Hread (world_with (answering_env "IPv4" sent)
                     sample_wired_service) sample_wired_service eq_refl
              (conj eq_refl eq_refl)) as (w3 & Hrun & Hlk).
  exists sent, w3. split; [exact Hrun|]. rewrite Hlk. reflexivity.
Defined.

(** A prefix length of 128 comes back as -128 where [char] is signed. *)
Lemma ipv6_configuration_at_sample :
  exists sent w3,
    connman_service_get_ipinfo (Some 0%nat)
      (world_with (answering_env "IPv6" sent) sample_service)
    = (Done true, w3)
    /\ option_map (fun s => ipv6 (ipinfo s)) (lookup_service w3 0)
       = Some (Build_ipv6info (Some "manual") (Some "fe80::2") (-128) None).
Proof.
  destruct (ipv6_configuration_reads_back (world_of sample_service) 0
              sample_service sample_ipv6 eq_refl)
    as ((sent & _ & Hread) & _).
  destruct (Hread (world_with (answering_env "IPv6" sent) sample_service)
              sample_service eq_refl (conj eq_refl eq_refl))
    as (w3 & Hrun & Hlk).
  exists sent, w3. split; [exact Hrun|]. rewrite Hlk. reflexivity.
Defined.

(** The servers and excludes of the sample proxy come back in order. *)
Lemma proxy_configuration_at_sample :
  exists sent w3,
    connman_service_get_proxyinfo (Some 0%nat)
      (world_with (answering_env "Proxy" sent) sample_service)
    = (Done true, w3)
    /\ option_map proxyinfo (lookup_service w3 0) = Some sample_proxy.
Proof.
  destruct (proxy_configuration_reads_back (world_of sample_service) 0
              sample_service sample_proxy eq_refl) as (sent & _ & Hread).
  destruct (Hread (world_with (answering_env "Proxy" sent) sample_service)
              sample_service eq_refl (conj eq_refl eq_refl))
    as (w3 & Hrun & Hlk).
  exists sent, w3. split; [exact Hrun|]. rewrite Hlk. reflexivity.
Defined.

(** Two name servers come back in the order they were given. *)
Lemma nameservers_at_sample :
  exists sent w3,
    connman_service_get_ipinfo (Some 0%nat)
      (world_with (answering_env "Nameservers" sent) sample_service)
    = (Done true, w3)
    /\ option_map (fun s => dns (ipinfo s)) (lookup_service w3 0)
       = Some (Some ["192.168.0.1"; "10.0.0.1"]).
Proof.
  destruct (nameservers_read_back (world_of sample_service) 0
              sample_service ["192.168.0.1"; "10.0.0.1"] eq_refl)
    as (sent & _ & Hread).
  destruct (Hread (world_with (answering_env "Nameservers" sent)
                     sample_service) sample_service eq_refl
              (conj eq_refl eq_refl)) as (w3 & Hrun & Hlk).
  exists sent, w3. split; [exact Hrun|]. rewrite Hlk. reflexivity.
Defined.

(** The service with a pending connect is only cancelled; the idle
    sample service is released. *)
Lemma free_at_sample :
  connman_service_free 0 (pending_world false)
  = (Done tt,
     set_cancellables [{| cancelled := true; ref_count := 1 |}]
       (pending_world false))
  /\ exists w',
       connman_service_free 0
         (world_of (set_handle_property_change_fn None zeroed_service))
       = (Done tt, w')
       /\ lookup_service w' 0 = None
       /\ trace w' = [E_proxy_unref 0].
Proof.
  split.
  - exact (proj1 (free_cancels_or_releases (pending_world false) 0 _
                    eq_refl) 0%nat _ eq_refl eq_refl).
  - destruct (proj2 (free_cancels_or_releases
                       (world_of (set_handle_property_change_fn None
                                    zeroed_service)) 0 _ eq_refl)
                eq_refl (or_intror eq_refl))
      as (w' & H1 & H2 & _ & H4 & _).
    exists w'. repeat split; assumption.
Defined.

(** Connect, free, completion: the callback [1] hears of a failure and
    the service is still there. *)
Lemma free_during_connect_at_sample :
  exists w1 w2 w3 s3,
    connman_service_connect (Some 0%nat) (Some 1%nat) 11
      (world_of sample_service) = (Done true, w1)
    /\ connman_service_free 0 w1 = (Done tt, w2)
    /\ complete_connect 0 result_ok w2 = (Done tt, w3)
    /\ trace w3 = trace w2 ++ [E_connect_cb 1 false 11]
    /\ lookup_service w3 0 = Some s3
    /\ cancellable s3 = None.
Proof.
  destruct (free_during_connect_is_deferred (world_of sample_service) 0
              sample_service (Some 1%nat) 11 result_ok eq_refl)
    as (w1 & w2 & w3 & H1 & H2 & _ & _ & _ & _ & H7 & H8 & H9 & _).
  exists w1, w2, w3. eexists.
  split; [exact H1|]. split; [exact H2|]. split; [exact H7|].
  split; [exact H8|]. split; [exact H9 | reflexivity].
Defined.

(** A new service made from a path and an empty bag, beside the sample
    service. *)
Lemma new_service_at_sample :
  fst (connman_service_new 0
         (Some (GV_tuple [GV_string "/net/connman/service/wifi_home";
                          vardict_of []]))
         false (world_of sample_service))
  = Done (Some 1%nat).
Proof.
  exact (proj1 (proj2 (proj2 (new_service_is_initialised
                                (world_of sample_service) false
                                "/net/connman/service/wifi_home"
                                (vardict_of []) 0))
                  eq_refl)
           eq_refl).
Defined.

(** A pushed "Name", which the handler does not know, changes nothing. *)
Lemma unknown_property_at_sample :
  exists w',
    property_changed_cb "Name" (GV_variant (GV_string "home")) 0
      (world_of sample_service) = (Done tt, w')
    /\ trace w' = []
    /\ services w' = [Some sample_service].
Proof.
  destruct (proj1 (unknown_properties_are_ignored (world_of sample_service)
                     0 sample_service "Name" (GV_string "home") 0 eq_refl))
    as (w' & H1 & H2 & H3 & _).
  - simpl. intuition discriminate.
  - exists w'. repeat split; assumption.
Defined.

(** The strength 0 that the sample service has, pushed again. *)
Lemma repeated_strength_at_sample :
  exists w',
    property_changed_cb "Strength" (GV_variant (GV_byte 0)) 0
      (world_of sample_service) = (Done tt, w')
    /\ lookup_service w' 0 = Some sample_service
    /\ trace w' = [].
Proof.
  exact (proj1 (repeated_values_mark_nothing (world_of sample_service) 0
                  sample_service 0 false 0 eq_refl)).
Defined.

(** Callback [9], once registered, hears of the service going online. *)
Lemma registered_callback_at_sample :
  exists w1 w2,
    connman_service_register_property_changed_cb 0 (Some 9%nat)
      (world_of sample_service) = (Done tt, w1)
    /\ property_changed_cb "Online" (GV_variant (GV_boolean true)) 0 w1
       = (Done tt, w2)
    /\ trace w2 = [E_property_change_fn 9 0 "Online" (GV_boolean true)].
Proof.
  destruct (registered_callbacks_are_invoked (world_of sample_service) 0
              sample_service 9 true 0 eq_refl) as (_ & _ & H & _).
  destruct H as (w1 & w2 & H1 & H2 & H3); [discriminate|].
  exists w1, w2. repeat split; assumption.
Defined.

(** The peer that is "ready" is connected and not online. *)
Lemma connected_at_sample :
  connman_service_is_online 0 (world_of sample_peer_service)
  = (Done false, world_of sample_peer_service)
  /\ connman_service_is_connected 0 (world_of sample_peer_service)
     = (Done true, world_of sample_peer_service).
Proof.
  destruct (connected_is_ready_or_online (world_of sample_peer_service) 0
              sample_peer_service sample_enumerators_distinct eq_refl)
    as (o & c & H1 & H2 & H3 & H4).
  split.
  - rewrite H1. destruct o; [| reflexivity].
    destruct H3 as [H3 _]. discriminate (H3 eq_refl).
  - rewrite H2. destruct c; [reflexivity|].
    destruct H4 as [_ H4]. discriminate (H4 (or_introl eq_refl)).
Defined.

(** A disconnecting service that is told "ready" becomes ready and stays
    disconnecting; and after a disconnect, a first "failure" is heard by
    the hook [3] alone, and a second one is stored. *)
Lemma suppression_at_sample :
  (exists s',
      lookup_service
        (snd (property_changed_cb "State" (GV_variant (GV_string "ready")) 0
                (world_of (set_disconnecting true sample_service)))) 0
      = Some s'
      /\ state s' = Some "ready"
      /\ disconnecting s' = true)
  /\ (exists r w1 w2 s2 s3,
         connman_service_disconnect (Some 0%nat)
           (world_with hooked_env sample_service) = (Done r, w1)
         /\ property_changed_cb "State" (GV_variant (GV_string "failure")) 0
              w1 = (Done tt, w2)
         /\ lookup_service w2 0 = Some s2
         /\ state s2 = Some "idle"
         /\ disconnecting s2 = false
         /\ trace w2
            = trace w1
                ++ [E_service_property_changed 3 None (Some "State")
                      (GV_string "failure")]
         /\ lookup_service
              (snd (property_changed_cb "State"
                      (GV_variant (GV_string "failure")) 0 w2)) 0
            = Some s3
         /\ state s3 = Some "failure").
Proof.
  split.
  - exact (proj1 (suppression_is_one_shot
                    (world_of (set_disconnecting true sample_service)) 0
                    (set_disconnecting true sample_service) "ready" eq_refl)
             eq_refl (or_introl eq_refl)).
  - destruct (proj2 (suppression_is_one_shot
                       (world_with hooked_env sample_service) 0
                       sample_service "failure" eq_refl))
      as (r & w1 & w2 & H1 & H2 & H3 & H4 & s3 & H5 & H6);
      [discriminate | discriminate | discriminate |].
    exists r, w1, w2. eexists. exists s3.
    split; [exact H1|]. split; [exact H2|]. split; [exact H3|].
    split; [reflexivity|]. split; [reflexivity|].
    split; [exact H4|]. split; [exact H5 | exact H6].
Defined.

(** The rules of [eth0] go to table 10. *)
Lemma ip_rules_at_sample :
  exists w1 w2,
    connman_service_create_ip_rule 0 (world_of sample_wired_service)
    = (Done tt, w1)
    /\ trace w1
       = [E_system (Ip_route_default true 10 "192.168.0.1");
          E_system (Ip_rule_from true "192.168.0.2" 24 10);
          E_system (Ip_rule_to true "192.168.0.2" 24 10)]
    /\ connman_service_delete_ip_rule 0 w1 = (Done tt, w2)
    /\ connman_service_delete_ip_rule 0 w2 = (Done tt, w2).
Proof.
  destruct (ip_rules_are_added_and_withdrawn_once
              (ext := sample_collaborators)
              (world_of sample_wired_service) 0 sample_wired_service
              "192.168.0.2" "255.255.255.0" "192.168.0.1" "eth0" 0
              eq_refl eq_refl eq_refl eq_refl eq_refl eq_refl eq_refl
              eq_refl)
    as ((w1 & w2 & H1 & H2 & _ & _ & H5 & _ & _ & H8) & _).
  - simpl. lia.
  - reflexivity.
  - unfold INT_MIN, INT_MAX. lia.
  - intros status c Hc. simpl in Hc.
    destruct status;
      (destruct Hc as [<- | [<- | [<- | []]]]; vm_compute;
       repeat constructor).
  - exists w1, w2. repeat split; assumption.
Defined.

(** "Already connected" is a success, for the callback [1]. *)
Lemma connect_outcome_at_sample :
  exists w',
    connect_callback result_already_connected sample_cbd
      (pending_world false) = (Done tt, w')
    /\ trace w'
       = trace (pending_world false)
           ++ [E_connect_finish 7 false; E_connect_cb 1 true 11].
Proof.
  destruct (connect_reports_success_exactly_when false (pending_world false)
              sample_cbd _ 0 _ 1 result_already_connected
              eq_refl eq_refl eq_refl eq_refl eq_refl)
    as (w' & ret & H1 & H2 & _ & H4).
  exists w'. split; [exact H1|]. rewrite H2.
  destruct ret; [reflexivity|]. exfalso.
  assert (false = true) as E; [| discriminate E].
  apply H4. right. eexists. split; [reflexivity|]. left.
  exists "GDBus.Error:net.connman.Error.", ": Already connected".
  reflexivity.
Defined.


(** A snapshot of the SSID "abc", a strength and a name ends at the SSID:
    the name is not stored.  A snapshot of a name and an SSID that is one
    zero byte is not read to its end in a hundred passes. *)
Lemma ssid_loop_at_sample :
  (exists w' s',
      connman_service_update_properties 1 (Some 0%nat)
        (Some
           (vardict_of
              [("WiFi.SSID",
                GV_array G_VARIANT_TYPE_BYTE (map GV_byte [97; 98; 99; 0]));
               ("Strength", GV_byte 50);
               ("Name", GV_string "home")]))
        (world_of sample_service) = (Done tt, w')
      /\ lookup_service w' 0 = Some s'
      /\ ssid s' = Some "abc"
      /\ strength s' = 0
      /\ name s' = None)
  /\ fst (connman_service_update_properties 100 (Some 0%nat)
            (Some
               (vardict_of
                  [("Name", GV_string "home");
                   ("WiFi.SSID",
                    GV_array G_VARIANT_TYPE_BYTE (map GV_byte [0]))]))
            (world_of sample_service))
     = OutOfFuel.
Proof.
  split.
  - destruct (proj1 (ssid_entry_moves_the_loop (world_of sample_service) 0
                       sample_service [97; 98; 99; 0] [] "home"
                       [("Strength", GV_byte 50);
                        ("Name", GV_string "home")] 0 eq_refl))
      as (w' & H1 & H2 & _).
    + right. right. right. left. reflexivity.
    + simpl. lia.
    + exists w'. eexists. split; [exact H1|]. split; [exact H2|].
      repeat split.
  - exact (proj2 (ssid_entry_moves_the_loop (world_of sample_service) 0
                    sample_service [] [] "home" [] 100 eq_refl)).
Defined.

(** The over-long Id of the first sample entry is cut. *)
Lemma bssid_at_sample :
  exists w' l,
    property_changed_cb "BSS" (GV_variant (bss_bag_of sample_bss_entries)) 0
      (world_of sample_service) = (Done tt, w')
    /\ List.length l = 2%nat
    /\ Forall (fun b => (String.length (bssid b) <= 17)%nat) l.
Proof.
  destruct (bssid_fits_its_buffer (world_of sample_service) 0
              sample_service sample_bss_entries eq_refl)
    as (w' & l & H1 & _ & H3 & H4).
  exists w', l. repeat split; assumption.
Defined.

(** A bag with a device address only. *)
Lemma p2p_bag_at_sample :
  exists s',
    lookup_service
      (snd (update_property 0
              (GV_dict_entry (GV_string "P2P")
                 (GV_variant
                    (vardict_of
                       [("DeviceAddress", GV_string "aa:bb:cc:dd:ee:ff")])))
              0
              (world_of
                 (upd_peer (set_wfd_enabled true) sample_peer_service)))) 0
    = Some s'
    /\ wfd_enabled (peer_info s') = false.
Proof.
  apply (p2p_bag_resets_wfd
           (world_of (upd_peer (set_wfd_enabled true) sample_peer_service))
           0 (upd_peer (set_wfd_enabled true) sample_peer_service) _ 0).
  - reflexivity.
  - intros [|j] entry H; simpl in H.
    + injection H as <-. discriminate.
    + destruct j; discriminate.
Defined.

(** After a disconnect and a connect, "association" is stored. *)
Lemma connect_ends_the_suppression_at_sample :
  exists w1 s2,
    connman_service_connect (Some 0%nat) (Some 1%nat) 11
      (world_of (set_disconnecting true sample_service)) = (Done true, w1)
    /\ lookup_service
         (snd (connman_service_advance_state (Some 0%nat)
                 (GV_string "association") w1)) 0
       = Some s2
    /\ state s2 = Some "association".
Proof.
  apply (connect_ends_the_suppression
           (world_of (set_disconnecting true sample_service)) 0
           (set_disconnecting true sample_service) "association"
           (Some 1%nat) 11).
  - reflexivity.
  - discriminate.
Defined.

(** Under a daemon whose calls fail, the reads return [FALSE] and
    [NULL]. *)
Lemma failed_read_at_sample :
  fst (connman_service_get_ipinfo (Some 0%nat)
         (world_with failing_env sample_service)) = Done false
  /\ fst (connman_service_fetch_properties (Some 0%nat)
            (world_with failing_env sample_service)) = Done None.
Proof.
  destruct (proj1 (failed_read_changes_nothing
                     (world_with failing_env sample_service) 0
                     sample_service eq_refl)) as (H1 & _ & H3).
  - discriminate.
  - rewrite H1, H3. split; reflexivity.
Defined.

(** Auto-connect is set with one call; a [NULL] passphrase is not
    sent. *)
Lemma setters_at_sample :
  connman_service_set_autoconnect (Some 0%nat) true (world_of sample_service)
  = (Done true,
     set_trace
       [E_remote_call 7
          (Call_set_property "AutoConnect" (GV_variant (GV_boolean true)))]
       (world_of sample_service))
  /\ connman_service_set_passphrase (Some 0%nat) None
       (world_of sample_service)
     = (Abort, world_of sample_service).
Proof.
  destruct (setters_issue_one_call (world_of sample_service) 0
              sample_service true "" eq_refl)
    as (_ & _ & _ & _ & H5 & _ & _ & H8).
  split; [exact H5 | exact H8].
Defined.
